(** * urbs scenario comparison ([comp.py]): a shallow embedding

    The script discovers result spreadsheets, loads two sheets from each,
    aggregates them into a cost table and an energy table and writes a
    report.  This development embeds the script function by function:

    - Python built-ins used by the script ([str.replace], [list.index],
      [list.pop], [sorted], [list.sort(key=...)]) in module [Py];
    - the parts of [os.path], [fnmatch] and [glob] the script calls, over an
      explicit file-system value, in module [OsPath] and [Glob];
    - the pandas operations the script calls, over a positional, column-major
      [frame] whose cells are IEEE doubles ([PrimFloat.float], a blank cell
      being NaN), in module [Pandas];
    - the three functions of the script itself, with their names, and its
      main program.

    Three things are outside the embedding.  Plotting (lines 119--168)
    does not change the two tables and is left out; it can still raise
    before the report is written, so a report here is what the script
    writes when plotting succeeds.  [glob] is embedded for directory names
    without the characters [*], [?] and [[], which it would expand.  pandas
    holds a column of whole numbers as 64-bit integers; the doubles of the
    embedding agree with them as long as sums are exact, and the statements
    about sums of the commodity table say so. *)

From Stdlib Require Import ZArith Floats Ascii String List Permutation Sorted.
From Stdlib Require Import OrdersEx Lia.
From stdpp Require Import base option list gmap strings.

Open Scope string_scope.

(** ** Exceptions raised by the embedded code *)

Inductive exn : Type :=
| IndexError      (* [entries[-1]] on an empty list *)
| ValueError      (* [list.index] on an absent element *)
| KeyError        (* [.loc[label]] on an absent label *)
| SheetNotFound   (* [xls.parse] on a missing sheet; its class depends on
                     the version of pandas and of the reader *)
| FileNotFound    (* [pd.ExcelFile], [os.path.getmtime] on a missing path *)
| InvalidIndex.   (* reindexing on an index with repeated labels *)

Inductive pyres (A : Type) : Type :=
| Ok (a : A)
| Raise (e : exn).
Arguments Ok {A} a.
Arguments Raise {A} e.

Definition bind {A B} (m : pyres A) (k : A -> pyres B) : pyres B :=
  match m with
  | Ok a => k a
  | Raise e => Raise e
  end.

Notation "'let*' x := m 'in' k" := (bind m (fun x => k))
  (at level 10, x name, m at level 100, k at level 200).

(** ** Python built-ins *)

Module Py.

(** [s.replace(old, new)]: every non-overlapping occurrence of [old],
    scanning from the left.  [skip] counts the characters of the occurrence
    just replaced that are still to be dropped. *)
Fixpoint replace_from (skip : nat) (old new s : string) : string :=
  match s with
  | EmptyString => EmptyString
  | String c s' =>
      match skip with
      | S k => replace_from k old new s'
      | O =>
          if String.prefix old s
          then new +:+ replace_from (String.length old - 1) old new s'
          else String c (replace_from 0 old new s')
      end
  end.

(** For an empty [old], Python inserts [new] before every character and
    at the end. *)
Fixpoint interleave (new s : string) : string :=
  match s with
  | EmptyString => new
  | String c s' => new +:+ String c (interleave new s')
  end.

Definition replace (old new s : string) : string :=
  match old with
  | EmptyString => interleave new s
  | String _ _ => replace_from 0 old new s
  end.

(** [l.index(x)]: position of the first element equal to [x]. *)
Fixpoint index {A} `{EqDecision A} (x : A) (l : list A) : pyres nat :=
  match l with
  | [] => Raise ValueError
  | y :: l' => if decide (y = x) then Ok 0
               else let* i := index x l' in Ok (S i)
  end.

(** [l.pop(i)] for [0 <= i]: the removed element and the remaining list. *)
Definition pop {A} (i : nat) (l : list A) : pyres (A * list A) :=
  match l !! i with
  | Some x => Ok (x, delete i l)
  | None => Raise IndexError
  end.

(** [l.append(x)]. *)
Definition append {A} (l : list A) (x : A) : list A := l ++ [x].

(** [l[-1]]. *)
Definition last_item {A} (l : list A) : pyres A :=
  match last l with
  | Some x => Ok x
  | None => Raise IndexError
  end.

(** Python's sort is stable and compares with [<] only.  Insertion from the
    right realises exactly that: an element is placed before the first
    element that is not smaller than it. *)
Section Sort.
Context {A : Type} (lt : A -> A -> bool).

Fixpoint insert (x : A) (l : list A) : list A :=
  match l with
  | [] => [x]
  | y :: l' => if lt y x then y :: insert x l' else x :: l
  end.

Definition sort (l : list A) : list A := foldr insert [] l.
End Sort.

(** [sorted(l, key=f)] over keys compared with [ltk]. *)
Definition sort_key {A K} (ltk : K -> K -> bool) (f : A -> K) : list A -> list A :=
  sort (fun a b => ltk (f a) (f b)).

(** [l.sort(key=f)] with a key function that may raise: the keys of all
    items are computed first, in the order of the list, and the first error
    leaves the sort. *)
Fixpoint keys {A K} (f : A -> pyres K) (l : list A) : pyres (list (K * A)) :=
  match l with
  | [] => Ok []
  | x :: l' =>
      let* k := f x in
      let* kl := keys f l' in
      Ok ((k, x) :: kl)
  end.

Definition list_sort {A K} (ltk : K -> K -> bool) (f : A -> pyres K) (l : list A)
  : pyres (list A) :=
  let* kl := keys f l in
  Ok (List.map snd (sort_key ltk fst kl)).

(** [sorted(l)] on strings: comparison by code point, shorter prefix
    first. *)
Definition sorted_str : list string -> list string := sort String.ltb.

End Py.

(** ** [os.path] (POSIX flavour) *)

Module OsPath.

Definition sep : ascii := "/"%char.

Fixpoint has_sep (p : string) : bool :=
  match p with
  | EmptyString => false
  | String c p' => Ascii.eqb c sep || has_sep p'
  end.

(** [os.path.basename(p)]: what follows the last separator. *)
Fixpoint basename (p : string) : string :=
  match p with
  | EmptyString => EmptyString
  | String c p' =>
      if has_sep p' then basename p'
      else if Ascii.eqb c sep then p' else p
  end.

Fixpoint ends_with_sep (p : string) : bool :=
  match p with
  | EmptyString => false
  | String c EmptyString => Ascii.eqb c sep
  | String _ p' => ends_with_sep p'
  end.

(** [head == sep * len(head)]. *)
Fixpoint all_sep (p : string) : bool :=
  match p with
  | EmptyString => true
  | String c p' => Ascii.eqb c sep && all_sep p'
  end.

(** [head.rstrip('/')]. *)
Fixpoint rstrip_sep (p : string) : string :=
  match p with
  | EmptyString => EmptyString
  | String c p' => if all_sep p then EmptyString else String c (rstrip_sep p')
  end.

(** [p[:i], p[i:]] for [i = p.rfind('/') + 1]. *)
Fixpoint cut_after_last_sep (p : string) : string * string :=
  match p with
  | EmptyString => (EmptyString, EmptyString)
  | String c p' =>
      if has_sep p' then
        let (head, tail) := cut_after_last_sep p' in (String c head, tail)
      else if Ascii.eqb c sep then (String c EmptyString, p')
      else (EmptyString, p)
  end.

(** [os.path.split(p)]: the head loses its trailing separators unless it
    consists of separators only. *)
Definition split (p : string) : string * string :=
  let (head, tail) := cut_after_last_sep p in
  (if all_sep head then head else rstrip_sep head, tail).

(** [os.path.join(a, b)] for two components. *)
Definition join (a b : string) : string :=
  if String.prefix "/" b then b
  else match a with
       | EmptyString => b
       | _ => if ends_with_sep a then a +:+ b else a +:+ "/" +:+ b
       end.

End OsPath.


(** ** pandas *)

(** A [frame] is a table with row labels (the index) and labelled columns,
    stored column by column; a cell is an IEEE double and a blank cell is
    NaN.  Labels may repeat.  The operations below are the ones the script
    calls, each under the name pandas gives it.

    Where pandas leaves an order open the embedding fixes one: [concat]
    keeps its keys in the order given and lists the union of the row labels
    by first appearance (the script sorts the rows afterwards), a grouped
    sum lists its groups by first appearance, and a sum adds from the left,
    passing over blank cells. *)

Module Pandas.

Definition nan : float := PrimFloat.nan.
Definition isna (x : float) : bool := PrimFloat.is_nan x.

Record frame (R C : Type) : Type := Frame {
  index : list R;
  cols : list (C * list float)
}.
Arguments Frame {R C} index cols.
Arguments index {R C} f.
Arguments cols {R C} f.

Definition columns {R C} (f : frame R C) : list C := List.map fst (cols f).

(** Every column has one cell per row. *)
Definition rectangular {R C} (f : frame R C) : Prop :=
  Forall (fun cv => length (snd cv) = length (index f)) (cols f).

(** [f.iat[i, j]]. *)
Definition iat {R C} (f : frame R C) (i j : nat) : option float :=
  match cols f !! j with
  | Some cv => snd cv !! i
  | None => None
  end.

(** [Index.get_indexer] for one label: its first position, if any. *)
Definition get_loc {R} `{EqDecision R} (r : R) (idx : list R) : option nat :=
  match Py.index r idx with
  | Ok i => Some i
  | Raise _ => None
  end.

(** The cell of a column at a row label. *)
Definition at_label {R} `{EqDecision R} (idx : list R) (v : list float) (r : R)
  : option float :=
  match get_loc r idx with
  | Some i => v !! i
  | None => None
  end.

(** *** Filling blanks *)

(** [fillna(method='ffill')] on one column: a blank takes the last
    non-blank value above it, if there is one. *)
Fixpoint ffill_from {A} (blank : A -> bool) (prev : option A) (l : list A) : list A :=
  match l with
  | [] => []
  | x :: l' =>
      if blank x then default x prev :: ffill_from blank prev l'
      else x :: ffill_from blank (Some x) l'
  end.

Definition ffill {A} (blank : A -> bool) (l : list A) : list A :=
  ffill_from blank None l.

Definition label_isna (o : option string) : bool :=
  match o with None => true | Some _ => false end.

(** The commodity sheet between [reset_index] and [set_index]: the two
    index levels are ordinary columns named [level_0] and [level_1]. *)
Record flat_table : Type := {
  level_0 : list (option string);
  level_1 : list (option string);
  data_cols : list (string * list float)
}.

Definition reset_index (f : frame (option string * option string) string)
  : flat_table :=
  {| level_0 := List.map fst (index f);
     level_1 := List.map snd (index f);
     data_cols := cols f |}.

(** [DataFrame.fillna(method='ffill')]: every column of the table. *)
Definition fillna_ffill (t : flat_table) : flat_table :=
  {| level_0 := ffill label_isna (level_0 t);
     level_1 := ffill label_isna (level_1 t);
     data_cols := List.map (fun cv => (fst cv, ffill isna (snd cv))) (data_cols t) |}.

(** [set_index(['level_0', 'level_1'])]. *)
Definition set_index (t : flat_table)
  : frame (option string * option string) string :=
  Frame (zip (level_0 t) (level_1 t)) (data_cols t).

(** *** Concatenation *)

(** [pd.unique]: the distinct values by first appearance. *)
Fixpoint unique {A} `{EqDecision A} (l : list A) : list A :=
  match l with
  | [] => []
  | x :: l' => x :: List.filter (fun y => negb (bool_decide (y = x))) (unique l')
  end.

Definition reindex {R} `{EqDecision R} (old new : list R) (v : list float)
  : list float :=
  List.map (fun r => default nan (at_label old v r)) new.

Definition add_key {K C} (k : K) (cs : list (C * list float))
  : list ((K * C) * list float) :=
  List.map (fun cv => ((k, fst cv), snd cv)) cs.

Fixpoint all_equal {A} `{EqDecision A} (l : list A) : bool :=
  match l with
  | x :: ((y :: _) as l') => bool_decide (x = y) && all_equal l'
  | _ => true
  end.

(** The columns a frame contributes to a concatenation over the row
    labels [u]: its own columns, reindexed, under its key. *)
Definition block {K R C} `{EqDecision R} (u : list R) (kf : K * frame R C)
  : list ((K * C) * list float) :=
  add_key (fst kf)
    (List.map (fun cv => (fst cv, reindex (index (snd kf)) u (snd cv)))
       (cols (snd kf))).

(** [pd.concat(objs, axis=1, keys=keys)]: the columns of all the frames
    side by side, each labelled by the key of its frame and its own label.
    Rows are matched by label over the union of the indexes; a frame that
    lacks a label has blank cells there.  Matching by label needs indexes
    without repeated labels, unless all the frames have the same index,
    in which case rows are matched by position. *)
Definition concat_axis1 {K R C} `{EqDecision R}
    (objs : list (frame R C)) (keys : list K) : pyres (frame R (K * C)) :=
  match objs with
  | [] => Raise ValueError
  | first :: _ =>
      let idxs := List.map index objs in
      if decide (Forall NoDup idxs) then
        let u := unique (List.concat idxs) in
        Ok (Frame u (flat_map (block u) (zip keys objs)))
      else if all_equal idxs then
        Ok (Frame (index first)
              (flat_map (fun kf => add_key (fst kf) (cols (snd kf))) (zip keys objs)))
      else Raise InvalidIndex
  end.

(** [f.columns = f.columns.droplevel(1)]. *)
Definition droplevel_1 {K R C} (f : frame R (K * C)) : frame R K :=
  Frame (index f) (List.map (fun cv => (fst (fst cv), snd cv)) (cols f)).

(** *** Sorting and transposing *)

(** [f.sort_index()]: rows by ascending label; every column follows. *)
Definition sort_index {R C} (lt : R -> R -> bool) (f : frame R C) : frame R C :=
  Frame (Py.sort lt (index f))
    (List.map
       (fun cv => (fst cv,
                   List.map snd (Py.sort_key lt fst (zip (index f) (snd cv)))))
       (cols f)).

(** Labels that may be blank sort with the blank ones last. *)
Definition label_ltb (a b : option string) : bool :=
  match a, b with
  | Some x, Some y => String.ltb x y
  | Some _, None => true
  | None, _ => false
  end.

(** Row [i] across a list of columns. *)
Definition row_values (i : nat) (vs : list (list float)) : list float :=
  List.map (fun v => default nan (v !! i)) vs.

(** [f.transpose()]. *)
Definition transpose {R C} (f : frame R C) : frame C R :=
  Frame (columns f)
    (imap (fun i r => (r, row_values i (List.map snd (cols f)))) (index f)).

(** *** Arithmetic *)

(** [f / d]. *)
Definition div_scalar {R C} (f : frame R C) (d : float) : frame R C :=
  Frame (index f)
    (List.map (fun cv => (fst cv, List.map (fun x => (x / d)%float) (snd cv))) (cols f)).

(** Sum of the non-blank cells. *)
Definition nansum (v : list float) : float :=
  fold_left (fun acc x => if isna x then acc else (acc + x)%float) v 0%float.

(** [f.sum()]: one sum per column. *)
Definition sum_axis0 {R C} (f : frame R C) : list (C * float) :=
  List.map (fun cv => (fst cv, nansum (snd cv))) (cols f).

(** [f.sum(axis=1)]: one sum per row, over columns of [n] cells. *)
Definition sum_axis1 (n : nat) (vs : list (list float)) : list float :=
  List.map (fun i => nansum (row_values i vs)) (seq 0 n).

Definition group {K C} `{EqDecision K} (k : K) (cs : list ((K * C) * list float))
  : list (list float) :=
  List.map snd (List.filter (fun cv => bool_decide (fst (fst cv) = k)) cs).

(** [f.sum(axis=1, level=0)]: per row, one sum for each outer column
    label. *)
Definition sum_axis1_level0 {K R C} `{EqDecision K} (f : frame R (K * C))
  : frame R K :=
  Frame (index f)
    (List.map
       (fun k => (k, sum_axis1 (length (index f)) (group k (cols f))))
       (unique (List.map (fun cv => fst (fst cv)) (cols f)))).

(** *** Selection *)

(** The items of [l] at the positions where [mask] holds. *)
Definition select {A} (mask : list bool) (l : list A) : list A :=
  List.map snd (List.filter fst (zip mask l)).

(** [f.loc[:, mask]]. *)
Definition loc_cols {R C} (mask : list bool) (f : frame R C) : frame R C :=
  Frame (index f) (select mask (cols f)).

(** [f[mask]]. *)
Definition loc_rows {R C} (mask : list bool) (f : frame R C) : frame R C :=
  Frame (select mask (index f))
    (List.map (fun cv => (fst cv, select mask (snd cv))) (cols f)).

(** [f.loc[key]] on a two-level index: the rows whose outer label is
    [key], indexed by their inner label. *)
Definition loc_level0 {K0 K1 C} `{EqDecision K0} (key : K0)
    (f : frame (K0 * K1) C) : pyres (frame K1 C) :=
  let mask := List.map (fun r => bool_decide (fst r = key)) (index f) in
  if existsb id mask
  then Ok (Frame (List.map snd (select mask (index f)))
             (List.map (fun cv => (fst cv, select mask (snd cv))) (cols f)))
  else Raise KeyError.

End Pandas.
(** ** The file system the script reads *)

(** A result workbook as [pd.ExcelFile] sees it: the sheet [Costs] parsed
    with its first column as index, and the sheet [Commodity sums] parsed
    with its two unnamed leading columns as a two-level index whose blank
    cells are missing labels.  A sheet may be absent. *)
Record workbook : Type := {
  sheet_costs : option (Pandas.frame string string);
  sheet_commodity_sums :
    option (Pandas.frame (option string * option string) string)
}.

(** A directory is known by the names [os.scandir] yields for it (in the
    arbitrary order of the operating system), a path by itself.  A path
    that [os.stat] can follow has a modification time, counted in clock
    ticks; for any other path (a dangling link, a name that is gone)
    [getmtime] is [None].  Some paths hold a workbook. *)
Record filesys : Type := {
  listdir : string -> list string;
  getmtime : string -> option Z;
  excel : string -> option workbook
}.

(** ** [fnmatch] and [glob] *)

Module Glob.

(** [fnmatch] for patterns made of literal characters, [*] and [?] (the
    script's patterns have no bracket expression). *)
Fixpoint wild (pat name : list ascii) {struct pat} : bool :=
  match pat with
  | [] => match name with [] => true | _ :: _ => false end
  | c :: pat' =>
      if Ascii.eqb c "*" then
        (fix star (n : list ascii) : bool :=
           wild pat' n || match n with [] => false | _ :: n' => star n' end) name
      else match name with
           | [] => false
           | d :: name' =>
               (Ascii.eqb c "?" || Ascii.eqb c d) && wild pat' name'
           end
  end.

Definition fnmatch (name pat : string) : bool :=
  wild (list_ascii_of_string pat) (list_ascii_of_string name).

(** [glob._ishidden]. *)
Definition ishidden (name : string) : bool := String.prefix "." name.

(** [glob.has_magic]: one of the characters [*], [?], [[] occurs. *)
Definition has_magic (s : string) : bool :=
  existsb (fun c => Ascii.eqb c "*" || Ascii.eqb c "?" || Ascii.eqb c "[")
    (list_ascii_of_string s).

(** [glob._iterdir]: the names in a directory, the current directory for
    an empty name. *)
Definition iterdir (fs : filesys) (dirname : string) : list string :=
  listdir fs (if String.eqb dirname "" then "." else dirname).

(** [glob._glob1]: names of a directory matching a pattern; names that
    begin with a dot are only matched by a pattern that does. *)
Definition glob1 (fs : filesys) (dirname pattern : string) : list string :=
  let names := iterdir fs dirname in
  let names :=
    if ishidden pattern then names
    else List.filter (fun x => negb (ishidden x)) names in
  List.filter (fun n => fnmatch n pattern) names.

(** [glob.glob(pathname)] for a [pathname] with a wildcard in its last
    component and none of [*], [?], [[] before it: the directory part is
    then one directory, taken literally, and every match is joined to it.
    ([glob] expands a directory part that has such a character into all the
    directories it matches; this is not embedded, and the statements about
    listings below are made for directory names free of these
    characters.) *)
Definition glob (fs : filesys) (pathname : string) : list string :=
  let (dirname, basename) := OsPath.split pathname in
  List.map (OsPath.join dirname) (glob1 fs dirname basename).

End Glob.

(** ** File discovery (lines 13--38 of [comp.py]) *)

(** [os.path.getmtime(x)]. *)
Definition os_path_getmtime (fs : filesys) (x : string) : pyres Z :=
  match getmtime fs x with
  | Some t => Ok t
  | None => Raise FileNotFound
  end.

Definition get_most_recent_entry (fs : filesys) (search_dir : string) : pyres string :=
  let entries := Glob.glob fs (OsPath.join search_dir "*") in
  let* entries := Py.list_sort Z.ltb (os_path_getmtime fs) entries in
  Py.last_item entries.

Definition glob_result_files (fs : filesys) (folder_name : string) : list string :=
  let glob_pattern := OsPath.join folder_name "scenario_*.xlsx" in
  let result_files := Py.sorted_str (Glob.glob fs glob_pattern) in
  result_files.

(** ** Scenario names (lines 58--62) *)

Definition scenario_name (rf : string) : string :=
  Py.replace "scenario " ""
    (Py.replace ".xlsx" ""
       (Py.replace "_" " "
          (OsPath.basename rf))).

Definition scenario_names_of (result_files : list string) : list string :=
  List.map scenario_name result_files.

(** The derivation as the comments of lines 58--61 word it: drop the folder,
    put spaces for underscores, drop the file extension, drop the
    [scenario ] prefix. *)
Fixpoint ends_with (suffix s : string) : bool :=
  String.eqb suffix s ||
  match s with
  | EmptyString => false
  | String _ s' => ends_with suffix s'
  end.

Definition drop_extension (ext s : string) : string :=
  if ends_with ext s
  then String.substring 0 (String.length s - String.length ext) s
  else s.

Definition drop_prefix (pre s : string) : string :=
  if String.prefix pre s
  then String.substring (String.length pre) (String.length s - String.length pre) s
  else s.

Definition scenario_name_by_comments (rf : string) : string :=
  drop_prefix "scenario "
    (drop_extension ".xlsx"
       (Py.replace "_" " "
          (OsPath.basename rf))).


(** ** Loading (lines 77--88) *)

(** [xls.parse(name)]: a missing sheet is an error of the reader. *)
Definition parse {A} (sheet : option A) : pyres A :=
  match sheet with
  | Some f => Ok f
  | None => Raise SheetNotFound
  end.

(** Lines 82--85: repair of the two-level index of the commodity sheet. *)
Definition repair_index (esum : Pandas.frame (option string * option string) string)
  : Pandas.frame (option string * option string) string :=
  let esum := Pandas.reset_index esum in
  let esum := Pandas.fillna_ffill esum in
  Pandas.set_index esum.

(** One turn of the loop of line 77. *)
Definition read_result_file (fs : filesys) (rf : string)
  : pyres (Pandas.frame string string
           * Pandas.frame (option string * option string) string) :=
  match excel fs rf with
  | None => Raise FileNotFound
  | Some xls =>
      let* cost := parse (sheet_costs xls) in
      let* esum := parse (sheet_commodity_sums xls) in
      Ok (cost, repair_index esum)
  end.

(** The loop: the lists [costs] and [esums] grow by one frame per file. *)
Fixpoint read_result_files (fs : filesys) (result_files : list string)
  : pyres (list (Pandas.frame string string)
           * list (Pandas.frame (option string * option string) string)) :=
  match result_files with
  | [] => Ok ([], [])
  | rf :: rest =>
      let* ce := read_result_file fs rf in
      let* r := read_result_files fs rest in
      Ok (fst ce :: fst r, snd ce :: snd r)
  end.

(** ** Aggregation (lines 91--115) *)

(** What the run writes: the two sheets of the report, and the two column
    subsets of the cost table that the left chart stacks. *)
Record report : Type := {
  costs : Pandas.frame string string;
  spent : Pandas.frame string string;
  earnt : Pandas.frame string string;
  esums : Pandas.frame string (option string)
}.

(** Lines 100--103. *)
Definition cost_table (costs : Pandas.frame string (string * string))
  : Pandas.frame string string :=
  let costs := Pandas.droplevel_1 costs in
  let costs := Pandas.transpose (Pandas.sort_index String.ltb costs) in
  Pandas.div_scalar costs 1e9%float.

(** Lines 104--105. *)
Definition spent_of (costs : Pandas.frame string string) : Pandas.frame string string :=
  Pandas.loc_cols
    (List.map (fun s => (0 <? snd s)%float) (Pandas.sum_axis0 costs)) costs.

Definition earnt_of (costs : Pandas.frame string string) : Pandas.frame string string :=
  Pandas.loc_cols
    (List.map (fun s => (snd s <? 0)%float) (Pandas.sum_axis0 costs)) costs.

(** Line 111. *)
Definition created_by_scenario
    (esums : Pandas.frame (option string * option string) (string * string))
  : pyres (Pandas.frame (option string) string) :=
  let* created := Pandas.loc_level0 (Some "Created") esums in
  Ok (Pandas.sum_axis1_level0 created).

(** Line 113. *)
Definition used_commodities (esums : Pandas.frame (option string) string)
  : list bool :=
  List.map (fun s => (0 <? s)%float)
    (Pandas.sum_axis1 (length (Pandas.index esums))
       (List.map snd (Pandas.cols esums))).

(** Lines 114--115. *)
Definition energy_table (esums : Pandas.frame (option string) string)
  : Pandas.frame string (option string) :=
  let esums :=
    Pandas.transpose
      (Pandas.sort_index Pandas.label_ltb
         (Pandas.loc_rows (used_commodities esums) esums)) in
  Pandas.div_scalar esums 1e3%float.

(** Lines 91--115 as a whole, from the loaded frames. *)
Definition analyse (scenario_names : list string)
    (costs : list (Pandas.frame string string))
    (esums : list (Pandas.frame (option string * option string) string))
  : pyres report :=
  let* costs := Pandas.concat_axis1 costs scenario_names in
  let* esums := Pandas.concat_axis1 esums scenario_names in
  let costs := cost_table costs in
  let spent := spent_of costs in
  let earnt := earnt_of costs in
  let* esums := created_by_scenario esums in
  let esums := energy_table esums in
  Ok {| costs := costs; spent := spent; earnt := earnt; esums := esums |}.

(** ** [compare_scenarios] (lines 40--173) *)

(** Lines 64--70 on the two lists.  The first component is the content of
    the list object [result_files] when the block is left, whether by its
    end, by the handler, or by an error the handler does not catch. *)
Definition move_base_last (result_files scenario_names : list string)
  : list string * pyres (list string) :=
  match Py.index "base" scenario_names with
  | Ok base_scenario =>
      match Py.pop base_scenario result_files with
      | Ok (rf, rest) =>
          let result_files := Py.append rest rf in
          match Py.pop base_scenario scenario_names with
          | Ok (name, names) => (result_files, Ok (Py.append names name))
          | Raise e => (result_files, Raise e)
          end
      | Raise e => (result_files, Raise e)
      end
  | Raise ValueError => (result_files, Ok scenario_names)
  | Raise e => (result_files, Raise e)
  end.

(** The body of the function over the content of its list argument: the
    content the list object has when the call ends, and the report or the
    error. *)
Definition compare_scenarios_body (fs : filesys) (result_files : list string)
  : list string * pyres report :=
  let scenario_names := scenario_names_of result_files in
  let (result_files, moved) := move_base_last result_files scenario_names in
  (result_files,
   let* scenario_names := moved in
   let* read := read_result_files fs result_files in
   analyse scenario_names (fst read) (snd read)).

(** Python lists are objects: the caller and the callee hold the same one.
    The heap maps the address of a list object to its content.  The call
    writes the content back, so every holder of the address sees it. *)
Definition loc := positive.
Definition heap := gmap loc (list string).

Definition compare_scenarios (fs : filesys) (result_files : loc) (h : heap)
  : heap * pyres report :=
  match h !! result_files with
  | Some content =>
      let (content', r) := compare_scenarios_body fs content in
      (<[result_files := content']> h, r)
  | None => (h, Raise KeyError)
  end.

(** ** The files a run writes (lines 166--171) *)

(** The figure is saved as [png] and [pdf], then the report as [xlsx],
    each under ['{}.{}'.format(output_filename, ext)]. *)
Definition written_files (output_filename : string) : list string :=
  List.map (fun ext => output_filename +:+ "." +:+ ext) ["png"; "pdf"; "xlsx"].

(** ** The main program (lines 175--189) *)

(** One turn of the loop of line 183: the result files of the directory,
    reversed into a fresh list, are compared; the report goes under the
    name [comparison] in the directory. *)
Definition compare_directory (fs : filesys) (directory : string)
  : pyres (string * report) :=
  let result_files := glob_result_files fs directory in
  let comp_filename := OsPath.join directory "comparison" in
  let* rep := snd (compare_scenarios_body fs (rev result_files)) in
  Ok (comp_filename, rep).

(** The loop: an error ends the program, the directories after it are not
    compared. *)
Fixpoint compare_directories (fs : filesys) (directories : list string)
  : pyres (list (string * report)) :=
  match directories with
  | [] => Ok []
  | directory :: rest =>
      let* r := compare_directory fs directory in
      let* rs := compare_directories fs rest in
      Ok (r :: rs)
  end.

(** [args] is [sys.argv[1:]]. *)
Definition main (fs : filesys) (args : list string)
  : pyres (list (string * report)) :=
  let* directories :=
    match args with
    | [] => let* d := get_most_recent_entry fs "result" in Ok [d]
    | _ :: _ => Ok args
    end in
  compare_directories fs directories.

(** ** Concrete inputs used by the examples below *)

Module Examples.

(** A results folder holding one run folder and a newer dot-file. *)
Definition fs_hidden : filesys := {|
  listdir d := if String.eqb d "result" then [".DS_Store"; "20140101T0000"] else [];
  getmtime p := Some (if String.eqb p "result/.DS_Store" then 200%Z else 100%Z);
  excel _ := None
|}.

(** A results folder holding nothing but a dot-file. *)
Definition fs_only_hidden : filesys := {|
  listdir d := if String.eqb d "result" then [".DS_Store"] else [];
  getmtime _ := Some 200%Z;
  excel _ := None
|}.

(** A run folder with three result workbooks, a log and a lock file. *)
Definition fs_run : filesys := {|
  listdir d :=
    if String.eqb d "result/run"
    then ["scenario_co2.xlsx"; "run.log"; "scenario_base.xlsx";
          ".scenario_base.xlsx"; "scenario_all_together.xlsx"; "comparison.xlsx"]
    else if String.eqb d "result" then ["old"; "run"; "older"]
    else [];
  getmtime p :=
    if String.eqb p "result/old" then Some 20%Z
    else if String.eqb p "result/run" then Some 30%Z
    else Some 10%Z;
  excel _ := None
|}.

(** A results folder with a run and a link that leads nowhere. *)
Definition fs_dangling : filesys := {|
  listdir d := if String.eqb d "result" then ["run"; "latest"] else [];
  getmtime p := if String.eqb p "result/run" then Some 30%Z else None;
  excel _ := None
|}.

(** Two result workbooks.  The commodity sheets leave the outer key blank
    where it repeats the row above; the second one also has a blank
    numeric cell. *)
Definition costs_co2 : Pandas.frame string string :=
  Pandas.Frame ["Invest"; "Fuel"; "Fix"]
    [("Costs", [5e9; -2e9; 0]%float)].

Definition costs_base : Pandas.frame string string :=
  Pandas.Frame ["Fuel"; "Invest"; "Fix"]
    [("Costs", [-1e9; 7e9; 0]%float)].

Definition sums_co2 : Pandas.frame (option string * option string) string :=
  Pandas.Frame
    [(Some "Consumed", Some "Gas"); (None, Some "Elec");
     (Some "Created", Some "Elec"); (None, Some "Heat"); (None, Some "Slack")]
    [("North", [900; 100; 3000; 500; 0]%float);
     ("South", [400; 200; 1000; 250; 0]%float)].

Definition sums_base : Pandas.frame (option string * option string) string :=
  Pandas.Frame
    [(Some "Consumed", Some "Gas");
     (Some "Created", Some "Elec"); (None, Some "Heat"); (None, Some "Slack")]
    [("North", [700; 2000; 600; 0]%float);
     ("South", [300; 500; Pandas.nan; 0]%float)].

Definition book (c : Pandas.frame string string)
    (e : Pandas.frame (option string * option string) string) : workbook :=
  {| sheet_costs := Some c; sheet_commodity_sums := Some e |}.

Definition fs_books : filesys := {|
  listdir d :=
    if String.eqb d "result/run"
    then ["scenario_co2_limit.xlsx"; "scenario_base.xlsx"]
    else [];
  getmtime _ := Some 0%Z;
  excel p :=
    if String.eqb p "result/run/scenario_base.xlsx"
    then Some (book costs_base sums_base)
    else if String.eqb p "result/run/scenario_co2_limit.xlsx"
    then Some (book costs_co2 sums_co2)
    else None
|}.

(** The files as [glob_result_files] lists them, and the report of the
    run over them. *)
Definition sorted_files : list string :=
  ["result/run/scenario_base.xlsx"; "result/run/scenario_co2_limit.xlsx"].

Definition moved_files : list string :=
  ["result/run/scenario_co2_limit.xlsx"; "result/run/scenario_base.xlsx"].

Definition no_report : report :=
  {| costs := Pandas.Frame [] []; spent := Pandas.Frame [] [];
     earnt := Pandas.Frame [] []; esums := Pandas.Frame [] [] |}.

Definition report_books : report :=
  Eval vm_compute in
    match snd (compare_scenarios_body fs_books sorted_files) with
    | Ok r => r
    | Raise _ => no_report
    end.



(** The same workbooks behind other listings and clocks. *)
Definition fs_books_elsewhere : filesys := {|
  listdir _ := ["scenario_x.xlsx"];
  getmtime _ := Some 7%Z;
  excel := excel fs_books
|}.

(** The run folder as another operating system lists it. *)
Definition fs_run_shuffled : filesys := {|
  listdir d :=
    if String.eqb d "result/run"
    then ["comparison.xlsx"; "scenario_all_together.xlsx"; ".scenario_base.xlsx";
          "scenario_base.xlsx"; "run.log"; "scenario_co2.xlsx"]
    else [];
  getmtime _ := Some 0%Z;
  excel _ := None
|}.

(** What the main program returns for the folder of the two workbooks. *)
Definition main_books : list (string * report) :=
  Eval vm_compute in
    match main fs_books ["result/run"] with
    | Ok rs => rs
    | Raise _ => []
    end.

(** Two scenarios that share neither all cost types nor a commodity. *)
Definition costs_wind : Pandas.frame string string :=
  Pandas.Frame ["Invest"; "Fuel"] [("Costs", [5e9; -2e9]%float)].

Definition costs_sun : Pandas.frame string string :=
  Pandas.Frame ["Invest"] [("Costs", [7e9]%float)].

Definition sums_wind : Pandas.frame (option string * option string) string :=
  Pandas.Frame [(Some "Created", Some "Elec")] [("North", [3000]%float)].

Definition sums_sun : Pandas.frame (option string * option string) string :=
  Pandas.Frame [(Some "Created", Some "Heat")] [("North", [600]%float)].

Definition fs_gaps : filesys := {|
  listdir _ := [];
  getmtime _ := Some 0%Z;
  excel p :=
    if String.eqb p "scenario_wind.xlsx" then Some (book costs_wind sums_wind)
    else if String.eqb p "scenario_sun.xlsx" then Some (book costs_sun sums_sun)
    else None
|}.

Definition gap_files : list string := ["scenario_wind.xlsx"; "scenario_sun.xlsx"].

Definition report_gaps : report :=
  Eval vm_compute in
    match snd (compare_scenarios_body fs_gaps gap_files) with
    | Ok r => r
    | Raise _ => no_report
    end.

(** The caller's list object. *)
Definition files : loc := 1%positive.
Definition heap_sorted : heap :=
  {[ files := ["result/run/scenario_base.xlsx"; "result/run/scenario_co2_limit.xlsx"] ]}.

End Examples.

(** ** Notions used in the statements *)

(** [a] may stand before [b] in a list sorted by [lt]. *)
Definition nlt {A} (lt : A -> A -> bool) (a b : A) : Prop := lt b a = false.

(** A pattern of literal characters. *)
Definition literal (pat : list ascii) : Prop :=
  Forall (fun c => Ascii.eqb c "*" = false /\ Ascii.eqb c "?" = false) pat.

(** The path of a folder given by [folder_name]: the name without its
    trailing separators (a name made of separators only is kept). *)
Definition folder_path (folder_name : string) : string :=
  if OsPath.all_sep folder_name then folder_name
  else OsPath.rstrip_sep folder_name.

(** The names in the folder given by [folder_name], as the operating
    system lists them; the empty name stands for the current directory. *)
Definition entries_of (fs : filesys) (folder_name : string) : list string :=
  listdir fs
    (if String.eqb (folder_path folder_name) "" then "."
     else folder_path folder_name).

(** The last non-blank value of a list, [prev] if there is none. *)
Definition last_valid {A} (blank : A -> bool) (prev : option A) (l : list A)
  : option A :=
  fold_left (fun p x => if blank x then p else Some x) l prev.

(** No cell of the frame is blank. *)
Definition no_blank_cell {R C} (f : Pandas.frame R C) : Prop :=
  Forall (fun cv => Forall (fun x => Pandas.isna x = false) (snd cv)) (Pandas.cols f).

(** The sum of a list of cells: the blank cells are left out, the others
    are added up from the first on, starting from zero. *)
Definition sum_of_cells (v : list float) : float :=
  fold_left PrimFloat.add (List.filter (fun x => negb (Pandas.isna x)) v) 0%float.



(** The input file contract.  A [Costs] sheet has one column of values, a
    row per cost type and no cost type twice.  A [Commodity sums] sheet has
    at least one location column and, once its keys are filled in, no pair
    of property and commodity twice.  Both sheets are rectangular. *)
Definition costs_contract (c : Pandas.frame string string) : Prop :=
  length (Pandas.cols c) = 1
  /\ NoDup (Pandas.index c)
  /\ Pandas.rectangular c.

Definition sums_contract
    (e : Pandas.frame (option string * option string) string) : Prop :=
  0 < length (Pandas.cols e)
  /\ NoDup (Pandas.index (repair_index e))
  /\ Pandas.rectangular e.

Definition workbook_contract (wb : workbook) : Prop :=
  from_option costs_contract True (sheet_costs wb)
  /\ from_option sums_contract True (sheet_commodity_sums wb).

(** Every workbook among the result files keeps the contract. *)
Definition input_contract (fs : filesys) (result_files : list string) : Prop :=
  Forall (fun rf => from_option workbook_contract True (excel fs rf)) result_files.

(** The sum, over the location columns [cs] of a commodity sheet with row
    keys [idx], of the cells in the row of ([Created], commodity); a sheet
    without that row contributes blanks. *)
Definition created_sum_at
    (idx : list (option string * option string))
    (cs : list (string * list float))
    (commodity : option string) : float :=
  Pandas.nansum
    (List.map
       (fun cv => default Pandas.nan
                    (Pandas.at_label idx (snd cv) (Some "Created", commodity)))
       cs).

(** The energy created in a scenario for a commodity, as a loaded sheet
    has it. *)
Definition created_sum
    (e : Pandas.frame (option string * option string) string)
    (commodity : option string) : float :=
  created_sum_at (Pandas.index e) (Pandas.cols e) commodity.


(** The rows of a two-level frame under the outer label [Created]. *)
Definition is_created {B} (r : option string * B) : bool :=
  bool_decide (fst r = Some "Created").

(** The character [c] occurs in the string [s]. *)
Definition occurs (c : ascii) (s : string) : Prop :=
  In c (list_ascii_of_string s).

(** Descending order of file names. *)
Definition descending : list string -> Prop :=
  StronglySorted (fun a b => String.leb b a = true).

(** * Properties *)

(** ** The stable sort *)

Section SortFacts.
Context {A : Type} (lt : A -> A -> bool).

Local Abbreviation nlt := (nlt lt).

Hypothesis lt_asym : forall a b, lt a b = true -> lt b a = false.
Hypothesis nlt_trans : forall a b c, nlt a b -> nlt b c -> nlt a c.

Lemma insert_perm x l : Permutation (Py.insert lt x l) (x :: l).
Proof using Type.
  induction l as [|y l IH]; simpl; [reflexivity|].
  destruct (lt y x); [|reflexivity].
  rewrite IH. apply perm_swap.
Qed.

Lemma sort_perm l : Permutation (Py.sort lt l) l.
Proof using Type.
  induction l as [|x l IH]; simpl; [reflexivity|].
  unfold Py.sort in *. rewrite insert_perm. now constructor.
Qed.

Lemma sort_length l : length (Py.sort lt l) = length l.
Proof using Type. apply Permutation_length, sort_perm. Qed.

Lemma insert_sorted x l :
  StronglySorted nlt l -> StronglySorted nlt (Py.insert lt x l).
Proof using lt_asym nlt_trans.
  induction 1 as [|y l Hs IH Hall]; simpl.
  - repeat constructor.
  - destruct (lt y x) eqn:E.
    + constructor; [exact IH|].
      rewrite insert_perm. constructor; [|exact Hall].
      apply lt_asym, E.
    + constructor; [now constructor|].
      constructor; [exact E|].
      eapply Forall_impl; [exact Hall|].
      intros z Hz. eapply nlt_trans; [exact E|exact Hz].
Qed.

Lemma sort_sorted l : StronglySorted nlt (Py.sort lt l).
Proof using lt_asym nlt_trans.
  induction l as [|x l IH]; simpl; [constructor|].
  now apply insert_sorted.
Qed.

(** Every element of a sorted list may stand before its last one. *)
Lemma sorted_last_max l x :
  StronglySorted nlt l -> last l = Some x -> Forall (fun y => nlt y x) l.
Proof using lt_asym.
  induction 1 as [|y l Hs IH Hall]; intros Hl; [constructor|].
  destruct l as [|z l'].
  - simpl in Hl. injection Hl as ->. constructor; [|constructor].
    unfold nlt. destruct (lt x x) eqn:E; [|reflexivity].
    now rewrite (lt_asym _ _ E) in E.
  - assert (Hl' : last (z :: l') = Some x) by exact Hl.
    constructor; [|now apply IH].
    rewrite Forall_forall in Hall. apply Hall.
    apply last_Some_elem_of, Hl'.
Qed.
End SortFacts.

(** The order of Python strings. *)
Lemma str_ltb_asym a b : String.ltb a b = true -> String.ltb b a = false.
Proof.
  unfold String.ltb. rewrite (String.compare_antisym a b).
  destruct (String.compare b a); simpl; congruence.
Qed.

Lemma str_nlt_leb a b : nlt String.ltb a b <-> String.leb a b = true.
Proof.
  unfold nlt, String.ltb, String.leb. rewrite (String.compare_antisym a b).
  destruct (String.compare b a); simpl; intuition congruence.
Qed.

Lemma str_compare_lt_trans a b c :
  String.compare a b = Lt -> String.compare b c = Lt -> String.compare a c = Lt.
Proof.
  intros H1 H2.
  exact (StrictOrder_Transitive (R := String_as_OT.lt) a b c H1 H2).
Qed.

Lemma str_leb_trans a b c :
  String.leb a b = true -> String.leb b c = true -> String.leb a c = true.
Proof.
  unfold String.leb. intros H1 H2.
  destruct (String.compare a b) eqn:Eab; [| |discriminate].
  - apply String.compare_eq_iff in Eab. now subst.
  - destruct (String.compare b c) eqn:Ebc; [| |discriminate].
    + apply String.compare_eq_iff in Ebc. subst. now rewrite Eab.
    + now rewrite (str_compare_lt_trans _ _ _ Eab Ebc).
Qed.

Lemma str_nlt_trans a b c :
  nlt String.ltb a b -> nlt String.ltb b c -> nlt String.ltb a c.
Proof. rewrite !str_nlt_leb. apply str_leb_trans. Qed.

Lemma sorted_str_sorted l :
  StronglySorted (fun a b => String.leb a b = true) (Py.sorted_str l).
Proof.
  pose proof (sort_sorted String.ltb str_ltb_asym str_nlt_trans l) as H.
  unfold Py.sorted_str.
  induction H as [|x l' Hs IH Hall]; constructor; [exact IH|].
  eapply Forall_impl; [exact Hall|]. intros y. apply str_nlt_leb.
Qed.

(** ** Pattern matching of file names *)

Lemma wild_star_cons pat a name :
  Glob.wild ("*"%char :: pat) (a :: name)
  = Glob.wild pat (a :: name) || Glob.wild ("*"%char :: pat) name.
Proof. reflexivity. Qed.

Lemma wild_star_nil pat : Glob.wild ("*"%char :: pat) [] = Glob.wild pat [].
Proof. simpl. now rewrite orb_false_r. Qed.

(** [*] followed by [pat] matches exactly the names with a tail matched by
    [pat]. *)
Lemma wild_star pat name :
  Glob.wild ("*"%char :: pat) name = true
  <-> exists mid rest, name = (mid ++ rest)%list /\ Glob.wild pat rest = true.
Proof.
  split.
  - induction name as [|a name IH].
    + rewrite wild_star_nil. intros H. now exists [], [].
    + rewrite wild_star_cons. intros H. apply orb_true_iff in H as [H|H].
      * now exists [], (a :: name).
      * destruct (IH H) as (mid & rest & -> & Hr). now exists (a :: mid), rest.
  - intros (mid & rest & -> & Hr).
    induction mid as [|a mid IH].
    + cbn [app]. destruct rest; [now rewrite wild_star_nil|].
      rewrite wild_star_cons, Hr. reflexivity.
    + change ((a :: mid) ++ rest)%list with (a :: (mid ++ rest)%list).
      rewrite wild_star_cons, IH. apply orb_true_r.
Qed.

(** A pattern of literal characters matches itself only. *)
Lemma wild_literal_app lit pat name :
  literal lit ->
  Glob.wild (lit ++ pat)%list name = true
  <-> exists rest, name = (lit ++ rest)%list /\ Glob.wild pat rest = true.
Proof.
  intros Hl. revert name. induction Hl as [|c lit [Hs Hq] Hl IH]; intros name.
  - simpl. split; [intros H; now exists name|now intros (rest & -> & H)].
  - change ((c :: lit) ++ pat)%list with (c :: (lit ++ pat)%list).
    simpl. rewrite Hs, Hq. destruct name as [|d name].
    + split; [discriminate|]. now intros (rest & Hr & _).
    + simpl. rewrite andb_true_iff, IH, Ascii.eqb_eq. split.
      * intros (-> & rest & -> & Hr). now exists rest.
      * intros (rest & Hr & Hw). injection Hr as -> ->. split; [reflexivity|].
        now exists rest.
Qed.

Lemma wild_literal lit name :
  literal lit -> Glob.wild lit name = true <-> name = lit.
Proof.
  intros Hl. rewrite <- (app_nil_r lit) at 1. rewrite (wild_literal_app _ _ _ Hl).
  split.
  - intros (rest & -> & Hr). destruct rest; [|discriminate]. now rewrite app_nil_r.
  - intros ->. exists []. now rewrite app_nil_r.
Qed.

Lemma list_ascii_of_string_app s t :
  list_ascii_of_string (s +:+ t) = (list_ascii_of_string s ++ list_ascii_of_string t)%list.
Proof. induction s as [|c s IH]; simpl; [reflexivity|]. now rewrite IH. Qed.

Lemma list_ascii_inj s t :
  list_ascii_of_string s = list_ascii_of_string t -> s = t.
Proof.
  intros H. rewrite <- (string_of_list_ascii_of_string s), H.
  apply string_of_list_ascii_of_string.
Qed.

(** What the script's pattern accepts. *)
Lemma fnmatch_scenario_xlsx n :
  Glob.fnmatch n "scenario_*.xlsx" = true
  <-> exists mid, n = "scenario_" +:+ mid +:+ ".xlsx".
Proof.
  unfold Glob.fnmatch.
  change (list_ascii_of_string "scenario_*.xlsx")
    with (list_ascii_of_string "scenario_" ++ "*"%char :: list_ascii_of_string ".xlsx")%list.
  assert (Hpre : literal (list_ascii_of_string "scenario_"))
    by (repeat constructor).
  assert (Hsuf : literal (list_ascii_of_string ".xlsx"))
    by (repeat constructor).
  rewrite (wild_literal_app _ _ _ Hpre). split.
  - intros (rest & Hn & Hw). apply wild_star in Hw as (mid & tl & -> & Ht).
    apply (wild_literal _ _ Hsuf) in Ht. subst tl.
    exists (string_of_list_ascii mid). apply list_ascii_inj.
    rewrite Hn, !list_ascii_of_string_app, list_ascii_of_string_of_list_ascii.
    reflexivity.
  - intros (mid & ->). exists (list_ascii_of_string (mid +:+ ".xlsx")). split.
    + now rewrite list_ascii_of_string_app.
    + apply wild_star. exists (list_ascii_of_string mid), (list_ascii_of_string ".xlsx").
      split; [apply list_ascii_of_string_app|]. now apply wild_literal.
Qed.

Lemma fnmatch_star n : Glob.fnmatch n "*" = true.
Proof.
  unfold Glob.fnmatch. apply wild_star.
  exists (list_ascii_of_string n), []. now rewrite app_nil_r.
Qed.

Lemma fnmatch_scenario_visible n :
  Glob.fnmatch n "scenario_*.xlsx" = true -> Glob.ishidden n = false.
Proof. intros H. apply fnmatch_scenario_xlsx in H as (mid & ->). reflexivity. Qed.

Lemma filter_filter_implied {A} (p q : A -> bool) l :
  (forall x, q x = true -> p x = true) ->
  List.filter q (List.filter p l) = List.filter q l.
Proof.
  intros H. induction l as [|x l IH]; simpl; [reflexivity|].
  destruct (p x) eqn:Ep; simpl.
  - now rewrite IH.
  - destruct (q x) eqn:Eq; [|exact IH]. apply H in Eq. congruence.
Qed.

Lemma filter_all {A} (p : A -> bool) l :
  (forall x, p x = true) -> List.filter p l = l.
Proof.
  intros H. induction l as [|x l IH]; simpl; [reflexivity|].
  now rewrite H, IH.
Qed.

Lemma filter_all_in {A} (p : A -> bool) l :
  (forall x, In x l -> p x = true) -> List.filter p l = l.
Proof.
  induction l as [|x l IH]; intros H; simpl; [reflexivity|].
  rewrite (H x) by now left. rewrite IH; [reflexivity|].
  intros y Hy. apply H. now right.
Qed.

Lemma filter_none_in {A} (p : A -> bool) l :
  (forall x, In x l -> p x = false) -> List.filter p l = [].
Proof.
  induction l as [|x l IH]; intros H; simpl; [reflexivity|].
  rewrite (H x) by now left. apply IH. intros y Hy. apply H. now right.
Qed.

(** ** Paths *)

Lemma str_append_assoc (a b c : string) : (a +:+ b) +:+ c = a +:+ (b +:+ c).
Proof.
  induction a as [|x a IH]; [reflexivity|].
  change (String x ((a +:+ b) +:+ c) = String x (a +:+ (b +:+ c))).
  now rewrite IH.
Qed.

Lemma str_append_cancel (a x y : string) : a +:+ x = a +:+ y -> x = y.
Proof.
  induction a as [|c a IH]; [auto|].
  change (String c (a +:+ x) = String c (a +:+ y) -> x = y).
  intros [= H]. auto.
Qed.

Lemma ends_with_sep_inv (p : string) :
  OsPath.ends_with_sep p = true -> exists a, p = a +:+ "/".
Proof.
  induction p as [|c p IH]; [discriminate|].
  destruct p as [|c' p'].
  - simpl. intros H. apply Ascii.eqb_eq in H. subst c. now exists "".
  - intros H. destruct (IH H) as [a Ha]. exists (String c a).
    change (String c (String c' p') = String c (a +:+ "/")). now rewrite <- Ha.
Qed.

Lemma has_sep_app (a b : string) :
  OsPath.has_sep (a +:+ b) = OsPath.has_sep a || OsPath.has_sep b.
Proof.
  induction a as [|c a IH]; [reflexivity|].
  change (Ascii.eqb c OsPath.sep || OsPath.has_sep (a +:+ b)
          = (Ascii.eqb c OsPath.sep || OsPath.has_sep a) || OsPath.has_sep b).
  now rewrite IH, orb_assoc.
Qed.

Lemma has_sep_prefix (n : string) :
  OsPath.has_sep n = false -> String.prefix "/" n = false.
Proof.
  destruct n as [|c n]; [reflexivity|].
  intros H. cbn [OsPath.has_sep] in H. apply orb_false_iff in H as [Hc _].
  cbn [String.prefix]. destruct (ascii_dec "/" c) as [<-|Hne];
    [discriminate Hc|reflexivity].
Qed.

Lemma all_sep_app (a b : string) :
  OsPath.all_sep (a +:+ b) = OsPath.all_sep a && OsPath.all_sep b.
Proof.
  induction a as [|c a IH]; [reflexivity|].
  change (Ascii.eqb c OsPath.sep && OsPath.all_sep (a +:+ b)
          = (Ascii.eqb c OsPath.sep && OsPath.all_sep a) && OsPath.all_sep b).
  now rewrite IH, andb_assoc.
Qed.

Lemma all_sep_ends_with_sep (c : ascii) (d : string) :
  OsPath.all_sep (String c d) = true -> OsPath.ends_with_sep (String c d) = true.
Proof.
  revert c. induction d as [|c' d IH]; intros c H.
  - cbn in H |- *. now rewrite andb_true_r in H.
  - cbn [OsPath.all_sep] in H. apply andb_true_iff in H as [_ H].
    change (OsPath.ends_with_sep (String c' d) = true). now apply IH.
Qed.

Lemma rstrip_sep_snoc (d : string) :
  OsPath.rstrip_sep (d +:+ "/") = OsPath.rstrip_sep d.
Proof.
  induction d as [|c d IH]; [reflexivity|].
  change (String c d +:+ "/") with (String c (d +:+ "/")).
  cbn [OsPath.rstrip_sep]. rewrite IH.
  change (OsPath.all_sep (String c (d +:+ "/")))
    with (Ascii.eqb c OsPath.sep && OsPath.all_sep (d +:+ "/")).
  rewrite all_sep_app. change (OsPath.all_sep "/") with true.
  now rewrite andb_true_r.
Qed.

Lemma cut_no_sep (n : string) :
  OsPath.has_sep n = false -> OsPath.cut_after_last_sep n = ("", n).
Proof.
  destruct n as [|c n]; [reflexivity|].
  cbn [OsPath.has_sep OsPath.cut_after_last_sep]. intros H.
  apply orb_false_iff in H as [Hc Hn]. now rewrite Hn, Hc.
Qed.

Lemma cut_after_sep (a n : string) :
  OsPath.has_sep n = false ->
  OsPath.cut_after_last_sep (a +:+ String "/" n) = (a +:+ "/", n).
Proof.
  intros Hn. induction a as [|c a IH].
  - change (OsPath.cut_after_last_sep (String "/" n) = ("/", n)).
    cbn [OsPath.cut_after_last_sep]. now rewrite Hn.
  - change (OsPath.cut_after_last_sep (String c (a +:+ String "/" n))
            = (String c (a +:+ "/"), n)).
    cbn [OsPath.cut_after_last_sep]. rewrite has_sep_app.
    cbn [OsPath.has_sep]. change (Ascii.eqb "/" OsPath.sep) with true.
    rewrite orb_true_r. now rewrite IH.
Qed.

(** Splitting the join of a folder name and a name without separator
    gives back the name, and the folder without its trailing
    separators. *)
Lemma split_join (d n : string) :
  OsPath.has_sep n = false -> OsPath.split (OsPath.join d n) = (folder_path d, n).
Proof.
  intros Hn. unfold OsPath.split, OsPath.join, folder_path.
  rewrite (has_sep_prefix n Hn).
  destruct d as [|c d]; [now rewrite (cut_no_sep n Hn)|].
  destruct (OsPath.ends_with_sep (String c d)) eqn:E.
  - destruct (ends_with_sep_inv _ E) as [a Ha]. rewrite Ha.
    rewrite str_append_assoc. change ("/" +:+ n) with (String "/" n).
    now rewrite (cut_after_sep a n Hn).
  - change (String c d +:+ "/" +:+ n) with (String c d +:+ String "/" n).
    rewrite (cut_after_sep (String c d) n Hn).
    rewrite all_sep_app. change (OsPath.all_sep "/") with true.
    rewrite andb_true_r, rstrip_sep_snoc.
    destruct (OsPath.all_sep (String c d)) eqn:Ea; [|reflexivity].
    apply all_sep_ends_with_sep in Ea. congruence.
Qed.

(** [glob] on the join of a folder name and a pattern without separator:
    the names of the folder that match, each joined to the path of the
    folder. *)
Lemma glob_join (fs : filesys) (d pat : string) :
  OsPath.has_sep pat = false ->
  Glob.glob fs (OsPath.join d pat)
  = List.map (OsPath.join (folder_path d))
      (List.filter (fun n => Glob.fnmatch n pat)
         (if Glob.ishidden pat then entries_of fs d
          else List.filter (fun x => negb (Glob.ishidden x)) (entries_of fs d))).
Proof.
  intros Hp. unfold Glob.glob. rewrite (split_join d pat Hp).
  unfold Glob.glob1, Glob.iterdir, entries_of. reflexivity.
Qed.

Lemma glob_scenario_files (fs : filesys) (d : string) :
  Glob.glob fs (OsPath.join d "scenario_*.xlsx")
  = List.map (OsPath.join (folder_path d))
      (List.filter (fun n => Glob.fnmatch n "scenario_*.xlsx") (entries_of fs d)).
Proof.
  rewrite glob_join by reflexivity.
  change (Glob.ishidden "scenario_*.xlsx") with false. cbv iota.
  rewrite filter_filter_implied; [reflexivity|].
  intros n Hn. now rewrite (fnmatch_scenario_visible n Hn).
Qed.

Lemma glob_star (fs : filesys) (d : string) :
  Glob.glob fs (OsPath.join d "*")
  = List.map (OsPath.join (folder_path d))
      (List.filter (fun n => negb (Glob.ishidden n)) (entries_of fs d)).
Proof.
  rewrite glob_join by reflexivity.
  change (Glob.ishidden "*") with false. cbv iota.
  now rewrite (filter_all _ _ fnmatch_star).
Qed.

(** ** C9: the result files of a folder *)



(** ** C8: the most recent entry *)

Lemma Z_ltb_asym a b : Z.ltb a b = true -> Z.ltb b a = false.
Proof. lia. Qed.

(** C8. In the folder [result] of the example the entry modified last is
    [.DS_Store]; the call returns the older run folder, against C8 as
    stated and against the docstring of the function.  A folder that holds
    nothing but such a file is not empty, and the call raises
    [IndexError]. *)
Theorem get_most_recent_entry_skips_dot_files :
  listdir Examples.fs_hidden "result" = [".DS_Store"; "20140101T0000"]
  /\ getmtime Examples.fs_hidden "result/.DS_Store" = Some 200%Z
  /\ getmtime Examples.fs_hidden "result/20140101T0000" = Some 100%Z
  /\ get_most_recent_entry Examples.fs_hidden "result" = Ok "result/20140101T0000"
  /\ listdir Examples.fs_only_hidden "result" = [".DS_Store"]
  /\ get_most_recent_entry Examples.fs_only_hidden "result" = Raise IndexError.
Proof. repeat split; reflexivity. Qed.

Example most_recent_run :
  get_most_recent_entry Examples.fs_run "result" = Ok "result/run".
Proof. reflexivity. Qed.

Example result_files_of_run :
  glob_result_files Examples.fs_run "result/run"
  = ["result/run/scenario_all_together.xlsx";
     "result/run/scenario_base.xlsx";
     "result/run/scenario_co2.xlsx"].
Proof. reflexivity. Qed.

(** ** C5: scenario names *)

(** C5. The two file names of the specification derive as stated; on a name
    with a second [scenario_] inside, the script drops that occurrence too,
    where dropping a prefix keeps it. *)
Theorem scenario_name_examples :
  scenario_name "result/run/scenario_Base_Case.xlsx" = "Base Case"
  /\ scenario_name "result/run/scenario_base.xlsx" = "base"
  /\ scenario_name "result/run/scenario_co2_scenario_high.xlsx" = "co2 high"
  /\ scenario_name_by_comments "result/run/scenario_co2_scenario_high.xlsx"
     = "co2 scenario high".
Proof. repeat split; reflexivity. Qed.

(** ** Comparisons of doubles *)

Ltac swap_compare ex ey mx my :=
  rewrite (Z.compare_antisym ex ey);
  replace (PosDef.Pos.compare_cont Eq my mx)
    with (CompOpp (PosDef.Pos.compare_cont Eq mx my))
    by apply (Pos.compare_cont_antisym mx my Eq);
  destruct (ex ?= ey)%Z; simpl; try congruence;
  destruct (PosDef.Pos.compare_cont Eq mx my); simpl; congruence.

Lemma SFcompare_Lt_swap x y :
  SFcompare x y = Some Lt -> SFcompare y x = Some Gt.
Proof.
  destruct x as [sx|sx| |sx mx ex], y as [sy|sy| |sy my ey]; simpl;
    try discriminate;
    try (destruct sx; discriminate);
    try (destruct sy; discriminate);
    try (destruct sx, sy; simpl; congruence).
  destruct sx, sy; simpl; try congruence; swap_compare ex ey mx my.
Qed.

Lemma float_ltb_asym (x y : float) :
  (x <? y)%float = true -> (y <? x)%float = false.
Proof.
  rewrite !ltb_spec. unfold SFltb. intros H.
  destruct (SFcompare (Prim2SF x) (Prim2SF y)) as [[]|] eqn:E; try discriminate.
  now rewrite (SFcompare_Lt_swap _ _ E).
Qed.

Lemma SFcompare_Eq_swap x y :
  SFcompare x y = Some Eq -> SFcompare y x = Some Eq.
Proof.
  destruct x as [sx|sx| |sx mx ex], y as [sy|sy| |sy my ey]; simpl;
    try discriminate; try reflexivity;
    try (destruct sx; discriminate);
    try (destruct sy; discriminate);
    try (destruct sx, sy; simpl; congruence).
  destruct sx, sy; simpl; try congruence; swap_compare ex ey mx my.
Qed.

(** A double that compares equal to another is neither below nor above
    it; this covers both signs of zero. *)
Lemma float_eqb_not_ltb (x y : float) :
  (x =? y)%float = true -> (x <? y)%float = false /\ (y <? x)%float = false.
Proof.
  rewrite FloatAxioms.eqb_spec, !ltb_spec. unfold SFeqb, SFltb. intros H.
  destruct (SFcompare (Prim2SF x) (Prim2SF y)) as [[]|] eqn:E; try discriminate.
  now rewrite (SFcompare_Eq_swap _ _ E).
Qed.

(** ** The base scenario goes last (lines 64--70) *)

Lemma index_Ok {A} `{EqDecision A} (x : A) (l : list A) (i : nat) :
  Py.index x l = Ok i
  <-> l !! i = Some x /\ forall j, j < i -> l !! j <> Some x.
Proof.
  revert i. induction l as [|y l IH]; intros i; simpl.
  - split; [discriminate|]. now intros [H _].
  - destruct (decide (y = x)) as [->|Hne].
    + split.
      * intros [= <-]. split; [reflexivity|]. intros j Hj. lia.
      * intros [Hi Hfirst]. destruct i as [|i]; [reflexivity|].
        exfalso. apply (Hfirst 0); [lia|reflexivity].
    + destruct (Py.index x l) as [k|e]; simpl.
      * split.
        -- intros [= <-]. destruct (proj1 (IH k) eq_refl) as [Hk Hfirst].
           split; [exact Hk|].
           intros [|j] Hj; simpl; [congruence|]. apply Hfirst. lia.
        -- intros [Hi Hfirst]. destruct i as [|i]; [simpl in Hi; congruence|].
           assert (Hi' : Ok k = Ok i).
           { apply IH. split; [exact Hi|]. intros j Hj. apply (Hfirst (S j)). lia. }
           congruence.
      * split; [discriminate|]. intros [Hi Hfirst].
        destruct i as [|i]; [simpl in Hi; congruence|].
        assert (Hi' : @Raise nat e = Ok i).
        { apply IH. split; [exact Hi|]. intros j Hj. apply (Hfirst (S j)). lia. }
        discriminate.
Qed.

Lemma index_Raise {A} `{EqDecision A} (x : A) (l : list A) (e : exn) :
  Py.index x l = Raise e -> e = ValueError /\ x ∉ l.
Proof.
  induction l as [|y l IH]; simpl.
  - intros [= <-]. split; [reflexivity|]. apply not_elem_of_nil.
  - destruct (decide (y = x)) as [->|Hne]; [discriminate|].
    destruct (Py.index x l) as [k|e'] eqn:E; simpl; [discriminate|].
    intros [= <-]. destruct (IH eq_refl) as [-> Hnot]. split; [reflexivity|].
    rewrite not_elem_of_cons. split; [congruence|exact Hnot].
Qed.

Lemma index_absent {A} `{EqDecision A} (x : A) (l : list A) :
  x ∉ l -> Py.index x l = Raise ValueError.
Proof.
  intros Hnot. destruct (Py.index x l) as [i|e] eqn:E.
  - apply index_Ok in E as [Hi _]. exfalso. apply Hnot.
    eapply list_elem_of_lookup_2, Hi.
  - now apply index_Raise in E as [-> _].
Qed.

Lemma index_present {A} `{EqDecision A} (x : A) (l : list A) :
  x ∈ l -> exists i, Py.index x l = Ok i.
Proof.
  intros Hin. destruct (Py.index x l) as [i|e] eqn:E; [now exists i|].
  now apply index_Raise in E as [_ Hnot].
Qed.

Lemma scenario_names_length files :
  length (scenario_names_of files) = length files.
Proof. apply length_map. Qed.

Lemma move_base_last_found files names i :
  length files = length names ->
  Py.index "base" names = Ok i ->
  exists rf, files !! i = Some rf
    /\ move_base_last files names
       = ((delete i files ++ [rf])%list, Ok (delete i names ++ ["base"])%list).
Proof.
  intros Hlen Hi. unfold move_base_last. rewrite Hi.
  apply index_Ok in Hi as [Hn _].
  destruct (files !! i) as [rf|] eqn:Hf.
  - exists rf. split; [reflexivity|].
    unfold Py.pop, Py.append. now rewrite Hf, Hn.
  - apply lookup_ge_None in Hf. apply lookup_lt_Some in Hn. lia.
Qed.

Lemma move_base_last_absent files names :
  "base" ∉ names -> move_base_last files names = (files, Ok names).
Proof.
  intros Hnot. unfold move_base_last. now rewrite (index_absent _ _ Hnot).
Qed.

(** C10. The list object passed as [result_files] is shared with the
    caller.  When a scenario is named [base], the call leaves in it the
    file of the first such scenario removed from its place and put at the
    end; when none is, the heap after the call is the heap before it. *)
Theorem compare_scenarios_reorders_argument
    (fs : filesys) (result_files : loc) (h : heap) (content : list string) :
  h !! result_files = Some content ->
  (forall i,
      Py.index "base" (scenario_names_of content) = Ok i ->
      exists rf, content !! i = Some rf
        /\ fst (compare_scenarios fs result_files h)
           = <[result_files := (delete i content ++ [rf])%list]> h)
  /\ ("base" ∉ scenario_names_of content ->
      fst (compare_scenarios fs result_files h) = h).
Proof.
  intros Hh. unfold compare_scenarios, compare_scenarios_body. rewrite Hh. split.
  - intros i Hi.
    destruct (move_base_last_found content (scenario_names_of content) i)
      as (rf & Hrf & ->); [now rewrite scenario_names_length|exact Hi|].
    exists rf. split; [exact Hrf|reflexivity].
  - intros Hnot. rewrite (move_base_last_absent _ _ Hnot). simpl.
    now apply insert_id.
Qed.

(** The caller's sorted list after the call: the base file has moved from
    the front to the end. *)
Lemma compare_scenarios_reorders_argument_witness :
  Examples.heap_sorted !! Examples.files
  = Some ["result/run/scenario_base.xlsx"; "result/run/scenario_co2_limit.xlsx"]
  /\ fst (compare_scenarios Examples.fs_books Examples.files Examples.heap_sorted)
       !! Examples.files
     = Some ["result/run/scenario_co2_limit.xlsx"; "result/run/scenario_base.xlsx"].
Proof.
  split; [reflexivity|].
  destruct (compare_scenarios_reorders_argument Examples.fs_books Examples.files
              Examples.heap_sorted _ eq_refl) as [Hfound _].
  destruct (Hfound 0 eq_refl) as (rf & Hrf & ->).
  injection Hrf as <-. reflexivity.
Defined.

(** ** C3: spent and earnt *)

Lemma select_map_filter {A} (p : A -> bool) (l : list A) :
  Pandas.select (List.map p l) l = List.filter p l.
Proof.
  unfold Pandas.select. induction l as [|x l IH]; simpl; [reflexivity|].
  destruct (p x); simpl; now rewrite IH.
Qed.

Lemma spent_of_cols (costs : Pandas.frame string string) :
  Pandas.cols (spent_of costs)
  = List.filter (fun cv => (0 <? Pandas.nansum (snd cv))%float) (Pandas.cols costs).
Proof.
  unfold spent_of, Pandas.loc_cols, Pandas.sum_axis0. simpl.
  rewrite List.map_map. simpl. apply select_map_filter.
Qed.

Lemma earnt_of_cols (costs : Pandas.frame string string) :
  Pandas.cols (earnt_of costs)
  = List.filter (fun cv => (Pandas.nansum (snd cv) <? 0)%float) (Pandas.cols costs).
Proof.
  unfold earnt_of, Pandas.loc_cols, Pandas.sum_axis0. simpl.
  rewrite List.map_map. simpl. apply select_map_filter.
Qed.

Lemma elem_of_bool_filter {A} (p : A -> bool) (l : list A) (x : A) :
  x ∈ List.filter p l <-> x ∈ l /\ p x = true.
Proof. rewrite !list_elem_of_In. apply filter_In. Qed.

(** The sum pandas returns for a column is the sum of its non-blank
    cells. *)
Lemma nansum_sum_of_cells (v : list float) : Pandas.nansum v = sum_of_cells v.
Proof.
  unfold Pandas.nansum, sum_of_cells. generalize 0%float.
  induction v as [|x v IH]; intros acc; simpl; [reflexivity|].
  destruct (Pandas.isna x); simpl; apply IH.
Qed.

(** C3. A column of the cost table is in [spent] exactly when the sum of
    its cells over the scenarios is above zero and in [earnt] exactly when
    that sum is below zero; a column whose sum compares equal to zero is in
    neither, and no column is in both. *)
Theorem spent_earnt_by_sign
    (costs : Pandas.frame string string) (cv : string * list float) :
  (cv ∈ Pandas.cols (spent_of costs)
   <-> cv ∈ Pandas.cols costs /\ (0 <? sum_of_cells (snd cv))%float = true)
  /\ (cv ∈ Pandas.cols (earnt_of costs)
      <-> cv ∈ Pandas.cols costs /\ (sum_of_cells (snd cv) <? 0)%float = true)
  /\ ((sum_of_cells (snd cv) =? 0)%float = true ->
      (cv ∉ Pandas.cols (spent_of costs)) /\ (cv ∉ Pandas.cols (earnt_of costs)))
  /\ (cv ∈ Pandas.cols (spent_of costs) -> cv ∉ Pandas.cols (earnt_of costs)).
Proof.
  rewrite spent_of_cols, earnt_of_cols, !elem_of_bool_filter.
  rewrite nansum_sum_of_cells.
  split; [reflexivity|]. split; [reflexivity|]. split.
  - intros Hz. destruct (float_eqb_not_ltb _ _ Hz) as [H1 H2].
    split; intros [_ H]; congruence.
  - intros [_ Hpos] [_ Hneg]. apply float_ltb_asym in Hpos. congruence.
Qed.

Lemma analyse_spent_earnt names cs es rep :
  analyse names cs es = Ok rep ->
  spent rep = spent_of (costs rep) /\ earnt rep = earnt_of (costs rep).
Proof.
  unfold analyse. intros H.
  destruct (Pandas.concat_axis1 cs names) as [c|]; [simpl in H|discriminate].
  destruct (Pandas.concat_axis1 es names) as [e|]; [simpl in H|discriminate].
  destruct (created_by_scenario e) as [g|]; [simpl in H|discriminate].
  injection H as <-. now split.
Qed.

(** ** C7: the repair of the commodity sheet *)

Lemma ffill_from_length {A} (blank : A -> bool) prev (l : list A) :
  length (Pandas.ffill_from blank prev l) = length l.
Proof.
  revert prev. induction l as [|x l IH]; intros prev; simpl; [reflexivity|].
  destruct (blank x); simpl; now rewrite IH.
Qed.

(** Forward fill, cell by cell: a non-blank cell stays; a blank cell takes
    the last non-blank value above it, and stays blank when there is
    none. *)
Lemma ffill_from_lookup {A} (blank : A -> bool) prev (l : list A) i x :
  l !! i = Some x ->
  Pandas.ffill_from blank prev l !! i
  = Some (if blank x then default x (last_valid blank prev (take i l)) else x).
Proof.
  revert prev i. induction l as [|y l IH]; intros prev i Hi; [discriminate|].
  destruct i as [|i]; simpl in *.
  - injection Hi as ->. now destruct (blank x).
  - destruct (blank y); simpl; now apply IH.
Qed.

Lemma ffill_lookup {A} (blank : A -> bool) (l : list A) i x :
  l !! i = Some x ->
  Pandas.ffill blank l !! i
  = Some (if blank x then default x (last_valid blank None (take i l)) else x).
Proof. apply ffill_from_lookup. Qed.

(** Without blanks nothing changes. *)
Lemma ffill_from_no_blank {A} (blank : A -> bool) prev (l : list A) :
  Forall (fun x => blank x = false) l -> Pandas.ffill_from blank prev l = l.
Proof.
  intros H. revert prev. induction H as [|x l Hx H IH]; intros prev; simpl;
    [reflexivity|].
  now rewrite Hx, IH.
Qed.

(** The index after the repair: both levels forward-filled. *)
Lemma repair_index_index esum :
  Pandas.index (repair_index esum)
  = zip (Pandas.ffill Pandas.label_isna (List.map fst (Pandas.index esum)))
        (Pandas.ffill Pandas.label_isna (List.map snd (Pandas.index esum))).
Proof. reflexivity. Qed.

(** The other columns after the repair: forward-filled as well. *)
Lemma repair_index_cols esum :
  Pandas.cols (repair_index esum)
  = List.map (fun cv => (fst cv, Pandas.ffill Pandas.isna (snd cv))) (Pandas.cols esum).
Proof. reflexivity. Qed.

(** On a sheet whose numeric columns have no blank cell the repair leaves
    these columns as they are. *)
Lemma repair_index_cols_no_blank esum :
  no_blank_cell esum -> Pandas.cols (repair_index esum) = Pandas.cols esum.
Proof.
  rewrite repair_index_cols. unfold no_blank_cell.
  induction 1 as [|[c v] l Hv H IH]; simpl; [reflexivity|].
  unfold Pandas.ffill at 1. simpl in Hv.
  now rewrite (ffill_from_no_blank _ _ _ Hv), IH.
Qed.

(** C7. In the second example sheet the cell of column [South] in the row
    of [Heat] is blank; after the repair it holds the 500 of the row above,
    so the fill reaches the numeric columns.  The keys are filled as
    stated: the blank outer key of that row has become [Created]. *)
Theorem repair_index_fills_numeric_cells :
  Pandas.iat Examples.sums_base 2 1 = Some Pandas.nan
  /\ Pandas.iat (repair_index Examples.sums_base) 2 1 = Some 500%float
  /\ Pandas.index Examples.sums_base !! 2 = Some (None, Some "Heat")
  /\ Pandas.index (repair_index Examples.sums_base) !! 2
     = Some (Some "Created", Some "Heat").
Proof. repeat split; reflexivity. Qed.

(** ** Cells by label *)

Lemma map_fmap {A B} (f : A -> B) (l : list A) : List.map f l = f <$> l.
Proof. induction l as [|x l IH]; simpl; [reflexivity|]. now rewrite IH. Qed.

Lemma lookup_map {A B} (f : A -> B) (l : list A) i :
  List.map f l !! i = option_map f (l !! i).
Proof. rewrite map_fmap. apply list_lookup_fmap. Qed.

Lemma lookup_zip_Some {A B} (l : list A) (k : list B) i x y :
  zip l k !! i = Some (x, y) <-> l !! i = Some x /\ k !! i = Some y.
Proof.
  split.
  - intros H. apply lookup_zip_with_Some in H as (a & b & Heq & Ha & Hb).
    injection Heq as -> ->. now split.
  - intros [Ha Hb]. apply lookup_zip_with_Some. now exists x, y.
Qed.

Section Labels.
Context {R : Type} `{EqDecision R}.

Lemma get_loc_Some (r : R) idx i :
  Pandas.get_loc r idx = Some i
  <-> idx !! i = Some r /\ forall j, j < i -> idx !! j <> Some r.
Proof.
  unfold Pandas.get_loc. rewrite <- index_Ok.
  destruct (Py.index r idx); split; congruence.
Qed.

Lemma get_loc_None (r : R) idx : Pandas.get_loc r idx = None <-> r ∉ idx.
Proof.
  unfold Pandas.get_loc. destruct (Py.index r idx) as [i|e] eqn:E.
  - split; [discriminate|]. intros Hnot. apply index_Ok in E as [Hi _].
    exfalso. eapply Hnot, list_elem_of_lookup_2, Hi.
  - split; [|reflexivity]. intros _. now apply index_Raise in E.
Qed.

Lemma get_loc_nodup (r : R) idx i :
  NoDup idx -> idx !! i = Some r -> Pandas.get_loc r idx = Some i.
Proof.
  intros Hnd Hi. apply get_loc_Some. split; [exact Hi|].
  intros j Hj Hr. pose proof (NoDup_lookup _ _ _ _ Hnd Hi Hr). lia.
Qed.

Lemma at_label_lookup idx (v : list float) i (r : R) :
  NoDup idx -> idx !! i = Some r -> Pandas.at_label idx v r = v !! i.
Proof.
  intros Hnd Hi. unfold Pandas.at_label. now rewrite (get_loc_nodup _ _ _ Hnd Hi).
Qed.

Lemma at_label_absent idx (v : list float) (r : R) :
  r ∉ idx -> Pandas.at_label idx v r = None.
Proof.
  intros Hnot. unfold Pandas.at_label.
  now rewrite (proj2 (get_loc_None r idx) Hnot).
Qed.

(** With distinct labels, a column is the set of its labelled cells. *)
Lemma at_label_zip idx (v : list float) (r : R) x :
  NoDup idx -> length v = length idx ->
  Pandas.at_label idx v r = Some x <-> (r, x) ∈ zip idx v.
Proof.
  intros Hnd Hlen. split.
  - unfold Pandas.at_label. destruct (Pandas.get_loc r idx) as [i|] eqn:E;
      [|discriminate].
    intros Hv. apply get_loc_Some in E as [Hi _].
    apply (list_elem_of_lookup_2 _ i). now apply lookup_zip_Some.
  - intros Hin. apply list_elem_of_lookup_1 in Hin as [i Hi].
    apply lookup_zip_Some in Hi as [Hi Hv].
    now rewrite (at_label_lookup _ _ _ _ Hnd Hi).
Qed.

(** So the cell at a label only depends on the labelled cells as a
    collection. *)
Lemma at_label_perm idx v idx' v' (r : R) :
  NoDup idx -> length v = length idx -> length v' = length idx' ->
  Permutation (zip idx v) (zip idx' v') ->
  Pandas.at_label idx' v' r = Pandas.at_label idx v r.
Proof.
  intros Hnd Hlen Hlen' Hp.
  assert (Hidx : Permutation idx idx').
  { rewrite <- (fst_zip idx v), <- (fst_zip idx' v') by lia.
    now apply fmap_Permutation. }
  assert (Hnd' : NoDup idx') by now rewrite <- Hidx.
  destruct (Pandas.at_label idx v r) as [x|] eqn:E.
  - apply (at_label_zip _ _ _ _ Hnd' Hlen'). rewrite <- Hp.
    now apply (at_label_zip _ _ _ _ Hnd Hlen).
  - destruct (Pandas.at_label idx' v' r) as [x'|] eqn:E'; [|reflexivity].
    apply (at_label_zip _ _ _ _ Hnd' Hlen') in E'. rewrite <- Hp in E'.
    apply (at_label_zip _ _ _ _ Hnd Hlen) in E'. congruence.
Qed.

(** A cell found in a part of the rows is the cell of the whole. *)
Lemma at_label_sub idx v idx' v' (r : R) x :
  NoDup idx -> length v = length idx -> length v' = length idx' ->
  NoDup idx' ->
  (forall p, p ∈ zip idx' v' -> p ∈ zip idx v) ->
  Pandas.at_label idx' v' r = Some x -> Pandas.at_label idx v r = Some x.
Proof.
  intros Hnd Hlen Hlen' Hnd' Hsub Hx.
  apply (at_label_zip _ _ _ _ Hnd Hlen), Hsub.
  now apply (at_label_zip _ _ _ _ Hnd' Hlen').
Qed.
End Labels.

(** ** Sorting the rows, transposing, scaling *)

Section SortIndex.
Context {R : Type} `{EqDecision R} (lt : R -> R -> bool).

Lemma insert_keys {B} (x : R * B) (l : list (R * B)) :
  List.map fst (Py.insert (fun a b => lt (fst a) (fst b)) x l)
  = Py.insert lt (fst x) (List.map fst l).
Proof.
  induction l as [|y l IH]; simpl; [reflexivity|].
  destruct (lt (fst y) (fst x)); simpl; [now rewrite IH|reflexivity].
Qed.

Lemma sort_key_keys {B} (l : list (R * B)) :
  List.map fst (Py.sort_key lt fst l) = Py.sort lt (List.map fst l).
Proof.
  unfold Py.sort_key, Py.sort. induction l as [|x l IH]; simpl; [reflexivity|].
  now rewrite insert_keys, IH.
Qed.

Lemma sort_nodup (idx : list R) : NoDup idx -> NoDup (Py.sort lt idx).
Proof. intros H. now rewrite sort_perm. Qed.

(** Sorting the rows moves the cells with their labels. *)
Lemma sort_index_at_label idx (v : list float) (r : R) :
  NoDup idx -> length v = length idx ->
  Pandas.at_label (Py.sort lt idx)
    (List.map snd (Py.sort_key lt fst (zip idx v))) r
  = Pandas.at_label idx v r.
Proof.
  intros Hnd Hlen.
  set (s := Py.sort_key lt fst (zip idx v)).
  assert (Hs : Permutation s (zip idx v)) by apply sort_perm.
  assert (Hk : List.map fst s = Py.sort lt idx).
  { unfold s. rewrite sort_key_keys, map_fmap, fst_zip by lia. reflexivity. }
  apply at_label_perm; [exact Hnd|exact Hlen| |].
  - rewrite length_map, (Permutation_length Hs), length_zip, sort_length. lia.
  - rewrite <- Hk, !map_fmap, zip_fst_snd. now symmetry.
Qed.

Lemma sort_index_index {C} (f : Pandas.frame R C) :
  Pandas.index (Pandas.sort_index lt f) = Py.sort lt (Pandas.index f).
Proof. reflexivity. Qed.

Lemma sort_index_columns {C} (f : Pandas.frame R C) :
  Pandas.columns (Pandas.sort_index lt f) = Pandas.columns f.
Proof.
  unfold Pandas.columns, Pandas.sort_index. simpl. rewrite List.map_map.
  reflexivity.
Qed.
End SortIndex.

Lemma imap_labels {A B} (g : nat -> A -> B) (l : list A) :
  List.map fst (imap (fun i r => (r, g i r)) l) = l.
Proof.
  revert g. induction l as [|x l IH]; intros g; simpl; [reflexivity|].
  f_equal. apply (IH (fun i r => g (S i) r)).
Qed.

Lemma transpose_index {R C} (f : Pandas.frame R C) :
  Pandas.index (Pandas.transpose f) = Pandas.columns f.
Proof. reflexivity. Qed.

Lemma transpose_columns {R C} (f : Pandas.frame R C) :
  Pandas.columns (Pandas.transpose f) = Pandas.index f.
Proof. unfold Pandas.columns, Pandas.transpose. simpl. apply imap_labels. Qed.

(** The cell in row [i] and column [j] of the transposed frame is the cell
    in row [j] of column [i]. *)
Lemma transpose_iat {R C} (f : Pandas.frame R C) i j r cv :
  Pandas.index f !! j = Some r ->
  Pandas.cols f !! i = Some cv ->
  Pandas.iat (Pandas.transpose f) i j = Some (default Pandas.nan (snd cv !! j)).
Proof.
  intros Hr Hcv. unfold Pandas.iat, Pandas.transpose. simpl.
  rewrite list_lookup_imap, Hr. simpl.
  unfold Pandas.row_values. now rewrite !lookup_map, Hcv.
Qed.

Lemma div_scalar_index {R C} (f : Pandas.frame R C) d :
  Pandas.index (Pandas.div_scalar f d) = Pandas.index f.
Proof. reflexivity. Qed.

Lemma div_scalar_columns {R C} (f : Pandas.frame R C) d :
  Pandas.columns (Pandas.div_scalar f d) = Pandas.columns f.
Proof.
  unfold Pandas.columns, Pandas.div_scalar. simpl. rewrite List.map_map.
  reflexivity.
Qed.

Lemma div_scalar_iat {R C} (f : Pandas.frame R C) d i j :
  Pandas.iat (Pandas.div_scalar f d) i j
  = option_map (fun x => (x / d)%float) (Pandas.iat f i j).
Proof.
  unfold Pandas.iat, Pandas.div_scalar. simpl. rewrite lookup_map.
  destruct (Pandas.cols f !! j) as [cv|]; simpl; [|reflexivity].
  apply lookup_map.
Qed.

(** Rows sorted, then transposed: the cell in the row of column [cv] and
    in the column of label [t] is the cell of [cv] at label [t]. *)
Lemma sorted_transposed_iat {R C} `{EqDecision R} (lt : R -> R -> bool)
    (f : Pandas.frame R C) i j t cv :
  NoDup (Pandas.index f) -> Pandas.rectangular f ->
  Py.sort lt (Pandas.index f) !! j = Some t ->
  Pandas.cols f !! i = Some cv ->
  Pandas.iat (Pandas.transpose (Pandas.sort_index lt f)) i j
  = Some (default Pandas.nan (Pandas.at_label (Pandas.index f) (snd cv) t)).
Proof.
  intros Hnd Hrect Ht Hcv.
  assert (Hlen : length (snd cv) = length (Pandas.index f)).
  { unfold Pandas.rectangular in Hrect. rewrite Forall_forall in Hrect.
    eapply Hrect, list_elem_of_lookup_2, Hcv. }
  rewrite (transpose_iat _ i j t
             (fst cv, List.map snd (Py.sort_key lt fst (zip (Pandas.index f) (snd cv))))).
  - simpl. f_equal. f_equal.
    rewrite <- (sort_index_at_label lt _ _ t Hnd Hlen).
    symmetry. apply at_label_lookup; [now apply sort_nodup|exact Ht].
  - exact Ht.
  - unfold Pandas.sort_index. simpl. now rewrite lookup_map, Hcv.
Qed.

(** ** Distinct values and concatenation *)

Lemma NoDup_bool_filter {A} (p : A -> bool) (l : list A) :
  NoDup l -> NoDup (List.filter p l).
Proof.
  induction 1 as [|x l Hx Hnd IH]; simpl; [constructor|].
  destruct (p x); [|exact IH].
  constructor; [|exact IH]. rewrite elem_of_bool_filter. tauto.
Qed.

Section Unique.
Context {A : Type} `{EqDecision A}.

Lemma elem_of_unique (x : A) l : x ∈ Pandas.unique l <-> x ∈ l.
Proof.
  induction l as [|y l IH]; simpl; [reflexivity|].
  rewrite !elem_of_cons, elem_of_bool_filter, IH.
  destruct (decide (x = y)) as [->|Hne].
  - intuition.
  - rewrite bool_decide_eq_false_2 by exact Hne. simpl. intuition.
Qed.

Lemma NoDup_unique (l : list A) : NoDup (Pandas.unique l).
Proof.
  induction l as [|y l IH]; simpl; [constructor|].
  constructor.
  - rewrite elem_of_bool_filter. intros [_ H].
    now rewrite bool_decide_eq_true_2 in H.
  - now apply NoDup_bool_filter.
Qed.

Lemma filter_other (x : A) l :
  x ∉ l -> List.filter (fun y => negb (bool_decide (y = x))) l = l.
Proof.
  induction l as [|y l IH]; simpl; [reflexivity|].
  rewrite not_elem_of_cons. intros [Hne Hnot].
  rewrite bool_decide_eq_false_2 by congruence. simpl. now rewrite IH.
Qed.

Lemma unique_nodup (l : list A) : NoDup l -> Pandas.unique l = l.
Proof.
  induction 1 as [|x l Hx Hnd IH]; simpl; [reflexivity|].
  now rewrite IH, filter_other.
Qed.
End Unique.

Section Concat.
Context {K R C : Type} `{EqDecision R}.

Lemma reindex_length (old new : list R) v :
  length (Pandas.reindex old new v) = length new.
Proof. apply length_map. Qed.

Lemma reindex_at_label (old u : list R) v t :
  NoDup u -> t ∈ u ->
  Pandas.at_label u (Pandas.reindex old u v) t
  = Some (default Pandas.nan (Pandas.at_label old v t)).
Proof.
  intros Hnd Ht. apply list_elem_of_lookup_1 in Ht as [p Hp].
  rewrite (at_label_lookup _ _ _ _ Hnd Hp).
  unfold Pandas.reindex. now rewrite lookup_map, Hp.
Qed.

Lemma concat_axis1_nodup (objs : list (Pandas.frame R C)) (keys : list K) :
  objs <> [] -> Forall NoDup (List.map Pandas.index objs) ->
  Pandas.concat_axis1 objs keys
  = Ok (Pandas.Frame
          (Pandas.unique (List.concat (List.map Pandas.index objs)))
          (flat_map
             (Pandas.block (Pandas.unique (List.concat (List.map Pandas.index objs))))
             (zip keys objs))).
Proof.
  intros Hne Hnd. unfold Pandas.concat_axis1.
  destruct objs as [|first rest]; [contradiction|].
  destruct (decide (Forall NoDup (List.map Pandas.index (first :: rest))));
    [reflexivity|contradiction].
Qed.

Lemma block_length (u : list R) (kf : K * Pandas.frame R C) :
  length (Pandas.block u kf) = length (Pandas.cols (snd kf)).
Proof. unfold Pandas.block, Pandas.add_key. now rewrite !length_map. Qed.

Lemma block_rectangular (u : list R) (kf : K * Pandas.frame R C) cv :
  cv ∈ Pandas.block u kf -> length (snd cv) = length u.
Proof.
  unfold Pandas.block, Pandas.add_key. rewrite List.map_map.
  intros H. apply list_elem_of_In, in_map_iff in H as (cv' & <- & _).
  simpl. apply reindex_length.
Qed.

Lemma concat_rectangular (u : list R) (l : list (K * Pandas.frame R C)) :
  Pandas.rectangular (Pandas.Frame u (flat_map (Pandas.block u) l)).
Proof.
  unfold Pandas.rectangular. simpl. apply Forall_forall. intros cv Hcv.
  apply list_elem_of_In, in_flat_map in Hcv as (kf & _ & Hin).
  eapply block_rectangular, list_elem_of_In, Hin.
Qed.
End Concat.

(** ** Reading the workbooks *)

Lemma read_result_files_Ok fs files cs es :
  read_result_files fs files = Ok (cs, es) ->
  length cs = length files /\ length es = length files
  /\ forall i rf, files !! i = Some rf ->
       exists c e, cs !! i = Some c /\ es !! i = Some e
                   /\ read_result_file fs rf = Ok (c, e).
Proof.
  revert cs es. induction files as [|rf files IH]; intros cs es; simpl.
  - intros [= <- <-]. repeat split. intros i rf' Hi. discriminate.
  - destruct (read_result_file fs rf) as [[c e]|] eqn:Hrf; [simpl|discriminate].
    destruct (read_result_files fs files) as [[cs' es']|]; [simpl|discriminate].
    intros [= <- <-]. destruct (IH cs' es' eq_refl) as (Hc & He & Hall).
    simpl. repeat split; [now rewrite Hc|now rewrite He|].
    intros [|i] rf' Hi; simpl in *.
    + injection Hi as <-. now exists c, e.
    + now apply Hall.
Qed.

Lemma read_result_file_Ok fs rf c e :
  read_result_file fs rf = Ok (c, e) ->
  exists wb raw, excel fs rf = Some wb /\ sheet_costs wb = Some c
    /\ sheet_commodity_sums wb = Some raw /\ e = repair_index raw.
Proof.
  unfold read_result_file, parse.
  destruct (excel fs rf) as [wb|] eqn:Hwb; [|discriminate].
  destruct (sheet_costs wb) as [c'|] eqn:Hc; [simpl|discriminate].
  destruct (sheet_commodity_sums wb) as [raw|] eqn:Hs; [simpl|discriminate].
  intros [= <- <-]. exists wb, raw. repeat split; assumption.
Qed.

Lemma repair_index_rectangular e :
  Pandas.rectangular e -> Pandas.rectangular (repair_index e).
Proof.
  unfold Pandas.rectangular. rewrite repair_index_index, repair_index_cols.
  rewrite length_zip. unfold Pandas.ffill. rewrite !ffill_from_length, !length_map.
  rewrite Nat.min_id. intros H. apply Forall_forall. intros cv Hcv.
  apply list_elem_of_In, in_map_iff in Hcv as (cv' & <- & Hin). simpl.
  rewrite ffill_from_length. rewrite Forall_forall in H.
  apply H, list_elem_of_In, Hin.
Qed.

Lemma input_contract_workbook fs files rf wb :
  input_contract fs files -> rf ∈ files -> excel fs rf = Some wb ->
  workbook_contract wb.
Proof.
  unfold input_contract. rewrite Forall_forall. intros H Hin Hwb.
  specialize (H rf Hin). now rewrite Hwb in H.
Qed.

(** What the contract gives for the frames the loop collects. *)
Lemma read_contract fs files cs es :
  read_result_files fs files = Ok (cs, es) ->
  input_contract fs files ->
  Forall costs_contract cs
  /\ Forall (fun e => 0 < length (Pandas.cols e) /\ NoDup (Pandas.index e)
                      /\ Pandas.rectangular e) es.
Proof.
  intros Hread Hin. destruct (read_result_files_Ok _ _ _ _ Hread) as (Hc & He & Hall).
  split; apply Forall_lookup; intros i x Hx.
  - destruct (files !! i) as [rf|] eqn:Hrf.
    + destruct (Hall i rf Hrf) as (c & e & Hci & Hei & Hr).
      apply read_result_file_Ok in Hr as (wb & raw & Hwb & Hsc & Hss & ->).
      assert (x = c) by congruence. subst x.
      destruct (input_contract_workbook fs files rf wb Hin) as [Hcc _];
        [eapply list_elem_of_lookup_2, Hrf|exact Hwb|].
      now rewrite Hsc in Hcc.
    + apply lookup_ge_None in Hrf. apply lookup_lt_Some in Hx. lia.
  - destruct (files !! i) as [rf|] eqn:Hrf.
    + destruct (Hall i rf Hrf) as (c & e & Hci & Hei & Hr).
      apply read_result_file_Ok in Hr as (wb & raw & Hwb & Hsc & Hss & ->).
      assert (x = repair_index raw) by congruence. subst x.
      destruct (input_contract_workbook fs files rf wb Hin) as [_ Hs];
        [eapply list_elem_of_lookup_2, Hrf|exact Hwb|].
      rewrite Hss in Hs. destruct Hs as (Hne & Hnd & Hrect).
      split; [|split; [exact Hnd|now apply repair_index_rectangular]].
      rewrite repair_index_cols, length_map. exact Hne.
    + apply lookup_ge_None in Hrf. apply lookup_lt_Some in Hx. lia.
Qed.

Lemma input_contract_perm fs files files' :
  Permutation files' files -> input_contract fs files -> input_contract fs files'.
Proof. unfold input_contract. now intros ->. Qed.

(** ** The reordering, on files and names together *)

Lemma scenario_names_delete i files :
  scenario_names_of (delete i files) = delete i (scenario_names_of files).
Proof. unfold scenario_names_of. rewrite !map_fmap. apply list_fmap_delete. Qed.

Lemma scenario_names_app l k :
  scenario_names_of (l ++ k)%list = (scenario_names_of l ++ scenario_names_of k)%list.
Proof. apply List.map_app. Qed.

Lemma delete_snoc_perm {A} (l : list A) i x :
  l !! i = Some x -> Permutation (delete i l ++ [x])%list l.
Proof.
  intros Hi. rewrite <- Permutation_cons_append.
  symmetry. now apply delete_Permutation.
Qed.

(** The block of lines 64--70 never fails on the lists of the script; the
    names stay the names of the files; with a base scenario the last file
    is a base file, without one nothing moves. *)
Lemma move_base_last_spec files :
  exists files',
    move_base_last files (scenario_names_of files)
    = (files', Ok (scenario_names_of files'))
    /\ Permutation files' files
    /\ ("base" ∈ scenario_names_of files ->
        last (scenario_names_of files') = Some "base")
    /\ ("base" ∉ scenario_names_of files -> files' = files).
Proof.
  destruct (decide ("base" ∈ scenario_names_of files)) as [Hin|Hnot].
  - destruct (index_present _ _ Hin) as [i Hi].
    destruct (move_base_last_found files (scenario_names_of files) i)
      as (rf & Hrf & Hmove); [now rewrite scenario_names_length|exact Hi|].
    apply index_Ok in Hi as [Hname _].
    assert (Hbase : scenario_name rf = "base").
    { unfold scenario_names_of in Hname. rewrite lookup_map, Hrf in Hname.
      simpl in Hname. congruence. }
    exists (delete i files ++ [rf])%list.
    rewrite scenario_names_app, scenario_names_delete. simpl. rewrite Hbase.
    split; [exact Hmove|]. split; [now apply delete_snoc_perm|].
    split; [intros _; apply last_snoc|contradiction].
  - exists files. rewrite (move_base_last_absent _ _ Hnot).
    split; [reflexivity|]. split; [reflexivity|]. split; [contradiction|reflexivity].
Qed.

Lemma compare_scenarios_body_eq fs files :
  exists files',
    compare_scenarios_body fs files
    = (files',
       let* read := read_result_files fs files' in
       analyse (scenario_names_of files') (fst read) (snd read))
    /\ Permutation files' files
    /\ ("base" ∈ scenario_names_of files ->
        last (scenario_names_of files') = Some "base")
    /\ ("base" ∉ scenario_names_of files -> files' = files).
Proof.
  destruct (move_base_last_spec files) as (files' & Hmove & Hrest).
  exists files'. split; [|exact Hrest].
  unfold compare_scenarios_body. now rewrite Hmove.
Qed.

(** ** The run, taken apart *)

Lemma compare_scenarios_body_Ok fs files files' rep :
  compare_scenarios_body fs files = (files', Ok rep) ->
  exists cs es,
    read_result_files fs files' = Ok (cs, es)
    /\ analyse (scenario_names_of files') cs es = Ok rep
    /\ Permutation files' files
    /\ ("base" ∈ scenario_names_of files ->
        last (scenario_names_of files') = Some "base")
    /\ ("base" ∉ scenario_names_of files -> files' = files).
Proof.
  destruct (compare_scenarios_body_eq fs files) as (f & Heq & Hrest).
  rewrite Heq. intros [= <- Hrun].
  destruct (read_result_files fs f) as [[cs es]|]; [simpl in Hrun|discriminate].
  exists cs, es. split; [reflexivity|]. split; [exact Hrun|exact Hrest].
Qed.

Lemma analyse_Ok names cs es rep :
  analyse names cs es = Ok rep ->
  exists c e g,
    Pandas.concat_axis1 cs names = Ok c
    /\ Pandas.concat_axis1 es names = Ok e
    /\ created_by_scenario e = Ok g
    /\ costs rep = cost_table c
    /\ esums rep = energy_table g.
Proof.
  unfold analyse. intros H.
  destruct (Pandas.concat_axis1 cs names) as [c|] eqn:Hc; [simpl in H|discriminate].
  destruct (Pandas.concat_axis1 es names) as [e|] eqn:He; [simpl in H|discriminate].
  destruct (created_by_scenario e) as [g|] eqn:Hg; [simpl in H|discriminate].
  injection H as <-. exists c, e, g. repeat split; assumption || reflexivity.
Qed.

Lemma concat_axis1_Ok_nonempty {K R C} `{EqDecision R}
    (objs : list (Pandas.frame R C)) (keys : list K) f :
  Pandas.concat_axis1 objs keys = Ok f -> objs <> [].
Proof. destruct objs; [discriminate|]. intros _. discriminate. Qed.

(** The concatenated frame, for frames whose indexes have no repeated
    label. *)
Lemma concat_axis1_Ok_nodup {K R C} `{EqDecision R}
    (objs : list (Pandas.frame R C)) (keys : list K) f :
  Pandas.concat_axis1 objs keys = Ok f ->
  Forall (fun o => NoDup (Pandas.index o)) objs ->
  let u := Pandas.unique (List.concat (List.map Pandas.index objs)) in
  f = Pandas.Frame u (flat_map (Pandas.block u) (zip keys objs)).
Proof.
  intros Hf Hnd u.
  rewrite concat_axis1_nodup in Hf.
  - now injection Hf as <-.
  - eapply concat_axis1_Ok_nonempty, Hf.
  - rewrite map_fmap. now apply Forall_fmap.
Qed.

(** ** The cost table *)

Lemma cost_table_index (c : Pandas.frame string (string * string)) :
  Pandas.index (cost_table c)
  = List.map (fun cv => fst (fst cv)) (Pandas.cols c).
Proof.
  unfold cost_table. rewrite div_scalar_index, transpose_index, sort_index_columns.
  unfold Pandas.columns, Pandas.droplevel_1. simpl. now rewrite List.map_map.
Qed.

Lemma cost_table_columns (c : Pandas.frame string (string * string)) :
  Pandas.columns (cost_table c) = Py.sort String.ltb (Pandas.index c).
Proof.
  unfold cost_table. now rewrite div_scalar_columns, transpose_columns.
Qed.

Lemma droplevel_1_rectangular {K R C} (f : Pandas.frame R (K * C)) :
  Pandas.rectangular f -> Pandas.rectangular (Pandas.droplevel_1 f).
Proof.
  unfold Pandas.rectangular, Pandas.droplevel_1. simpl. intros H.
  rewrite map_fmap. apply Forall_fmap. eapply Forall_impl; [exact H|].
  now intros [[k c] v].
Qed.

(** A cell of the cost table is the cell of the concatenated frame at the
    same scenario column and cost type, divided by 1e9. *)
Lemma cost_table_iat (c : Pandas.frame string (string * string)) i j t kc w :
  NoDup (Pandas.index c) -> Pandas.rectangular c ->
  Pandas.columns (cost_table c) !! j = Some t ->
  Pandas.cols c !! i = Some (kc, w) ->
  Pandas.iat (cost_table c) i j
  = Some (default Pandas.nan (Pandas.at_label (Pandas.index c) w t) / 1e9)%float.
Proof.
  intros Hnd Hrect Ht Hcv. rewrite cost_table_columns in Ht.
  unfold cost_table. rewrite div_scalar_iat.
  rewrite (sorted_transposed_iat String.ltb (Pandas.droplevel_1 c) i j t (fst kc, w)).
  - reflexivity.
  - exact Hnd.
  - now apply droplevel_1_rectangular.
  - exact Ht.
  - unfold Pandas.droplevel_1. simpl. now rewrite lookup_map, Hcv.
Qed.

Section OneColumn.
Context {K R C : Type} `{EqDecision R}.
Variable u : list R.

Lemma block_single (k : K) (o : Pandas.frame R C) lbl v :
  Pandas.cols o = [(lbl, v)] ->
  Pandas.block u (k, o) = [((k, lbl), Pandas.reindex (Pandas.index o) u v)].
Proof using Type. intros Ho. unfold Pandas.block. simpl. now rewrite Ho. Qed.

Lemma one_column_inv (o : Pandas.frame R C) :
  length (Pandas.cols o) = 1 -> exists lbl v, Pandas.cols o = [(lbl, v)].
Proof using Type.
  destruct (Pandas.cols o) as [|[lbl v] [|cv r]]; try discriminate.
  intros _. now exists lbl, v.
Qed.

(** With one column per frame, the concatenation has one column per key,
    in the order of the keys. *)
Lemma one_column_keys (l : list (K * Pandas.frame R C)) :
  Forall (fun kf => length (Pandas.cols (snd kf)) = 1) l ->
  List.map (fun cv => fst (fst cv)) (flat_map (Pandas.block u) l)
  = List.map fst l.
Proof using Type.
  induction 1 as [|[k o] l Ho Hl IH]; simpl; [reflexivity|].
  destruct (one_column_inv o Ho) as (lbl & v & Hcols).
  rewrite (block_single k o lbl v Hcols). simpl. now rewrite IH.
Qed.

Lemma one_column_lookup (l : list (K * Pandas.frame R C)) i k o lbl v :
  Forall (fun kf => length (Pandas.cols (snd kf)) = 1) l ->
  l !! i = Some (k, o) -> Pandas.cols o = [(lbl, v)] ->
  flat_map (Pandas.block u) l !! i
  = Some ((k, lbl), Pandas.reindex (Pandas.index o) u v).
Proof using Type.
  intros Hl. revert i. induction Hl as [|[k' o'] l Ho Hl IH]; intros i Hi Hcols;
    [discriminate|].
  simpl. destruct (one_column_inv o' Ho) as (lbl' & v' & Hcols').
  rewrite (block_single k' o' lbl' v' Hcols'). destruct i as [|i]; simpl in *.
  - injection Hi as -> ->. rewrite Hcols in Hcols'. now injection Hcols' as <- <-.
  - now apply IH.
Qed.
End OneColumn.

(** ** C4: the shape of the cost table *)

Lemma str_sorted_strict (l : list string) :
  StronglySorted (nlt String.ltb) l -> NoDup l ->
  StronglySorted (fun a b => String.ltb a b = true) l.
Proof.
  induction 1 as [|x l Hs IH Hall]; intros Hnd; [constructor|].
  apply NoDup_cons in Hnd as [Hx Hnd].
  constructor; [now apply IH|].
  apply Forall_forall. intros y Hy. rewrite Forall_forall in Hall.
  specialize (Hall y Hy). unfold nlt, String.ltb in *.
  rewrite (String.compare_antisym y x) in Hall.
  destruct (String.compare x y) eqn:E; simpl in Hall; try congruence.
  apply String.compare_eq_iff in E. subst. contradiction.
Qed.

(** The cost table of a run, from the frames read. *)
Lemma run_costs fs files files' rep :
  compare_scenarios_body fs files = (files', Ok rep) ->
  input_contract fs files ->
  exists cs es,
    read_result_files fs files' = Ok (cs, es)
    /\ Permutation files' files
    /\ Forall costs_contract cs
    /\ length cs = length files'
    /\ costs rep
       = cost_table
           (Pandas.Frame
              (Pandas.unique (List.concat (List.map Pandas.index cs)))
              (flat_map
                 (Pandas.block (Pandas.unique (List.concat (List.map Pandas.index cs))))
                 (zip (scenario_names_of files') cs))).
Proof.
  intros Hrun Hin.
  destruct (compare_scenarios_body_Ok _ _ _ _ Hrun) as (cs & es & Hread & Han & Hp & _).
  exists cs, es. split; [exact Hread|]. split; [exact Hp|].
  destruct (read_contract _ _ _ _ Hread (input_contract_perm _ _ _ Hp Hin)) as [Hcs _].
  split; [exact Hcs|].
  destruct (read_result_files_Ok _ _ _ _ Hread) as (Hlen & _ & _).
  split; [exact Hlen|].
  destruct (analyse_Ok _ _ _ _ Han) as (c & e & g & Hc & _ & _ & -> & _).
  f_equal. apply (concat_axis1_Ok_nodup _ _ _ Hc).
  eapply Forall_impl; [exact Hcs|]. now intros o (_ & Hnd & _).
Qed.

Lemma one_column_zip {K} (keys : list K) (cs : list (Pandas.frame string string)) :
  Forall costs_contract cs ->
  Forall (fun kf => length (Pandas.cols (snd kf)) = 1) (zip keys cs).
Proof.
  intros H. apply Forall_forall. intros [k o] Hin. simpl.
  rewrite Forall_forall in H. apply elem_of_zip_r in Hin.
  now destruct (H o Hin).
Qed.

Lemma elem_of_concat_index {R C} (fs : list (Pandas.frame R C)) (t : R) :
  t ∈ List.concat (List.map Pandas.index fs)
  <-> exists f, f ∈ fs /\ t ∈ Pandas.index f.
Proof.
  rewrite list_elem_of_In, in_concat. split.
  - intros (idx & Hidx & Ht). apply in_map_iff in Hidx as (f & <- & Hf).
    exists f. now rewrite !list_elem_of_In.
  - intros (f & Hf & Ht). exists (Pandas.index f).
    rewrite in_map_iff. rewrite !list_elem_of_In in *. eauto.
Qed.

Lemma run_costs_index fs files files' rep :
  compare_scenarios_body fs files = (files', Ok rep) ->
  input_contract fs files ->
  Pandas.index (costs rep) = scenario_names_of files'.
Proof.
  intros Hrun Hin.
  destruct (run_costs _ _ _ _ Hrun Hin) as (cs & es & Hread & Hp & Hcs & Hlen & ->).
  rewrite cost_table_index. simpl.
  rewrite (one_column_keys _ _ (one_column_zip _ _ Hcs)).
  rewrite map_fmap. apply fst_zip. rewrite scenario_names_length. lia.
Qed.

(** C4. After a run over result files that keep the input contract, the
    cost table has one row per file, labelled by the scenario names in the
    order of the (reordered) files, and its column labels are the cost
    types found in the [Costs] sheets of the files, each once, in strictly
    ascending order. *)
Theorem costs_table_shape fs files files' rep :
  compare_scenarios_body fs files = (files', Ok rep) ->
  input_contract fs files ->
  length (Pandas.index (costs rep)) = length files
  /\ Pandas.index (costs rep) = scenario_names_of files'
  /\ Permutation files' files
  /\ StronglySorted (fun a b => String.ltb a b = true) (Pandas.columns (costs rep))
  /\ forall t, t ∈ Pandas.columns (costs rep)
       <-> exists rf wb c, rf ∈ files /\ excel fs rf = Some wb
                           /\ sheet_costs wb = Some c /\ t ∈ Pandas.index c.
Proof.
  intros Hrun Hin.
  pose proof (run_costs_index _ _ _ _ Hrun Hin) as Hidx.
  destruct (run_costs _ _ _ _ Hrun Hin) as (cs & es & Hread & Hp & Hcs & Hlen & Hrep).
  split; [rewrite Hidx, scenario_names_length; apply Permutation_length, Hp|].
  split; [exact Hidx|]. split; [exact Hp|].
  rewrite Hrep.
  set (u := Pandas.unique (List.concat (List.map Pandas.index cs))).
  rewrite cost_table_columns. simpl. split.
  - apply str_sorted_strict.
    + apply sort_sorted; [apply str_ltb_asym|apply str_nlt_trans].
    + apply sort_nodup, NoDup_unique.
  - intros t. rewrite (sort_perm String.ltb u). unfold u.
    rewrite elem_of_unique, elem_of_concat_index.
    destruct (read_result_files_Ok _ _ _ _ Hread) as (_ & _ & Hall).
    split.
    + intros (c & Hc & Ht). apply list_elem_of_lookup_1 in Hc as [i Hi].
      destruct (files' !! i) as [rf|] eqn:Hrf.
      * destruct (Hall i rf Hrf) as (c' & e & Hci & _ & Hr).
        apply read_result_file_Ok in Hr as (wb & raw & Hwb & Hsc & _).
        exists rf, wb, c. split; [rewrite <- Hp; eapply list_elem_of_lookup_2, Hrf|].
        split; [exact Hwb|]. split; [congruence|exact Ht].
      * apply lookup_ge_None in Hrf. apply lookup_lt_Some in Hi. lia.
    + intros (rf & wb & c & Hrf & Hwb & Hsc & Ht).
      rewrite <- Hp in Hrf. apply list_elem_of_lookup_1 in Hrf as [i Hi].
      destruct (Hall i rf Hi) as (c' & e & Hci & _ & Hr).
      apply read_result_file_Ok in Hr as (wb' & raw & Hwb' & Hsc' & _).
      exists c. split; [|exact Ht].
      assert (c' = c) by congruence. subst c'.
      eapply list_elem_of_lookup_2, Hci.
Qed.

(** ** Selection by a mask *)

Lemma select_nil_l {A} (l : list A) : Pandas.select [] l = [].
Proof. reflexivity. Qed.

Lemma select_nil_r {A} (m : list bool) : Pandas.select m ([] : list A) = [].
Proof. unfold Pandas.select. now destruct m. Qed.

Lemma select_cons {A} (b : bool) m (x : A) l :
  Pandas.select (b :: m) (x :: l)
  = if b then x :: Pandas.select m l else Pandas.select m l.
Proof. unfold Pandas.select. simpl. now destruct b. Qed.

Lemma select_map_map {A B} (p : A -> bool) (f : A -> B) (l : list A) :
  Pandas.select (List.map p l) (List.map f l) = List.map f (List.filter p l).
Proof.
  induction l as [|x l IH]; simpl; [reflexivity|].
  rewrite select_cons, IH. now destruct (p x).
Qed.

Lemma select_length {A B} (m : list bool) (l : list A) (k : list B) :
  length l = length k ->
  length (Pandas.select m l) = length (Pandas.select m k).
Proof.
  revert l k. induction m as [|b m IH]; intros l k Hlen; [reflexivity|].
  destruct l as [|x l], k as [|y k]; simpl in Hlen; try discriminate.
  - now rewrite !select_nil_r.
  - rewrite !select_cons. destruct b; simpl; auto.
Qed.

Lemma select_zip {A B} (m : list bool) (l : list A) (k : list B) :
  zip (Pandas.select m l) (Pandas.select m k) = Pandas.select m (zip l k).
Proof.
  revert l k. induction m as [|b m IH]; intros l k; [reflexivity|].
  destruct l as [|x l]; [now rewrite !select_nil_r|].
  destruct k as [|y k].
  - rewrite !select_nil_r. simpl. rewrite select_nil_r. now destruct (Pandas.select _ _).
  - simpl. rewrite !select_cons. destruct b; simpl; now rewrite IH.
Qed.

Lemma elem_of_select {A} (m : list bool) (l : list A) (x : A) :
  x ∈ Pandas.select m l
  <-> exists p, m !! p = Some true /\ l !! p = Some x.
Proof.
  revert l. induction m as [|b m IH]; intros l.
  - rewrite select_nil_l. split; [intros H; inversion H|]. now intros (p & Hp & _).
  - destruct l as [|y l].
    + rewrite select_nil_r. split; [intros H; inversion H|]. now intros (p & _ & Hp).
    + rewrite select_cons. split.
      * intros H. destruct b.
        -- apply elem_of_cons in H as [->|H]; [now exists 0|].
           apply IH in H as (p & Hm & Hl). now exists (S p).
        -- apply IH in H as (p & Hm & Hl). now exists (S p).
      * intros ([|p] & Hm & Hl); simpl in *.
        -- injection Hm as ->. injection Hl as ->. now left.
        -- assert (x ∈ Pandas.select m l) by (apply IH; now exists p).
           destruct b; [now right|assumption].
Qed.

Lemma select_sub {A} (m : list bool) (l : list A) (x : A) :
  x ∈ Pandas.select m l -> x ∈ l.
Proof.
  rewrite elem_of_select. intros (p & _ & Hp). eapply list_elem_of_lookup_2, Hp.
Qed.

Lemma select_nodup {A} (m : list bool) (l : list A) :
  NoDup l -> NoDup (Pandas.select m l).
Proof.
  revert l. induction m as [|b m IH]; intros l Hnd; [constructor|].
  destruct l as [|x l]; [rewrite select_nil_r; constructor|].
  apply NoDup_cons in Hnd as [Hx Hnd]. rewrite select_cons.
  destruct b; [|now apply IH].
  constructor; [|now apply IH]. intros Hin. now apply select_sub in Hin.
Qed.

(** Rows selected from a column keep their labels. *)
Lemma select_at_label {R} `{EqDecision R} (m : list bool) idx (v : list float)
    (t : R) :
  NoDup idx -> length v = length idx -> t ∈ Pandas.select m idx ->
  Pandas.at_label (Pandas.select m idx) (Pandas.select m v) t
  = Pandas.at_label idx v t.
Proof.
  intros Hnd Hlen Ht.
  assert (Hnd' : NoDup (Pandas.select m idx)) by now apply select_nodup.
  assert (Hlen' : length (Pandas.select m v) = length (Pandas.select m idx))
    by now apply select_length.
  apply list_elem_of_lookup_1 in Ht as [q Hq].
  destruct (Pandas.select m v !! q) as [x|] eqn:Hx.
  - rewrite (at_label_lookup _ _ _ _ Hnd' Hq), Hx. symmetry.
    apply (at_label_sub idx v (Pandas.select m idx) (Pandas.select m v));
      try assumption.
    + intros p. rewrite select_zip. apply select_sub.
    + now rewrite (at_label_lookup _ _ _ _ Hnd' Hq).
  - apply lookup_ge_None in Hx. apply lookup_lt_Some in Hq. lia.
Qed.

(** ** The rows under one outer label *)

Lemma loc_level0_Ok {K0 K1 C} `{EqDecision K0} (key : K0)
    (f : Pandas.frame (K0 * K1) C) created :
  Pandas.loc_level0 key f = Ok created ->
  created
  = Pandas.Frame
      (List.map snd
         (List.filter (fun r => bool_decide (fst r = key)) (Pandas.index f)))
      (List.map
         (fun cv =>
            (fst cv,
             Pandas.select
               (List.map (fun r => bool_decide (fst r = key)) (Pandas.index f))
               (snd cv)))
         (Pandas.cols f)).
Proof.
  unfold Pandas.loc_level0. intros H.
  destruct (existsb _ _); [|discriminate]. injection H as <-.
  now rewrite select_map_filter.
Qed.

Lemma select_reindex {R} `{EqDecision R} (p : R -> bool) (old u : list R) v :
  Pandas.select (List.map p u) (Pandas.reindex old u v)
  = Pandas.reindex old (List.filter p u) v.
Proof. unfold Pandas.reindex. apply select_map_map. Qed.

Lemma select_block {K R C} `{EqDecision R} (p : R -> bool) (u : list R)
    (kf : K * Pandas.frame R C) :
  List.map (fun cv => (fst cv, Pandas.select (List.map p u) (snd cv)))
    (Pandas.block u kf)
  = Pandas.block (List.filter p u) kf.
Proof.
  unfold Pandas.block, Pandas.add_key. rewrite !List.map_map.
  apply map_ext. intros cv. simpl. now rewrite select_reindex.
Qed.

Lemma select_blocks {K R C} `{EqDecision R} (p : R -> bool) (u : list R)
    (l : list (K * Pandas.frame R C)) :
  List.map (fun cv => (fst cv, Pandas.select (List.map p u) (snd cv)))
    (flat_map (Pandas.block u) l)
  = flat_map (Pandas.block (List.filter p u)) l.
Proof.
  induction l as [|kf l IH]; simpl; [reflexivity|].
  now rewrite List.map_app, select_block, IH.
Qed.

(** ** Grouping the columns by key *)

Section Groups.
Context {K R C : Type} `{EqDecision K} `{EqDecision R}.
Variable u : list R.

Lemma block_keys (kf : K * Pandas.frame R C) cv :
  cv ∈ Pandas.block u kf -> fst (fst cv) = fst kf.
Proof using Type.
  unfold Pandas.block, Pandas.add_key. rewrite List.map_map.
  intros H. apply list_elem_of_In, in_map_iff in H as (cv' & <- & _).
  reflexivity.
Qed.

Lemma filter_block_same (k : K) (o : Pandas.frame R C) :
  List.filter (fun cv => bool_decide (fst (fst cv) = k)) (Pandas.block u (k, o))
  = Pandas.block u (k, o).
Proof using Type.
  apply filter_all_in. intros cv Hcv. apply bool_decide_eq_true_2.
  apply (block_keys (k, o)), list_elem_of_In, Hcv.
Qed.

Lemma filter_block_other (k : K) (kf : K * Pandas.frame R C) :
  fst kf <> k ->
  List.filter (fun cv => bool_decide (fst (fst cv) = k)) (Pandas.block u kf) = [].
Proof using Type.
  intros Hne. apply filter_none_in. intros cv Hcv. apply bool_decide_eq_false_2.
  rewrite (block_keys kf cv) by apply list_elem_of_In, Hcv. exact Hne.
Qed.

Lemma filter_blocks_absent (k : K) (l : list (K * Pandas.frame R C)) :
  k ∉ List.map fst l ->
  List.filter (fun cv => bool_decide (fst (fst cv) = k))
    (flat_map (Pandas.block u) l) = [].
Proof using Type.
  induction l as [|kf l IH]; simpl; [reflexivity|].
  rewrite not_elem_of_cons. intros [Hne Hnot].
  rewrite List.filter_app, (filter_block_other k kf) by congruence.
  now apply IH.
Qed.

(** With distinct keys, the group of a key is the block of its frame. *)
Lemma group_block (l : list (K * Pandas.frame R C)) i k o :
  NoDup (List.map fst l) -> l !! i = Some (k, o) ->
  Pandas.group k (flat_map (Pandas.block u) l)
  = List.map (fun cv => Pandas.reindex (Pandas.index o) u (snd cv)) (Pandas.cols o).
Proof using Type.
  unfold Pandas.group. revert i. induction l as [|kf l IH]; intros i Hnd Hi;
    [discriminate|].
  simpl in Hnd. apply NoDup_cons in Hnd as [Hk Hnd].
  simpl. rewrite List.filter_app, List.map_app. destruct i as [|i]; simpl in Hi.
  - injection Hi as ->. rewrite (filter_block_same k o).
    rewrite filter_blocks_absent by exact Hk. rewrite app_nil_r.
    unfold Pandas.block, Pandas.add_key. now rewrite !List.map_map.
  - assert (Hne : fst kf <> k).
    { intros Heq. apply Hk. rewrite Heq.
      apply list_elem_of_In, in_map_iff. exists (k, o).
      split; [reflexivity|]. eapply list_elem_of_In, list_elem_of_lookup_2, Hi. }
    rewrite (filter_block_other k kf Hne). simpl. now apply (IH i).
Qed.

Lemma blocks_keys_cons (kf : K * Pandas.frame R C) :
  List.map (fun cv => fst (fst cv)) (Pandas.block u kf)
  = List.map (fun _ => fst kf) (Pandas.cols (snd kf)).
Proof using Type.
  unfold Pandas.block, Pandas.add_key. now rewrite !List.map_map.
Qed.
End Groups.

(** ** The groups of a concatenation are its keys *)

Section UniqueKeys.
Context {K : Type} `{EqDecision K}.

Lemma filter_ne_idem (k : K) (l : list K) :
  List.filter (fun y => negb (bool_decide (y = k)))
    (List.filter (fun y => negb (bool_decide (y = k))) l)
  = List.filter (fun y => negb (bool_decide (y = k))) l.
Proof.
  apply filter_all_in. intros x Hx. now apply filter_In in Hx.
Qed.

Lemma unique_repeat_app {B} (k : K) (bs : list B) (rest : list K) :
  List.filter (fun y => negb (bool_decide (y = k)))
    (Pandas.unique (List.map (fun _ => k) bs ++ rest)%list)
  = List.filter (fun y => negb (bool_decide (y = k))) (Pandas.unique rest).
Proof.
  induction bs as [|b bs IH]; simpl; [reflexivity|].
  rewrite bool_decide_eq_true_2 by reflexivity. simpl.
  now rewrite filter_ne_idem.
Qed.

Lemma unique_block_keys {R C} `{EqDecision R} (u : list R)
    (l : list (K * Pandas.frame R C)) :
  NoDup (List.map fst l) ->
  Forall (fun kf => 0 < length (Pandas.cols (snd kf))) l ->
  Pandas.unique
    (List.map (fun cv => fst (fst cv)) (flat_map (Pandas.block u) l))
  = List.map fst l.
Proof.
  intros Hnd Hall. induction Hall as [|[k o] l Ho Hall IH]; simpl; [reflexivity|].
  simpl in Hnd. apply NoDup_cons in Hnd as [Hk Hnd].
  rewrite List.map_app, blocks_keys_cons. simpl in *.
  destruct (Pandas.cols o) as [|cv cs]; [simpl in Ho; lia|].
  simpl. f_equal. rewrite unique_repeat_app, (IH Hnd).
  now apply filter_other.
Qed.
End UniqueKeys.

(** ** Sums along the rows *)

Lemma sum_axis1_length n vs : length (Pandas.sum_axis1 n vs) = n.
Proof. unfold Pandas.sum_axis1. now rewrite length_map, length_seq. Qed.

Lemma sum_axis1_lookup n vs p :
  p < n ->
  Pandas.sum_axis1 n vs !! p = Some (Pandas.nansum (Pandas.row_values p vs)).
Proof.
  intros Hp. unfold Pandas.sum_axis1.
  now rewrite lookup_map, lookup_seq_lt by exact Hp.
Qed.

Lemma row_values_reindex {R C} `{EqDecision R} (idx u : list R) p r
    (cs : list (C * list float)) :
  u !! p = Some r ->
  Pandas.row_values p
    (List.map (fun cv => Pandas.reindex idx u (snd cv)) cs)
  = List.map (fun cv => default Pandas.nan (Pandas.at_label idx (snd cv) r)) cs.
Proof.
  intros Hp. unfold Pandas.row_values. rewrite List.map_map.
  apply map_ext. intros cv. unfold Pandas.reindex.
  now rewrite lookup_map, Hp.
Qed.

(** ** The rows of the created energy *)

Lemma created_rows_snd {B} (u : list (option string * B)) :
  Forall (fun r => fst r = Some "Created") (List.filter is_created u).
Proof.
  apply Forall_forall. intros r Hr. apply list_elem_of_In, filter_In in Hr as [_ Hr].
  unfold is_created in Hr. now apply bool_decide_eq_true_1 in Hr.
Qed.

Lemma created_rows_lookup {B} (u : list (option string * B)) p com :
  List.map snd (List.filter is_created u) !! p = Some com ->
  List.filter is_created u !! p = Some (Some "Created", com).
Proof.
  rewrite lookup_map. destruct (List.filter is_created u !! p) as [[a b]|] eqn:E;
    [|discriminate].
  simpl. intros [= <-].
  pose proof (created_rows_snd u) as H. rewrite Forall_forall in H.
  specialize (H _ (list_elem_of_lookup_2 _ _ _ E)). simpl in H. now subst.
Qed.

Lemma created_rows_nodup {B} (u : list (option string * B)) :
  NoDup u -> NoDup (List.map snd (List.filter is_created u)).
Proof.
  intros Hnd. pose proof (created_rows_snd u) as Hc.
  pose proof (NoDup_bool_filter is_created u Hnd) as Hf.
  induction Hf as [|[a b] l Hx Hf IH]; simpl; [constructor|].
  apply Forall_cons in Hc as [Ha Hc]. simpl in Ha. subst a.
  constructor; [|now apply IH].
  intros Hin. apply Hx.
  apply list_elem_of_In, in_map_iff in Hin as ([a' b'] & Hb & Hin). simpl in Hb. subst b'.
  rewrite Forall_forall in Hc.
  specialize (Hc _ (proj2 (list_elem_of_In _ _) Hin)). simpl in Hc. subst a'.
  now apply list_elem_of_In.
Qed.

(** ** The table of line 111, for a run *)

Lemma created_table (names : list string)
    (es : list (Pandas.frame (option string * option string) string)) e g :
  NoDup names -> length names = length es ->
  Forall (fun o => 0 < length (Pandas.cols o) /\ NoDup (Pandas.index o)
                   /\ Pandas.rectangular o) es ->
  Pandas.concat_axis1 es names = Ok e ->
  created_by_scenario e = Ok g ->
  Pandas.index g
  = List.map snd
      (List.filter is_created (Pandas.unique (List.concat (List.map Pandas.index es))))
  /\ NoDup (Pandas.index g)
  /\ Pandas.columns g = names
  /\ Pandas.rectangular g
  /\ forall i k o, names !! i = Some k -> es !! i = Some o ->
       exists w, Pandas.cols g !! i = Some (k, w)
         /\ forall p com, Pandas.index g !! p = Some com ->
              w !! p = Some (created_sum o com).
Proof.
  intros Hnd Hlen Hes He Hg.
  assert (Hnd_es : Forall (fun o => NoDup (Pandas.index o)) es).
  { eapply Forall_impl; [exact Hes|]. now intros o (_ & H & _). }
  pose proof (concat_axis1_Ok_nodup _ _ _ He Hnd_es) as He'. simpl in He'.
  set (u := Pandas.unique (List.concat (List.map Pandas.index es))) in *.
  set (l := zip names es) in *.
  unfold created_by_scenario in Hg.
  destruct (Pandas.loc_level0 (Some "Created") e) as [created|] eqn:Hc;
    [simpl in Hg|discriminate].
  injection Hg as <-.
  apply loc_level0_Ok in Hc. rewrite He' in Hc. simpl in Hc.
  change (fun r : option string * option string => bool_decide (fst r = Some "Created"))
    with (@is_created (option string)) in Hc.
  rewrite select_blocks in Hc.
  set (uc := List.filter is_created u) in *.
  assert (Hfst : List.map fst l = names).
  { unfold l. rewrite map_fmap. apply fst_zip. lia. }
  assert (Hkeys : Pandas.unique
                    (List.map (fun cv => fst (fst cv)) (flat_map (Pandas.block uc) l))
                  = names).
  { rewrite unique_block_keys; [exact Hfst|now rewrite Hfst|].
    apply Forall_forall. intros [k o] Hin. simpl.
    apply elem_of_zip_r in Hin. rewrite Forall_forall in Hes.
    now destruct (Hes o Hin). }
  subst created. unfold Pandas.sum_axis1_level0. simpl. rewrite Hkeys.
  split; [reflexivity|]. split; [apply created_rows_nodup, NoDup_unique|].
  split.
  { unfold Pandas.columns. simpl. rewrite List.map_map. simpl. apply map_id. }
  split.
  { unfold Pandas.rectangular. simpl. apply Forall_forall. intros cv Hcv.
    apply list_elem_of_In, in_map_iff in Hcv as (k & <- & _). simpl.
    apply sum_axis1_length. }
  intros i k o Hk Ho.
  eexists. split.
  { rewrite lookup_map, Hk. simpl. reflexivity. }
  intros p com Hp.
  rewrite sum_axis1_lookup by (apply lookup_lt_Some in Hp; exact Hp).
  f_equal. unfold created_sum, created_sum_at. f_equal.
  rewrite (group_block uc l i k o).
  - apply row_values_reindex. now apply created_rows_lookup.
  - now rewrite Hfst.
  - unfold l. now apply lookup_zip_Some.
Qed.

(** ** The energy table *)

Lemma loc_rows_columns {R C} (m : list bool) (f : Pandas.frame R C) :
  Pandas.columns (Pandas.loc_rows m f) = Pandas.columns f.
Proof.
  unfold Pandas.columns, Pandas.loc_rows. simpl. now rewrite List.map_map.
Qed.

Lemma energy_table_index (g : Pandas.frame (option string) string) :
  Pandas.index (energy_table g) = Pandas.columns g.
Proof.
  unfold energy_table.
  now rewrite div_scalar_index, transpose_index, sort_index_columns, loc_rows_columns.
Qed.

Lemma energy_table_columns (g : Pandas.frame (option string) string) :
  Pandas.columns (energy_table g)
  = Py.sort Pandas.label_ltb (Pandas.select (used_commodities g) (Pandas.index g)).
Proof.
  unfold energy_table. now rewrite div_scalar_columns, transpose_columns.
Qed.



(** A cell of the energy table is the cell of the table of line 111 at the
    same scenario and commodity, divided by 1e3. *)
Lemma energy_table_iat (g : Pandas.frame (option string) string) i j com k w :
  NoDup (Pandas.index g) -> Pandas.rectangular g ->
  Pandas.columns (energy_table g) !! j = Some com ->
  Pandas.cols g !! i = Some (k, w) ->
  Pandas.iat (energy_table g) i j
  = Some (default Pandas.nan (Pandas.at_label (Pandas.index g) w com) / 1e3)%float.
Proof.
  intros Hnd Hrect Hj Hi. rewrite energy_table_columns in Hj.
  assert (Hlen : length w = length (Pandas.index g)).
  { unfold Pandas.rectangular in Hrect. rewrite Forall_forall in Hrect.
    apply (Hrect (k, w)). eapply list_elem_of_lookup_2, Hi. }
  unfold energy_table. rewrite div_scalar_iat.
  set (m := used_commodities g).
  rewrite (sorted_transposed_iat Pandas.label_ltb (Pandas.loc_rows m g) i j com
             (k, Pandas.select m w)).
  - simpl. rewrite select_at_label; [reflexivity|exact Hnd|exact Hlen|].
    apply list_elem_of_lookup_2 in Hj.
    now rewrite (sort_perm Pandas.label_ltb) in Hj.
  - simpl. now apply select_nodup.
  - unfold Pandas.rectangular, Pandas.loc_rows. simpl.
    apply Forall_forall. intros cv Hcv.
    apply list_elem_of_In, in_map_iff in Hcv as (cv' & <- & Hin). simpl.
    apply select_length.
    unfold Pandas.rectangular in Hrect. rewrite Forall_forall in Hrect.
    apply Hrect, list_elem_of_In, Hin.
  - exact Hj.
  - unfold Pandas.loc_rows. simpl. now rewrite lookup_map, Hi.
Qed.

(** ** The frames of a run *)

Lemma read_lookup fs files cs es i rf wb :
  read_result_files fs files = Ok (cs, es) ->
  files !! i = Some rf -> excel fs rf = Some wb ->
  exists c raw,
    sheet_costs wb = Some c /\ sheet_commodity_sums wb = Some raw
    /\ cs !! i = Some c /\ es !! i = Some (repair_index raw).
Proof.
  intros Hread Hi Hwb.
  destruct (read_result_files_Ok _ _ _ _ Hread) as (_ & _ & Hall).
  destruct (Hall i rf Hi) as (c & e & Hc & He & Hr).
  apply read_result_file_Ok in Hr as (wb' & raw & Hwb' & Hsc & Hss & ->).
  assert (wb' = wb) by congruence. subst wb'.
  now exists c, raw.
Qed.

Lemma scenario_names_perm files files' :
  Permutation files' files ->
  Permutation (scenario_names_of files') (scenario_names_of files).
Proof. apply Permutation_map. Qed.

(** The energy table of a run, from the frames read. *)
Lemma run_energy fs files files' rep :
  compare_scenarios_body fs files = (files', Ok rep) ->
  input_contract fs files ->
  NoDup (scenario_names_of files) ->
  exists cs es g,
    read_result_files fs files' = Ok (cs, es)
    /\ esums rep = energy_table g
    /\ NoDup (Pandas.index g)
    /\ Pandas.columns g = scenario_names_of files'
    /\ Pandas.rectangular g
    /\ forall i k o, scenario_names_of files' !! i = Some k -> es !! i = Some o ->
         exists w, Pandas.cols g !! i = Some (k, w)
           /\ forall p com, Pandas.index g !! p = Some com ->
                w !! p = Some (created_sum o com).
Proof.
  intros Hrun Hin Hnd.
  destruct (compare_scenarios_body_Ok _ _ _ _ Hrun) as (cs & es & Hread & Han & Hp & _).
  destruct (read_contract _ _ _ _ Hread (input_contract_perm _ _ _ Hp Hin)) as [_ Hes].
  destruct (read_result_files_Ok _ _ _ _ Hread) as (_ & Hlen & _).
  destruct (analyse_Ok _ _ _ _ Han) as (c & e & g & _ & He & Hg & _ & Hes_rep).
  assert (Hnd' : NoDup (scenario_names_of files'))
    by now rewrite (scenario_names_perm _ _ Hp).
  destruct (created_table (scenario_names_of files') es e g Hnd') as (_ & H1 & H2 & H3 & H4);
    [rewrite scenario_names_length; lia|exact Hes|exact He|exact Hg|].
  exists cs, es, g. repeat split; assumption.
Qed.

(** ** C1: the values of the two tables *)

(** C1. As stated, C1 fails for the energy table on the example run.  In
    the commodity sheet of the base scenario the row of ([Created],
    [Heat]), the only one with that key once the keys are filled in, holds
    600 for [North] and a blank for [South]: its cells sum to 600.  The
    energy table of the run has 1100 / 1e3, not 600 / 1e3, in the row of
    [base] and the column of [Heat]: line 84 has filled the blank with the
    500 of the row above before line 111 sums the row. *)
Theorem energy_value_includes_filled_cell :
  compare_scenarios_body Examples.fs_books Examples.sorted_files
  = (Examples.moved_files, Ok Examples.report_books)
  /\ Examples.moved_files !! 1 = Some "result/run/scenario_base.xlsx"
  /\ excel Examples.fs_books "result/run/scenario_base.xlsx"
     = Some (Examples.book Examples.costs_base Examples.sums_base)
  /\ List.filter (fun r => bool_decide (r = (Some "Created", Some "Heat")))
       (Pandas.index (repair_index Examples.sums_base))
     = [(Some "Created", Some "Heat")]
  /\ Pandas.index (repair_index Examples.sums_base) !! 2
     = Some (Some "Created", Some "Heat")
  /\ Pandas.row_values 2 (List.map snd (Pandas.cols Examples.sums_base))
     = [600%float; Pandas.nan]
  /\ sum_of_cells [600%float; Pandas.nan] = 600%float
  /\ Pandas.index (esums Examples.report_books) !! 1 = Some "base"
  /\ Pandas.columns (esums Examples.report_books) !! 1 = Some (Some "Heat")
  /\ Pandas.iat (esums Examples.report_books) 1 1 = Some (1100 / 1e3)%float
  /\ (600 / 1e3 <? 1100 / 1e3)%float = true
  /\ Pandas.row_values 2 (List.map snd (Pandas.cols (repair_index Examples.sums_base)))
     = [600; 500]%float.
Proof. repeat split; vm_compute; reflexivity. Qed.

(** ** C2: the base scenario is the last row *)

(** C2. Without a scenario named [base] the search of lines 64--70 raises
    nothing that leaves the function and moves nothing: the run is the
    reading and the analysis of the files as given.  After a run over
    result files that keep the input contract and have distinct scenario
    names, the rows of both tables are the scenarios in the order of the
    reordered files, so that with a scenario named [base] the last row of
    both is [base], wherever its file stood in the list. *)
Theorem base_scenario_last fs files :
  ("base" ∉ scenario_names_of files ->
   compare_scenarios_body fs files
   = (files,
      let* read := read_result_files fs files in
      analyse (scenario_names_of files) (fst read) (snd read)))
  /\ forall files' rep,
       compare_scenarios_body fs files = (files', Ok rep) ->
       input_contract fs files ->
       NoDup (scenario_names_of files) ->
       Pandas.index (costs rep) = scenario_names_of files'
       /\ Pandas.index (esums rep) = scenario_names_of files'
       /\ ("base" ∈ scenario_names_of files ->
           last (Pandas.index (costs rep)) = Some "base"
           /\ last (Pandas.index (esums rep)) = Some "base").
Proof.
  split.
  - intros Hnot. destruct (compare_scenarios_body_eq fs files) as (f & Heq & _ & _ & Hsame).
    now rewrite Heq, (Hsame Hnot).
  - intros files' rep Hrun Hin Hnd.
    pose proof (run_costs_index _ _ _ _ Hrun Hin) as Hc.
    destruct (run_energy _ _ _ _ Hrun Hin Hnd)
      as (cs & es & g & _ & Hrep & _ & Hgcols & _).
    assert (He : Pandas.index (esums rep) = scenario_names_of files')
      by now rewrite Hrep, energy_table_index.
    split; [exact Hc|]. split; [exact He|].
    intros Hbase. rewrite Hc, He.
    destruct (compare_scenarios_body_Ok _ _ _ _ Hrun) as (_ & _ & _ & _ & _ & Hlast & _).
    split; now apply Hlast.
Qed.

(** ** C6: the commodities of the energy table *)




(** ** The example run *)

Lemma books_run :
  compare_scenarios_body Examples.fs_books Examples.sorted_files
  = (Examples.moved_files, Ok Examples.report_books).
Proof. vm_compute. reflexivity. Qed.

Lemma books_names_nodup : NoDup (scenario_names_of Examples.sorted_files).
Proof. apply (bool_decide_unpack _). vm_compute. exact I. Qed.

Lemma costs_co2_contract : costs_contract Examples.costs_co2.
Proof.
  split; [reflexivity|]. split; [|repeat constructor].
  apply (bool_decide_unpack _). vm_compute. exact I.
Qed.

Lemma costs_base_contract : costs_contract Examples.costs_base.
Proof.
  split; [reflexivity|]. split; [|repeat constructor].
  apply (bool_decide_unpack _). vm_compute. exact I.
Qed.

Lemma sums_co2_contract : sums_contract Examples.sums_co2.
Proof.
  split; [simpl; lia|]. split; [|repeat constructor].
  apply (bool_decide_unpack _). vm_compute. exact I.
Qed.

Lemma sums_base_contract : sums_contract Examples.sums_base.
Proof.
  split; [simpl; lia|]. split; [|repeat constructor].
  apply (bool_decide_unpack _). vm_compute. exact I.
Qed.

Lemma books_contract : input_contract Examples.fs_books Examples.sorted_files.
Proof.
  unfold input_contract, Examples.sorted_files.
  constructor; [|constructor; [|constructor]].
  - change (workbook_contract (Examples.book Examples.costs_base Examples.sums_base)).
    split; [apply costs_base_contract|apply sums_base_contract].
  - change (workbook_contract (Examples.book Examples.costs_co2 Examples.sums_co2)).
    split; [apply costs_co2_contract|apply sums_co2_contract].
Qed.

(** Witness of C3 on the example run: the investments, 5 and 7, add up
    to 12 and are spent; the fuel revenues, -2 and -1, are earnt; the fixed
    costs, 0 and 0, are neither. *)
Lemma spent_earnt_by_sign_witness :
  sum_of_cells [5; 7]%float = 12%float
  /\ ("Invest", [5; 7]%float) ∈ Pandas.cols (spent_of (costs Examples.report_books))
  /\ ("Fuel", [-2; -1]%float) ∈ Pandas.cols (earnt_of (costs Examples.report_books))
  /\ (("Fix", [0; 0]%float) ∉ Pandas.cols (spent_of (costs Examples.report_books)))
  /\ (("Fix", [0; 0]%float) ∉ Pandas.cols (earnt_of (costs Examples.report_books))).
Proof.
  split; [reflexivity|]. split; [|split].
  - apply (proj1 (spent_earnt_by_sign (costs Examples.report_books)
                    ("Invest", [5; 7]%float))).
    split; [|reflexivity]. apply list_elem_of_In. right. right. left. reflexivity.
  - apply (proj1 (proj2 (spent_earnt_by_sign (costs Examples.report_books)
                           ("Fuel", [-2; -1]%float)))).
    split; [|reflexivity]. apply list_elem_of_In. right. left. reflexivity.
  - apply (proj1 (proj2 (proj2 (spent_earnt_by_sign (costs Examples.report_books)
                                  ("Fix", [0; 0]%float))))).
    reflexivity.
Defined.

(** Witness of C4 on the example run: two files, two rows, the three cost
    types in order. *)
Lemma costs_table_shape_witness :
  length (Pandas.index (costs Examples.report_books)) = 2
  /\ Pandas.index (costs Examples.report_books) = ["co2 limit"; "base"]
  /\ "Fuel" ∈ Pandas.columns (costs Examples.report_books).
Proof.
  destruct (costs_table_shape Examples.fs_books Examples.sorted_files
              Examples.moved_files Examples.report_books books_run books_contract)
    as (Hlen & Hidx & _ & _ & Hcols).
  split; [exact Hlen|]. split; [exact Hidx|].
  apply Hcols.
  exists "result/run/scenario_base.xlsx",
    (Examples.book Examples.costs_base Examples.sums_base), Examples.costs_base.
  split; [apply list_elem_of_here|]. split; [reflexivity|]. split; [reflexivity|].
  apply list_elem_of_here.
Defined.

(** Witness of C2 on the example run: the base file came first and its
    scenario is the last row of both tables. *)
Lemma base_scenario_last_witness :
  last (Pandas.index (costs Examples.report_books)) = Some "base"
  /\ last (Pandas.index (esums Examples.report_books)) = Some "base".
Proof.
  destruct (base_scenario_last Examples.fs_books Examples.sorted_files) as [_ H].
  destruct (H Examples.moved_files Examples.report_books
              books_run books_contract books_names_nodup) as (_ & _ & Hlast).
  apply Hlast. apply list_elem_of_here.
Defined.


(** The example run at a glance. *)
Example books_report :
  Pandas.index (costs Examples.report_books) = ["co2 limit"; "base"]
  /\ Pandas.columns (costs Examples.report_books) = ["Fix"; "Fuel"; "Invest"]
  /\ Pandas.columns (spent Examples.report_books) = ["Invest"]
  /\ Pandas.columns (earnt Examples.report_books) = ["Fuel"]
  /\ Pandas.columns (esums Examples.report_books) = [Some "Elec"; Some "Heat"]
  /\ Pandas.iat (costs Examples.report_books) 1 1 = Some (-1)%float.
Proof. repeat split; reflexivity. Qed.
(** ** The entry modified last *)

Lemma keys_Ok {A K} (f : A -> pyres K) (l : list A) (kl : list (K * A)) :
  Py.keys f l = Ok kl ->
  List.map snd kl = l /\ Forall (fun kx => f (snd kx) = Ok (fst kx)) kl.
Proof.
  revert kl. induction l as [|x l IH]; intros kl; simpl.
  - intros [= <-]. split; [reflexivity|constructor].
  - destruct (f x) as [k|e] eqn:Ef; [simpl|discriminate].
    destruct (Py.keys f l) as [kl'|e]; [simpl|discriminate].
    intros [= <-]. destruct (IH kl' eq_refl) as [Hm Hall]. split.
    + simpl. now rewrite Hm.
    + constructor; [exact Ef|exact Hall].
Qed.

Lemma keys_Raise {A K} (f : A -> pyres K) (l : list A) (e : exn) :
  Py.keys f l = Raise e -> exists x, x ∈ l /\ f x = Raise e.
Proof.
  induction l as [|x l IH]; simpl; [discriminate|].
  destruct (f x) as [k|e'] eqn:Ef; simpl.
  - destruct (Py.keys f l) as [kl'|e'']; [discriminate|]. simpl.
    intros [= <-]. destruct (IH eq_refl) as (y & Hy & Hf).
    exists y. split; [now right|exact Hf].
  - intros [= <-]. exists x. split; [apply list_elem_of_here|exact Ef].
Qed.

(** X22. For a folder name free of wildcard characters,
    [get_most_recent_entry] considers the entries of the folder whose name
    does not begin with a dot.  It returns the path of one of them, and
    none of them has a later modification time; when there is none it
    raises [IndexError]; when the modification time of one of them cannot
    be read it raises the error of [os.path.getmtime]. *)
Theorem get_most_recent_entry_spec (fs : filesys) (search_dir : string) :
  Glob.has_magic search_dir = false ->
  let visible :=
    List.filter (fun n => negb (Glob.ishidden n)) (entries_of fs search_dir) in
  let path := OsPath.join (folder_path search_dir) in
  match get_most_recent_entry fs search_dir with
  | Ok e =>
      exists n t,
        n ∈ visible /\ e = path n /\ getmtime fs e = Some t
        /\ forall m, m ∈ visible ->
             exists t', getmtime fs (path m) = Some t' /\ (t' <= t)%Z
  | Raise err =>
      (err = IndexError /\ visible = [])
      \/ (err = FileNotFound
          /\ exists m, m ∈ visible /\ getmtime fs (path m) = None)
  end.
Proof.
  intros _ visible path. unfold get_most_recent_entry. rewrite glob_star.
  fold visible. fold path. unfold Py.list_sort, Py.sort_key.
  destruct (Py.keys (os_path_getmtime fs) (List.map path visible)) as [kl|err] eqn:Ek.
  - apply keys_Ok in Ek as [Hm Hall]. cbn [bind].
    set (lt := fun a b : Z * string => Z.ltb (fst a) (fst b)).
    assert (Hasym : forall a b, lt a b = true -> lt b a = false)
      by (intros a b; apply Z_ltb_asym).
    assert (Htrans : forall a b c, nlt lt a b -> nlt lt b c -> nlt lt a c)
      by (unfold nlt, lt; intros a b c; lia).
    pose proof (sort_perm lt kl) as Hp.
    pose proof (sort_sorted lt Hasym Htrans kl) as Hs.
    assert (Htime : forall t x, (t, x) ∈ kl -> getmtime fs x = Some t).
    { intros t x Hx. rewrite Forall_forall in Hall. specialize (Hall _ Hx).
      simpl in Hall. unfold os_path_getmtime in Hall.
      destruct (getmtime fs x); congruence. }
    unfold Py.last_item. rewrite map_fmap, fmap_last.
    destruct (last (Py.sort lt kl)) as [[t e]|] eqn:El; simpl.
    + assert (Hin : (t, e) ∈ kl)
        by (rewrite <- Hp; eapply last_Some_elem_of, El).
      assert (He : e ∈ List.map path visible).
      { rewrite <- Hm. apply list_elem_of_In, in_map_iff.
        exists (t, e). split; [reflexivity|now apply list_elem_of_In]. }
      apply list_elem_of_In, in_map_iff in He as (n & Hn & Hv).
      exists n, t. split; [now apply list_elem_of_In|].
      split; [now symmetry|]. split; [now apply Htime|].
      intros m Hmv.
      assert (Hpm : path m ∈ List.map snd kl).
      { rewrite Hm. apply list_elem_of_In, in_map, list_elem_of_In, Hmv. }
      apply list_elem_of_In, in_map_iff in Hpm as ([t' x] & Hx & Hkl).
      simpl in Hx. subst x. apply list_elem_of_In in Hkl.
      exists t'. split; [now apply Htime|].
      pose proof (sorted_last_max lt Hasym _ _ Hs El) as Hmax.
      rewrite Forall_forall in Hmax.
      assert (Hsorted : (t', path m) ∈ Py.sort lt kl) by now rewrite Hp.
      specialize (Hmax _ Hsorted). unfold nlt, lt in Hmax. simpl in Hmax. lia.
    + left. split; [reflexivity|].
      apply last_None in El. rewrite El in Hp. apply Permutation_nil in Hp.
      subst kl. simpl in Hm. symmetry in Hm. now apply map_eq_nil in Hm.
  - apply keys_Raise in Ek as (x & Hx & Hf). cbn [bind]. right.
    unfold os_path_getmtime in Hf.
    destruct (getmtime fs x) eqn:Et; [discriminate|]. injection Hf as <-.
    split; [reflexivity|].
    apply list_elem_of_In, in_map_iff in Hx as (m & <- & Hmv).
    exists m. split; [now apply list_elem_of_In|exact Et].
Qed.

(** The folder [result] of the example: the run modified last, and the
    same folder with a link that leads nowhere. *)
Lemma get_most_recent_entry_spec_witness :
  (exists n t,
      n ∈ ["old"; "run"; "older"] /\ "result/run" = OsPath.join "result" n
      /\ getmtime Examples.fs_run "result/run" = Some t
      /\ forall m, m ∈ ["old"; "run"; "older"] ->
           exists t', getmtime Examples.fs_run (OsPath.join "result" m) = Some t'
                      /\ (t' <= t)%Z)
  /\ get_most_recent_entry Examples.fs_dangling "result" = Raise FileNotFound.
Proof.
  split.
  - exact (get_most_recent_entry_spec Examples.fs_run "result" eq_refl).
  - reflexivity.
Defined.

(** * Further properties of the script *)

(** ** The reordering block and the caller's list *)

(** X1. On the two lists of the script the block of lines 64--70 raises
    nothing: the names it leaves are the names of the files it leaves,
    position by position, and the files are the given files in another
    order. *)
Theorem reorder_keeps_names_aligned (files : list string) :
  exists files',
    move_base_last files (scenario_names_of files)
    = (files', Ok (scenario_names_of files'))
    /\ Permutation files' files
    /\ length files' = length files.
Proof.
  destruct (move_base_last_spec files) as (files' & Hmove & Hp & _).
  exists files'. split; [exact Hmove|]. split; [exact Hp|].
  now apply Permutation_length.
Qed.

(** X2. Whatever the call returns or raises, the list object passed holds
    afterwards the files it held before, in some order, and no other
    object of the heap has changed. *)
Theorem compare_scenarios_heap_frame
    (fs : filesys) (result_files : loc) (h : heap) (content : list string) :
  h !! result_files = Some content ->
  exists content',
    fst (compare_scenarios fs result_files h) !! result_files = Some content'
    /\ Permutation content' content
    /\ forall other, other <> result_files ->
         fst (compare_scenarios fs result_files h) !! other = h !! other.
Proof.
  intros Hh. unfold compare_scenarios. rewrite Hh.
  destruct (compare_scenarios_body_eq fs content) as (files' & -> & Hp & _).
  exists files'. simpl. split; [apply lookup_insert_eq|]. split; [exact Hp|].
  intros other Hne. now apply lookup_insert_ne.
Qed.

Lemma compare_scenarios_heap_frame_witness :
  exists content',
    fst (compare_scenarios Examples.fs_hidden Examples.files Examples.heap_sorted)
      !! Examples.files = Some content'
    /\ Permutation content' Examples.sorted_files.
Proof.
  destruct (compare_scenarios_heap_frame Examples.fs_hidden Examples.files
              Examples.heap_sorted Examples.sorted_files eq_refl)
    as (content' & H1 & H2 & _).
  exists content'. now split.
Defined.

Lemma delete_length_snoc {A} (l : list A) (x : A) :
  delete (length l) (l ++ [x])%list = l.
Proof. induction l as [|a l IH]; simpl; [reflexivity|]. now rewrite IH. Qed.

Lemma snoc_inv {A} (l : list A) : l <> [] -> exists l' x, l = (l' ++ [x])%list.
Proof.
  intros Hne. destruct (last l) as [x|] eqn:E.
  - apply last_Some in E as [l' ->]. now exists l', x.
  - apply last_None in E. contradiction.
Qed.

Lemma moved_once_stays files :
  NoDup (scenario_names_of files) ->
  last (scenario_names_of files) = Some "base" ->
  move_base_last files (scenario_names_of files)
  = (files, Ok (scenario_names_of files)).
Proof.
  intros Hnd Hlast.
  assert (Hne : files <> []) by (intros ->; discriminate).
  destruct (snoc_inv files Hne) as (f0 & rf & ->).
  rewrite scenario_names_app in *. simpl in *.
  rewrite last_snoc in Hlast. injection Hlast as Hbase.
  assert (Hin : "base" ∈ (scenario_names_of f0 ++ [scenario_name rf])%list).
  { rewrite Hbase. apply elem_of_app. right. apply list_elem_of_here. }
  destruct (index_present _ _ Hin) as [i Hi].
  assert (Hi' : i = length f0).
  { apply index_Ok in Hi as [Hi _].
    assert (Hl : (scenario_names_of f0 ++ [scenario_name rf])%list
                   !! length (scenario_names_of f0) = Some "base").
    { rewrite lookup_app_r by lia. rewrite Nat.sub_diag. simpl. now rewrite Hbase. }
    rewrite <- (scenario_names_length f0).
    eapply NoDup_lookup; eassumption. }
  subst i.
  destruct (move_base_last_found (f0 ++ [rf])%list
              (scenario_names_of f0 ++ [scenario_name rf])%list (length f0))
    as (rf' & Hrf' & ->).
  - rewrite !length_app, scenario_names_length. reflexivity.
  - exact Hi.
  - rewrite lookup_app_r in Hrf' by lia. rewrite Nat.sub_diag in Hrf'.
    injection Hrf' as <-.
    rewrite delete_length_snoc.
    replace (length f0) with (length (scenario_names_of f0))
      by apply scenario_names_length.
    rewrite delete_length_snoc. now rewrite Hbase.
Qed.

(** X3. With distinct scenario names a second call finds the list as the
    first one left it and leaves it so: the reordering is done once. *)
Theorem reorder_idempotent (fs fs' : filesys) (files : list string) :
  NoDup (scenario_names_of files) ->
  fst (compare_scenarios_body fs' (fst (compare_scenarios_body fs files)))
  = fst (compare_scenarios_body fs files).
Proof.
  intros Hnd.
  destruct (compare_scenarios_body_eq fs files) as (files' & -> & Hp & Hin & Hout).
  simpl. unfold compare_scenarios_body.
  destruct (decide ("base" ∈ scenario_names_of files)) as [Hb|Hb].
  - rewrite moved_once_stays; [reflexivity| |now apply Hin].
    now rewrite (scenario_names_perm _ _ Hp).
  - rewrite (Hout Hb). now rewrite (move_base_last_absent _ _ Hb).
Qed.

Lemma reorder_idempotent_witness :
  fst (compare_scenarios_body Examples.fs_hidden
         (fst (compare_scenarios_body Examples.fs_books Examples.sorted_files)))
  = Examples.moved_files.
Proof.
  rewrite (reorder_idempotent Examples.fs_books Examples.fs_hidden
             Examples.sorted_files books_names_nodup).
  reflexivity.
Defined.

(** ** Reading: all or nothing *)

(** X4. A run that returns a report has opened every file of the list and
    found both sheets in it: a missing file or sheet leaves no report. *)
Theorem run_reads_every_file fs files files' rep :
  compare_scenarios_body fs files = (files', Ok rep) ->
  forall rf, rf ∈ files ->
    exists wb c e, excel fs rf = Some wb /\ sheet_costs wb = Some c
                   /\ sheet_commodity_sums wb = Some e.
Proof.
  intros Hrun rf Hrf.
  destruct (compare_scenarios_body_Ok _ _ _ _ Hrun) as (cs & es & Hread & _ & Hp & _).
  rewrite <- Hp in Hrf. apply list_elem_of_lookup_1 in Hrf as [i Hi].
  destruct (read_result_files_Ok _ _ _ _ Hread) as (_ & _ & Hall).
  destruct (Hall i rf Hi) as (c & e & _ & _ & Hr).
  apply read_result_file_Ok in Hr as (wb & raw & Hwb & Hc & Hs & _).
  now exists wb, c, raw.
Qed.

Lemma run_reads_every_file_witness :
  exists wb c e,
    excel Examples.fs_books "result/run/scenario_base.xlsx" = Some wb
    /\ sheet_costs wb = Some c /\ sheet_commodity_sums wb = Some e.
Proof.
  apply (run_reads_every_file Examples.fs_books Examples.sorted_files
           Examples.moved_files Examples.report_books books_run).
  apply list_elem_of_here.
Defined.

Lemma read_result_files_ext fs fs' files :
  (forall rf, rf ∈ files -> excel fs rf = excel fs' rf) ->
  read_result_files fs files = read_result_files fs' files.
Proof.
  induction files as [|rf files IH]; intros H; simpl; [reflexivity|].
  unfold read_result_file. rewrite <- (H rf) by apply list_elem_of_here.
  rewrite IH; [reflexivity|]. intros rf' Hrf'. apply H. now right.
Qed.

(** X5. A call depends on the file system only through the workbooks of
    the files of its list: directory listings, modification times and all
    other files are without influence on the list and on the report. *)
Theorem run_depends_on_listed_files fs fs' files :
  (forall rf, rf ∈ files -> excel fs rf = excel fs' rf) ->
  compare_scenarios_body fs files = compare_scenarios_body fs' files.
Proof.
  intros H.
  destruct (move_base_last_spec files) as (files' & Hmove & Hp & _).
  unfold compare_scenarios_body. rewrite Hmove.
  rewrite (read_result_files_ext fs fs' files'); [reflexivity|].
  intros rf Hrf. apply H. now rewrite <- Hp.
Qed.

Lemma run_depends_on_listed_files_witness :
  compare_scenarios_body Examples.fs_books Examples.sorted_files
  = compare_scenarios_body Examples.fs_books_elsewhere Examples.sorted_files.
Proof.
  apply run_depends_on_listed_files. intros rf Hrf. reflexivity.
Defined.

(** ** Missing rows and missing files *)

Lemma existsb_id_false (m : list bool) :
  existsb id m = false <-> Forall (fun b => b = false) m.
Proof.
  induction m as [|b m IH]; simpl.
  - split; [constructor|reflexivity].
  - rewrite orb_false_iff, IH. unfold id. split.
    + intros [Hb Hm]. now constructor.
    + intros H. apply Forall_cons in H. exact H.
Qed.

(** X6. Line 111 raises [KeyError] exactly when no row of the aggregated
    commodity table stands under [Created], and raises nothing else. *)
Theorem created_by_scenario_KeyError
    (E : Pandas.frame (option string * option string) (string * string)) :
  (created_by_scenario E = Raise KeyError
   <-> forall r, r ∈ Pandas.index E -> fst r <> Some "Created")
  /\ (forall e, created_by_scenario E = Raise e -> e = KeyError).
Proof.
  unfold created_by_scenario, Pandas.loc_level0.
  destruct (existsb id _) eqn:Hex; simpl.
  - split; [|discriminate]. split; [discriminate|].
    intros Hnone. apply not_false_iff_true in Hex. exfalso. apply Hex.
    apply existsb_id_false. rewrite map_fmap. apply Forall_fmap.
    apply Forall_forall. intros r Hr. simpl.
    apply bool_decide_eq_false_2. now apply Hnone.
  - split; [|now intros e [= <-]]. split; [|reflexivity]. intros _ r Hr.
    apply existsb_id_false in Hex. rewrite map_fmap in Hex.
    apply Forall_fmap in Hex. rewrite Forall_forall in Hex.
    specialize (Hex r Hr). simpl in Hex.
    now apply bool_decide_eq_false_1 in Hex.
Qed.

Lemma glob_result_files_none fs d :
  (forall n, n ∈ entries_of fs d -> Glob.fnmatch n "scenario_*.xlsx" = false) ->
  glob_result_files fs d = [].
Proof.
  intros H. unfold glob_result_files. rewrite glob_scenario_files.
  rewrite filter_none_in; [reflexivity|].
  intros n Hn. apply H, list_elem_of_In, Hn.
Qed.

(** X7. A directory, named without wildcard characters, that holds no
    file named [scenario_*.xlsx] makes its comparison raise [ValueError]:
    there is nothing to concatenate. *)
Theorem compare_directory_without_result_files fs directory :
  Glob.has_magic directory = false ->
  (forall n, n ∈ entries_of fs directory ->
             Glob.fnmatch n "scenario_*.xlsx" = false) ->
  compare_directory fs directory = Raise ValueError.
Proof.
  intros _ H. unfold compare_directory. now rewrite (glob_result_files_none _ _ H).
Qed.

Lemma compare_directory_without_result_files_witness :
  compare_directory Examples.fs_hidden "result" = Raise ValueError.
Proof.
  apply compare_directory_without_result_files; [reflexivity|].
  intros n Hn. change (entries_of Examples.fs_hidden "result")
    with [".DS_Store"; "20140101T0000"] in Hn.
  apply elem_of_cons in Hn as [->|Hn]; [reflexivity|].
  apply elem_of_cons in Hn as [->|Hn]; [reflexivity|]. inversion Hn.
Defined.

(** ** The main program *)

Lemma compare_directories_Ok fs dirs rs :
  compare_directories fs dirs = Ok rs ->
  List.map fst rs = List.map (fun d => OsPath.join d "comparison") dirs.
Proof.
  revert rs. induction dirs as [|d dirs IH]; intros rs; simpl.
  - now intros [= <-].
  - unfold compare_directory at 1.
    destruct (snd (compare_scenarios_body fs (rev (glob_result_files fs d))))
      as [rep|]; [simpl|discriminate].
    destruct (compare_directories fs dirs) as [rs'|]; [simpl|discriminate].
    intros [= <-]. simpl. now rewrite (IH rs' eq_refl).
Qed.

(** X8. Called with directories, the program that ends without error has
    written one report per directory, in their order, each under the name
    [comparison] inside its directory. *)
Theorem main_one_report_per_directory fs args rs :
  args <> [] -> main fs args = Ok rs ->
  List.map fst rs = List.map (fun d => OsPath.join d "comparison") args.
Proof.
  intros Hne. unfold main. destruct args as [|a args]; [contradiction|].
  intros H. exact (compare_directories_Ok fs (a :: args) rs H).
Qed.

Lemma main_one_report_per_directory_witness :
  List.map fst Examples.main_books = ["result/run/comparison"].
Proof.
  apply (main_one_report_per_directory Examples.fs_books ["result/run"]);
    [discriminate|vm_compute; reflexivity].
Defined.

(** X9. Called without directories, the program raises [IndexError] when
    the folder [result] has no entry whose name does not begin with a dot,
    and compares nothing. *)
Theorem main_without_recent_entry fs :
  List.filter (fun n => negb (Glob.ishidden n)) (listdir fs "result") = [] ->
  main fs [] = Raise IndexError.
Proof.
  intros H. unfold main, get_most_recent_entry. rewrite glob_star.
  change (entries_of fs "result") with (listdir fs "result"). now rewrite H.
Qed.

Lemma main_without_recent_entry_witness :
  main Examples.fs_books [] = Raise IndexError.
Proof. apply main_without_recent_entry. reflexivity. Defined.

(** ** Discovery *)

Lemma str_leb_antisym_eq a b :
  String.leb a b = true -> String.leb b a = true -> a = b.
Proof. apply String.leb_antisym. Qed.

(** Two sorted lists with the same items are the same list. *)
Lemma sorted_str_unique (l1 l2 : list string) :
  StronglySorted (fun a b => String.leb a b = true) l1 ->
  StronglySorted (fun a b => String.leb a b = true) l2 ->
  Permutation l1 l2 -> l1 = l2.
Proof.
  intros H1. revert l2. induction H1 as [|x l1 Hs1 IH Hx]; intros l2 H2 Hp.
  - now apply Permutation_nil in Hp.
  - destruct H2 as [|y l2 Hs2 Hy].
    + symmetry in Hp. now apply Permutation_nil in Hp.
    + assert (x = y).
      { rewrite Forall_forall in Hx, Hy.
        assert (Hxin : x ∈ y :: l2) by (rewrite <- Hp; apply list_elem_of_here).
        assert (Hyin : y ∈ x :: l1) by (rewrite Hp; apply list_elem_of_here).
        apply elem_of_cons in Hxin as [->|Hxin]; [reflexivity|].
        apply elem_of_cons in Hyin as [->|Hyin]; [reflexivity|].
        apply str_leb_antisym_eq; [now apply Hx|now apply Hy]. }
      subst y. f_equal. apply IH; [exact Hs2|].
      eapply Permutation_cons_inv, Hp.
Qed.

Lemma bool_filter_perm {A} (p : A -> bool) (l l' : list A) :
  Permutation l l' -> Permutation (List.filter p l) (List.filter p l').
Proof.
  induction 1 as [|x l l' Hp IH|x y l|l l' l'' H1 IH1 H2 IH2]; simpl.
  - reflexivity.
  - destruct (p x); [now constructor|exact IH].
  - destruct (p x), (p y); try reflexivity. apply perm_swap.
  - now rewrite IH1.
Qed.

(** X10. The result files of a folder, named without wildcard
    characters, do not depend on the order in which the operating system
    lists the folder. *)
Theorem glob_result_files_listing_order fs fs' folder_name :
  Glob.has_magic folder_name = false ->
  Permutation (entries_of fs folder_name) (entries_of fs' folder_name) ->
  glob_result_files fs folder_name = glob_result_files fs' folder_name.
Proof.
  intros _ Hp. apply sorted_str_unique; try apply sorted_str_sorted.
  unfold glob_result_files, Py.sorted_str.
  rewrite !sort_perm, !glob_scenario_files.
  apply Permutation_map. now apply bool_filter_perm.
Qed.

Lemma glob_result_files_listing_order_witness :
  glob_result_files Examples.fs_run "result/run"
  = glob_result_files Examples.fs_run_shuffled "result/run".
Proof.
  apply glob_result_files_listing_order; [reflexivity|].
  change (entries_of Examples.fs_run "result/run")
    with ["scenario_co2.xlsx"; "run.log"; "scenario_base.xlsx";
          ".scenario_base.xlsx"; "scenario_all_together.xlsx"; "comparison.xlsx"].
  change (entries_of Examples.fs_run_shuffled "result/run")
    with (rev ["scenario_co2.xlsx"; "run.log"; "scenario_base.xlsx";
               ".scenario_base.xlsx"; "scenario_all_together.xlsx"; "comparison.xlsx"]).
  apply Permutation_rev.
Defined.

(** Joining a folder and a name that does not begin with a separator puts
    a prefix, the same for all names, before the name. *)
Lemma join_prefix (d : string) :
  exists pre, forall n, String.prefix "/" n = false -> OsPath.join d n = pre +:+ n.
Proof.
  unfold OsPath.join. destruct d as [|c d].
  - exists "". intros n Hn. now rewrite Hn.
  - destruct (OsPath.ends_with_sep (String c d)) eqn:E.
    + exists (String c d). intros n Hn. now rewrite Hn.
    + exists (String c d +:+ "/"). intros n Hn. rewrite Hn.
      symmetry. apply (str_append_assoc (String c d) "/" n).
Qed.

Lemma str_append_nil_r (a : string) : a +:+ "" = a.
Proof.
  induction a as [|c a IH]; [reflexivity|].
  change (String c (a +:+ "") = String c a). now rewrite IH.
Qed.

(** A name is its part without trailing separators, followed by
    separators. *)
Lemma rstrip_sep_decomp (d : string) :
  exists tl, OsPath.all_sep tl = true /\ d = OsPath.rstrip_sep d +:+ tl.
Proof.
  induction d as [|c d (tl & Htl & Hd)]; [now exists ""|].
  cbn [OsPath.rstrip_sep]. destruct (OsPath.all_sep (String c d)) eqn:E.
  - now exists (String c d).
  - exists tl. split; [exact Htl|].
    change (String c d = String c (OsPath.rstrip_sep d +:+ tl)). now rewrite <- Hd.
Qed.

Lemma rstrip_sep_not_ends (d : string) :
  OsPath.ends_with_sep (OsPath.rstrip_sep d) = false.
Proof.
  induction d as [|c d IH]; [reflexivity|].
  cbn [OsPath.rstrip_sep]. destruct (OsPath.all_sep (String c d)) eqn:E;
    [reflexivity|].
  destruct (OsPath.rstrip_sep d) as [|c' r] eqn:Er.
  - destruct (rstrip_sep_decomp d) as (tl & Htl & Hd). rewrite Er in Hd.
    change ("" +:+ tl) with tl in Hd. subst tl.
    cbn [OsPath.all_sep] in E. rewrite Htl, andb_true_r in E.
    cbn [OsPath.ends_with_sep]. exact E.
  - exact IH.
Qed.

Lemma ends_with_sep_app (a : string) (c : ascii) (b : string) :
  OsPath.ends_with_sep (a +:+ String c b) = OsPath.ends_with_sep (String c b).
Proof.
  induction a as [|x a IH]; [reflexivity|].
  change (String x a +:+ String c b) with (String x (a +:+ String c b)).
  destruct (a +:+ String c b) as [|y r] eqn:Ey.
  - destruct a; discriminate Ey.
  - change (OsPath.ends_with_sep (String x (String y r)))
      with (OsPath.ends_with_sep (String y r)).
    exact IH.
Qed.

(** The two prefixes: joining to a folder name, and joining to the path of
    the folder, differ by separators only. *)
Lemma join_folder_path (d : string) :
  exists pre tl,
    OsPath.all_sep tl = true
    /\ forall n, String.prefix "/" n = false ->
         OsPath.join d n = pre +:+ tl +:+ n
         /\ OsPath.join (folder_path d) n = pre +:+ n.
Proof.
  unfold folder_path. destruct (OsPath.all_sep d) eqn:Ea.
  - destruct (join_prefix d) as [pre Hpre]. exists pre, "".
    split; [reflexivity|]. intros n Hn. now rewrite (Hpre n Hn).
  - destruct (rstrip_sep_decomp d) as (tl & Htl & Hd).
    pose proof (rstrip_sep_not_ends d) as Hr.
    destruct (OsPath.rstrip_sep d) as [|c r] eqn:Er.
    { change ("" +:+ tl) with tl in Hd. subst tl. congruence. }
    exists (String c r +:+ "/").
    assert (Hjoin : forall n, String.prefix "/" n = false ->
                      OsPath.join (String c r) n = (String c r +:+ "/") +:+ n).
    { intros n Hn. unfold OsPath.join. rewrite Hn, Hr.
      symmetry. apply (str_append_assoc (String c r) "/" n). }
    destruct tl as [|t tl'].
    + exists "". split; [reflexivity|]. intros n Hn.
      rewrite str_append_nil_r in Hd. subst d.
      change ("" +:+ n) with n. split; now apply Hjoin.
    + exists tl'. cbn [OsPath.all_sep] in Htl.
      apply andb_true_iff in Htl as [Ht Htl]. apply Ascii.eqb_eq in Ht. subst t.
      split; [exact Htl|]. intros n Hn. split; [|now apply Hjoin].
      assert (He : OsPath.ends_with_sep d = true).
      { rewrite Hd, ends_with_sep_app.
        apply all_sep_ends_with_sep. cbn [OsPath.all_sep]. now rewrite Htl. }
      unfold OsPath.join. rewrite Hn, He.
      destruct d as [|x d']; [discriminate He|]. rewrite Hd.
      rewrite !str_append_assoc. reflexivity.
Qed.

(** X11. None of the three files a comparison writes into a directory is
    a result file of that directory: a later run does not read the output
    of an earlier one. *)
Theorem written_files_are_no_result_files fs directory p :
  p ∈ written_files (OsPath.join directory "comparison") ->
  ~ p ∈ glob_result_files fs directory.
Proof.
  intros Hw Hg.
  destruct (join_folder_path directory) as (pre & tl & Htl & Hpre).
  rewrite (proj1 (Hpre "comparison" eq_refl)) in Hw.
  unfold glob_result_files, Py.sorted_str in Hg.
  rewrite sort_perm, glob_scenario_files in Hg.
  apply list_elem_of_In, in_map_iff in Hg as (n & <- & Hn).
  apply filter_In in Hn as [_ Hn].
  apply fnmatch_scenario_xlsx in Hn as (mid & ->).
  rewrite (proj2 (Hpre ("scenario_" +:+ mid +:+ ".xlsx") eq_refl)) in Hw.
  unfold written_files in Hw. cbn [List.map] in Hw.
  rewrite !str_append_assoc in Hw.
  assert (Hne : forall ext,
             pre +:+ "scenario_" +:+ mid +:+ ".xlsx"
             <> pre +:+ tl +:+ "comparison" +:+ "." +:+ ext).
  { intros ext Heq. apply str_append_cancel in Heq.
    destruct tl as [|t tl']; [discriminate Heq|].
    cbn [OsPath.all_sep] in Htl. apply andb_true_iff in Htl as [Ht _].
    apply Ascii.eqb_eq in Ht. subst t. discriminate Heq. }
  repeat (apply elem_of_cons in Hw as [Hw|Hw]; [exact (Hne _ Hw)|]).
  inversion Hw.
Qed.

Lemma written_files_are_no_result_files_witness :
  ~ "result/run/comparison.xlsx" ∈ glob_result_files Examples.fs_run "result/run".
Proof.
  apply written_files_are_no_result_files.
  apply list_elem_of_In. right. right. left. reflexivity.
Defined.

(** ** Scenario names *)

Lemma basename_no_sep (n : string) : OsPath.has_sep n = false -> OsPath.basename n = n.
Proof.
  destruct n as [|c n]; simpl; [reflexivity|].
  intros H. apply orb_false_iff in H as [Hc Hn]. now rewrite Hn, Hc.
Qed.

Lemma basename_after_sep (a n : string) :
  OsPath.has_sep n = false -> OsPath.basename (a +:+ String "/" n) = n.
Proof.
  intros Hn. induction a as [|c a IH].
  - change (OsPath.basename (String "/" n) = n). simpl. now rewrite Hn.
  - change (OsPath.basename (String c (a +:+ String "/" n)) = n).
    cbn [OsPath.basename]. rewrite has_sep_app.
    cbn [OsPath.has_sep]. change (Ascii.eqb "/" OsPath.sep) with true.
    rewrite orb_true_r. exact IH.
Qed.

Lemma basename_join (d n : string) :
  OsPath.has_sep n = false -> OsPath.basename (OsPath.join d n) = n.
Proof.
  intros Hn. unfold OsPath.join. rewrite (has_sep_prefix n Hn).
  destruct d as [|c d]; [now apply basename_no_sep|].
  destruct (OsPath.ends_with_sep (String c d)) eqn:E.
  - apply ends_with_sep_inv in E as [a ->].
    rewrite str_append_assoc. now apply basename_after_sep.
  - now apply basename_after_sep.
Qed.

(** X12. The scenario name of a file does not depend on the folder the
    file is in. *)
Theorem scenario_name_ignores_folder (d n : string) :
  OsPath.has_sep n = false ->
  scenario_name (OsPath.join d n) = scenario_name n.
Proof.
  intros Hn. unfold scenario_name.
  now rewrite (basename_join d n Hn), (basename_no_sep n Hn).
Qed.

Lemma scenario_name_ignores_folder_witness :
  scenario_name (OsPath.join "result/run" "scenario_co2_limit.xlsx")
  = scenario_name "scenario_co2_limit.xlsx".
Proof. apply scenario_name_ignores_folder. reflexivity. Defined.

(** ** The characters of a scenario name *)

Lemma occurs_cons c a s : occurs c (String a s) <-> a = c \/ occurs c s.
Proof. reflexivity. Qed.

Lemma occurs_append c s t : occurs c (s +:+ t) <-> occurs c s \/ occurs c t.
Proof.
  unfold occurs. rewrite list_ascii_of_string_app. apply in_app_iff.
Qed.

(** Replacing by nothing brings in no character. *)
Lemma replace_from_drop_occurs old skip s c :
  occurs c (Py.replace_from skip old "" s) -> occurs c s.
Proof.
  revert skip. induction s as [|a s IH]; intros skip; [auto|].
  cbn [Py.replace_from]. destruct skip as [|k].
  - destruct (String.prefix old (String a s)).
    + change ("" +:+ ?x) with x. intros H. apply occurs_cons. right. eapply IH, H.
    + rewrite !occurs_cons. intros [H|H]; [now left|right; eapply IH, H].
  - intros H. apply occurs_cons. right. eapply IH, H.
Qed.

Lemma replace_underscore_step a s :
  Py.replace_from 0 "_" " " (String a s)
  = String (if Ascii.eqb a "_" then " "%char else a) (Py.replace_from 0 "_" " " s).
Proof.
  cbn [Py.replace_from String.prefix]. destruct (ascii_dec "_" a) as [<-|Hne].
  - destruct s; reflexivity.
  - apply not_eq_sym, Ascii.eqb_neq in Hne. now rewrite Hne.
Qed.

(** Replacing underscores by spaces leaves no underscore and brings in
    spaces only. *)
Lemma replace_underscore_occurs s c :
  occurs c (Py.replace_from 0 "_" " " s) ->
  c <> "_"%char /\ (c = " "%char \/ occurs c s).
Proof.
  induction s as [|a s IH]; [intros []|].
  rewrite replace_underscore_step, !occurs_cons. intros [H|H].
  - destruct (Ascii.eqb a "_") eqn:E.
    + subst c. split; [discriminate|now left].
    + subst c. apply Ascii.eqb_neq in E. split; [exact E|right; now left].
  - destruct (IH H) as [H1 [H2|H2]]; split; auto.
Qed.

Lemma basename_has_no_sep p : OsPath.has_sep (OsPath.basename p) = false.
Proof.
  induction p as [|c p IH]; [reflexivity|].
  cbn [OsPath.basename]. destruct (OsPath.has_sep p) eqn:Hp; [exact IH|].
  destruct (Ascii.eqb c OsPath.sep) eqn:Hc; [exact Hp|].
  cbn [OsPath.has_sep]. now rewrite Hc, Hp.
Qed.

Lemma has_sep_occurs s : OsPath.has_sep s = false -> ~ occurs "/" s.
Proof.
  induction s as [|c s IH]; [intros _ []|].
  cbn [OsPath.has_sep]. intros H. apply orb_false_iff in H as [Hc Hs].
  rewrite occurs_cons. intros [->|H]; [discriminate Hc|now apply IH].
Qed.

(** X13. A scenario name has no underscore and no path separator,
    whatever the file is called. *)
Theorem scenario_name_characters (rf : string) :
  ~ occurs "_" (scenario_name rf) /\ ~ occurs "/" (scenario_name rf).
Proof.
  assert (H : forall c, occurs c (scenario_name rf) ->
                c <> "_"%char /\ (c = " "%char \/ occurs c (OsPath.basename rf))).
  { intros c Hc. unfold scenario_name in Hc.
    apply (replace_from_drop_occurs "scenario " 0) in Hc.
    apply (replace_from_drop_occurs ".xlsx" 0) in Hc.
    now apply replace_underscore_occurs in Hc. }
  split; intros Hc; destruct (H _ Hc) as [Hne [Hsp|Hb]].
  - now apply Hne.
  - now apply Hne.
  - discriminate Hsp.
  - eapply has_sep_occurs; [apply basename_has_no_sep|exact Hb].
Qed.

(** ** The order in which the main program compares *)

Lemma sorted_snoc {A} (R : A -> A -> Prop) l x :
  StronglySorted R l -> Forall (fun y => R y x) l -> StronglySorted R (l ++ [x])%list.
Proof.
  induction 1 as [|y l Hs IH Hy]; intros Hx; simpl.
  - repeat constructor.
  - apply Forall_cons in Hx as [Hyx Hx]. constructor; [now apply IH|].
    apply Forall_app. split; [exact Hy|]. now repeat constructor.
Qed.

Lemma sorted_rev {A} (R : A -> A -> Prop) l :
  StronglySorted R l -> StronglySorted (fun a b => R b a) (rev l).
Proof.
  induction 1 as [|x l Hs IH Hx]; simpl; [constructor|].
  apply sorted_snoc; [exact IH|].
  apply Forall_forall. intros y Hy. rewrite Forall_forall in Hx. apply Hx.
  apply list_elem_of_In. apply list_elem_of_In, in_rev in Hy. exact Hy.
Qed.

Lemma sorted_delete {A} (R : A -> A -> Prop) l i :
  StronglySorted R l -> StronglySorted R (delete i l).
Proof.
  intros H. revert i. induction H as [|x l Hs IH Hx]; intros i; [constructor|].
  destruct i as [|i]; simpl; [exact Hs|].
  constructor; [apply IH|]. now apply Forall_delete.
Qed.

Lemma glob_result_files_descending fs directory :
  descending (rev (glob_result_files fs directory)).
Proof. apply sorted_rev, sorted_str_sorted. Qed.

(** X14. The main program compares the result files of a directory in
    descending order of their paths.  When none of them is a base scenario
    the files compared are exactly the result files, in that order.
    Otherwise the file of the first base scenario in that order is taken
    out of its place and compared last; the files before it are the other
    result files, every one of them, in their descending order. *)
Theorem compare_directory_order fs directory :
  let listed := rev (glob_result_files fs directory) in
  let compared := fst (compare_scenarios_body fs listed) in
  descending listed
  /\ ("base" ∉ scenario_names_of listed -> compared = listed)
  /\ ("base" ∈ scenario_names_of listed ->
      exists i rf,
        listed !! i = Some rf /\ scenario_name rf = "base"
        /\ (forall j rf', j < i -> listed !! j = Some rf' ->
                          scenario_name rf' <> "base")
        /\ compared = (delete i listed ++ [rf])%list
        /\ descending (delete i listed)).
Proof.
  set (files := rev (glob_result_files fs directory)).
  cbv zeta. unfold compare_scenarios_body.
  split; [apply glob_result_files_descending|]. split.
  - intros Hnot. now rewrite (move_base_last_absent _ _ Hnot).
  - intros Hin. destruct (index_present _ _ Hin) as [i Hi].
    destruct (move_base_last_found files (scenario_names_of files) i)
      as (rf & Hrf & ->); [now rewrite scenario_names_length|exact Hi|].
    exists i, rf. simpl. apply index_Ok in Hi as [Hi Hfirst].
    split; [exact Hrf|]. split; [|split; [|split]].
    + unfold scenario_names_of in Hi. rewrite lookup_map, Hrf in Hi.
      simpl in Hi. congruence.
    + intros j rf' Hj Hrf' Hname. apply (Hfirst j Hj).
      unfold scenario_names_of. now rewrite lookup_map, Hrf', <- Hname.
    + reflexivity.
    + apply sorted_delete, glob_result_files_descending.
Qed.

(** The folder of the two workbooks: the base file is listed second and
    compared last. *)
Lemma compare_directory_order_witness :
  exists i rf,
    rev (glob_result_files Examples.fs_books "result/run") !! i = Some rf
    /\ scenario_name rf = "base"
    /\ fst (compare_scenarios_body Examples.fs_books
              (rev (glob_result_files Examples.fs_books "result/run")))
       = (delete i (rev (glob_result_files Examples.fs_books "result/run")) ++ [rf])%list.
Proof.
  destruct (compare_directory_order Examples.fs_books "result/run")
    as (_ & _ & H).
  destruct H as (i & rf & H1 & H2 & _ & H4 & _).
  - apply list_elem_of_In. right. left. reflexivity.
  - now exists i, rf.
Defined.

(** ** More on the repair of the commodity sheet *)

Lemma last_valid_nonblank {A} (blank : A -> bool) prev (l : list A) z :
  (forall p, prev = Some p -> blank p = false) ->
  last_valid blank prev l = Some z -> blank z = false.
Proof.
  revert prev. induction l as [|x l IH]; intros prev Hprev; simpl.
  - intros ->. now apply Hprev.
  - destruct (blank x) eqn:E; apply IH; [exact Hprev|].
    intros p [= <-]. exact E.
Qed.

Lemma last_valid_none {A} (blank : A -> bool) (l : list A) :
  last_valid blank None l = None -> Forall (fun x => blank x = true) l.
Proof.
  induction l as [|x l IH]; simpl; [constructor|].
  destruct (blank x) eqn:E.
  - intros H. constructor; [exact E|now apply IH].
  - intros H. exfalso.
    assert (Hs : exists z, last_valid blank (Some x) l = Some z).
    { clear. generalize x. induction l as [|y l IH]; intros x0; simpl; [eauto|].
      destruct (blank y); apply IH. }
    destruct Hs as [z Hz]. unfold last_valid in *. congruence.
Qed.

(** X15. After the forward fill a cell is blank only if it was blank and
    every cell above it was blank: blanks survive at the top of a column
    and nowhere else. *)
Theorem ffill_blank_only_on_top {A} (blank : A -> bool) (l : list A) i x :
  Pandas.ffill blank l !! i = Some x -> blank x = true ->
  forall j y, j <= i -> l !! j = Some y -> blank y = true.
Proof.
  intros Hi Hx j y Hj Hy.
  destruct (l !! i) as [x0|] eqn:Hl.
  - rewrite (ffill_lookup blank l i x0 Hl) in Hi. injection Hi as Hi.
    destruct (blank x0) eqn:E0; [|congruence].
    destruct (last_valid blank None (take i l)) as [z|] eqn:Ez.
    + simpl in Hi. subst z.
      apply last_valid_nonblank in Ez; [congruence|discriminate].
    + apply last_valid_none in Ez. rewrite Forall_forall in Ez.
      destruct (decide (j = i)) as [->|Hne]; [congruence|].
      apply Ez. apply (list_elem_of_lookup_2 _ j).
      rewrite lookup_take_lt by lia. exact Hy.
  - apply lookup_lt_Some in Hi. unfold Pandas.ffill in Hi.
    rewrite ffill_from_length in Hi. apply lookup_ge_None in Hl. lia.
Qed.

Lemma ffill_blank_only_on_top_witness :
  Pandas.label_isna None = true.
Proof.
  apply (ffill_blank_only_on_top Pandas.label_isna
           [None; None; Some "Created"; None] 1 None eq_refl eq_refl 0 None);
    [lia|reflexivity].
Defined.

Lemma ffill_from_idempotent {A} (blank : A -> bool) prev (l : list A) :
  (forall p, prev = Some p -> blank p = false) ->
  Pandas.ffill_from blank prev (Pandas.ffill_from blank prev l)
  = Pandas.ffill_from blank prev l.
Proof.
  revert prev. induction l as [|x l IH]; intros prev Hprev; simpl; [reflexivity|].
  destruct (blank x) eqn:E; simpl.
  - destruct prev as [p|]; simpl.
    + rewrite (Hprev p eq_refl). f_equal. now apply IH.
    + rewrite E. simpl. f_equal. now apply IH.
  - rewrite E. f_equal. apply IH. intros p [= <-]. exact E.
Qed.

Lemma ffill_idempotent {A} (blank : A -> bool) (l : list A) :
  Pandas.ffill blank (Pandas.ffill blank l) = Pandas.ffill blank l.
Proof. apply ffill_from_idempotent. discriminate. Qed.

Lemma ffill_length {A} (blank : A -> bool) (l : list A) :
  length (Pandas.ffill blank l) = length l.
Proof. apply ffill_from_length. Qed.

(** X16. Repairing a repaired sheet changes nothing. *)
Theorem repair_index_idempotent
    (esum : Pandas.frame (option string * option string) string) :
  repair_index (repair_index esum) = repair_index esum.
Proof.
  unfold repair_index, Pandas.set_index, Pandas.fillna_ffill, Pandas.reset_index.
  simpl. f_equal.
  - rewrite !map_fmap.
    rewrite fst_zip by (rewrite !ffill_length, !length_fmap; lia).
    rewrite snd_zip by (rewrite !ffill_length, !length_fmap; lia).
    now rewrite !ffill_idempotent.
  - rewrite List.map_map. apply map_ext. intros [c v]. simpl.
    now rewrite ffill_idempotent.
Qed.

(** X17. The repair keeps the shape of the sheet: as many rows, the same
    column labels in the same order, and as many cells in every column. *)
Theorem repair_index_shape
    (esum : Pandas.frame (option string * option string) string) :
  length (Pandas.index (repair_index esum)) = length (Pandas.index esum)
  /\ Pandas.columns (repair_index esum) = Pandas.columns esum
  /\ List.map (fun cv => length (snd cv)) (Pandas.cols (repair_index esum))
     = List.map (fun cv => length (snd cv)) (Pandas.cols esum).
Proof.
  rewrite repair_index_index, repair_index_cols. split; [|split].
  - rewrite length_zip, !ffill_length, !length_map. lia.
  - unfold Pandas.columns. rewrite repair_index_cols, List.map_map. reflexivity.
  - rewrite List.map_map. apply map_ext. intros cv. simpl. apply ffill_length.
Qed.

(** ** Cost types and commodities a scenario does not have *)

(** The cell of the cost table, from the sheet of the scenario. *)
Lemma run_cost_cell fs files files' rep i rf wb c lbl v j t :
  compare_scenarios_body fs files = (files', Ok rep) ->
  input_contract fs files ->
  files' !! i = Some rf -> excel fs rf = Some wb ->
  sheet_costs wb = Some c -> Pandas.cols c = [(lbl, v)] ->
  Pandas.columns (costs rep) !! j = Some t ->
  Pandas.iat (costs rep) i j
  = Some (default Pandas.nan (Pandas.at_label (Pandas.index c) v t) / 1e9)%float.
Proof.
  intros Hrun Hin Hi Hwb Hsc Hcols Hj.
  destruct (run_costs _ _ _ _ Hrun Hin) as (cs & es & Hread & Hp & Hcs & Hlen & Hrep).
  destruct (read_lookup _ _ _ _ _ _ _ Hread Hi Hwb) as (c' & raw & Hsc' & _ & Hci & _).
  assert (c' = c) by congruence. subst c'.
  rewrite Hrep in *.
  set (u := Pandas.unique (List.concat (List.map Pandas.index cs))) in *.
  assert (Hk : scenario_names_of files' !! i = Some (scenario_name rf)).
  { unfold scenario_names_of. now rewrite lookup_map, Hi. }
  rewrite (cost_table_iat _ i j t (scenario_name rf, lbl)
             (Pandas.reindex (Pandas.index c) u v)).
  - rewrite reindex_at_label; [reflexivity|apply NoDup_unique|].
    rewrite cost_table_columns in Hj. simpl in Hj.
    apply list_elem_of_lookup_2 in Hj. now rewrite (sort_perm String.ltb) in Hj.
  - apply NoDup_unique.
  - apply concat_rectangular.
  - exact Hj.
  - simpl. apply one_column_lookup; [now apply one_column_zip| |exact Hcols].
    now apply lookup_zip_Some.
Qed.

(** The cell of the energy table, from the loaded sheet of the
    scenario. *)
Lemma run_energy_cell fs files files' rep i rf wb raw j com :
  compare_scenarios_body fs files = (files', Ok rep) ->
  input_contract fs files ->
  NoDup (scenario_names_of files) ->
  files' !! i = Some rf -> excel fs rf = Some wb ->
  sheet_commodity_sums wb = Some raw ->
  Pandas.columns (esums rep) !! j = Some com ->
  Pandas.iat (esums rep) i j
  = Some (created_sum (repair_index raw) com / 1e3)%float.
Proof.
  intros Hrun Hin Hnd Hi Hwb Hss Hj.
  destruct (run_energy _ _ _ _ Hrun Hin Hnd)
    as (cs & es & g & Hread & Hrep & Hgnd & Hgcols & Hgrect & Hcells).
  destruct (read_lookup _ _ _ _ _ _ _ Hread Hi Hwb) as (c & raw' & _ & Hss' & _ & Hei).
  assert (raw' = raw) by congruence. subst raw'.
  assert (Hk : scenario_names_of files' !! i = Some (scenario_name rf)).
  { unfold scenario_names_of. now rewrite lookup_map, Hi. }
  destruct (Hcells i _ _ Hk Hei) as (w & Hw & Hwp).
  rewrite Hrep in *.
  rewrite (energy_table_iat g i j com (scenario_name rf) w Hgnd Hgrect Hj Hw).
  assert (Hin_g : com ∈ Pandas.index g).
  { apply list_elem_of_lookup_2 in Hj.
    rewrite energy_table_columns, (sort_perm Pandas.label_ltb) in Hj.
    now apply select_sub in Hj. }
  apply list_elem_of_lookup_1 in Hin_g as [p Hp].
  now rewrite (at_label_lookup _ _ _ _ Hgnd Hp), (Hwp p com Hp).
Qed.

(** X23. After a run over result files that keep the input contract,
    the cell of the cost table in the row of a scenario and the column of a
    cost type is the cell of that cost type in the [Costs] sheet of the
    scenario's file, divided by 1e9; it is blank when the sheet has no row
    for the cost type. *)
Theorem cost_values_scaled fs files files' rep i rf wb c lbl v j t :
  compare_scenarios_body fs files = (files', Ok rep) ->
  input_contract fs files ->
  files' !! i = Some rf -> excel fs rf = Some wb ->
  sheet_costs wb = Some c -> Pandas.cols c = [(lbl, v)] ->
  Pandas.columns (costs rep) !! j = Some t ->
  Pandas.iat (costs rep) i j
  = Some (default Pandas.nan (Pandas.at_label (Pandas.index c) v t) / 1e9)%float.
Proof. apply run_cost_cell. Qed.

(** The investment of the first row of the example run. *)
Lemma cost_values_scaled_witness :
  Pandas.iat (costs Examples.report_books) 0 2 = Some (5e9 / 1e9)%float.
Proof.
  exact (cost_values_scaled Examples.fs_books Examples.sorted_files
           Examples.moved_files Examples.report_books
           0 "result/run/scenario_co2_limit.xlsx"
           (Examples.book Examples.costs_co2 Examples.sums_co2)
           Examples.costs_co2 "Costs" [5e9; -2e9; 0]%float 2 "Invest"
           books_run books_contract eq_refl eq_refl eq_refl eq_refl eq_refl).
Defined.

(** X19. In the row of a scenario whose [Costs] sheet lacks a cost type
    that another scenario has, the cost table has a blank cell. *)
Theorem absent_cost_type_is_blank fs files files' rep i rf wb c j t :
  compare_scenarios_body fs files = (files', Ok rep) ->
  input_contract fs files ->
  files' !! i = Some rf -> excel fs rf = Some wb ->
  sheet_costs wb = Some c ->
  Pandas.columns (costs rep) !! j = Some t ->
  ~ t ∈ Pandas.index c ->
  Pandas.iat (costs rep) i j = Some Pandas.nan.
Proof.
  intros Hrun Hin Hi Hwb Hsc Hj Hnot.
  assert (Hc : costs_contract c).
  { destruct (compare_scenarios_body_Ok _ _ _ _ Hrun) as (_ & _ & _ & _ & Hp & _).
    destruct (input_contract_workbook fs files rf wb Hin) as [Hcc _];
      [rewrite <- Hp; eapply list_elem_of_lookup_2, Hi|exact Hwb|].
    now rewrite Hsc in Hcc. }
  destruct Hc as (Hone & _ & _).
  destruct (one_column_inv c Hone) as (lbl & v & Hcols).
  rewrite (run_cost_cell _ _ _ _ _ _ _ _ _ _ _ _ Hrun Hin Hi Hwb Hsc Hcols Hj).
  now rewrite (at_label_absent _ _ _ Hnot).
Qed.

Lemma gaps_run :
  compare_scenarios_body Examples.fs_gaps Examples.gap_files
  = (Examples.gap_files, Ok Examples.report_gaps).
Proof. vm_compute. reflexivity. Qed.

Lemma gaps_names_nodup : NoDup (scenario_names_of Examples.gap_files).
Proof. apply (bool_decide_unpack _). vm_compute. exact I. Qed.

Lemma gaps_contract : input_contract Examples.fs_gaps Examples.gap_files.
Proof.
  unfold input_contract, Examples.gap_files.
  constructor; [|constructor; [|constructor]].
  - change (workbook_contract (Examples.book Examples.costs_wind Examples.sums_wind)).
    split; (split; [simpl; lia|split; [|repeat constructor]]);
      apply (bool_decide_unpack _); vm_compute; exact I.
  - change (workbook_contract (Examples.book Examples.costs_sun Examples.sums_sun)).
    split; (split; [simpl; lia|split; [|repeat constructor]]);
      apply (bool_decide_unpack _); vm_compute; exact I.
Qed.

Lemma absent_cost_type_is_blank_witness :
  Pandas.columns (costs Examples.report_gaps) !! 0 = Some "Fuel"
  /\ Pandas.iat (costs Examples.report_gaps) 1 0 = Some Pandas.nan.
Proof.
  split; [reflexivity|].
  apply (absent_cost_type_is_blank Examples.fs_gaps Examples.gap_files
           Examples.gap_files Examples.report_gaps 1 "scenario_sun.xlsx"
           (Examples.book Examples.costs_sun Examples.sums_sun)
           Examples.costs_sun 0 "Fuel"
           gaps_run gaps_contract eq_refl eq_refl eq_refl eq_refl).
  intros H. apply elem_of_cons in H as [H|H]; [discriminate|inversion H].
Defined.

Lemma nansum_blanks {A} (l : list A) :
  Pandas.nansum (List.map (fun _ => Pandas.nan) l) = 0%float.
Proof.
  unfold Pandas.nansum. generalize 0%float.
  induction l as [|x l IH]; intros acc; simpl; [reflexivity|].
  change (Pandas.isna Pandas.nan) with true. cbv iota. apply IH.
Qed.

(** X20. In the row of a scenario whose commodity sheet has no row of
    ([Created], commodity) for a commodity that another scenario
    produces, the energy table has a zero. *)
Theorem absent_commodity_is_zero fs files files' rep i rf wb raw j com :
  compare_scenarios_body fs files = (files', Ok rep) ->
  input_contract fs files ->
  NoDup (scenario_names_of files) ->
  files' !! i = Some rf -> excel fs rf = Some wb ->
  sheet_commodity_sums wb = Some raw ->
  Pandas.columns (esums rep) !! j = Some com ->
  ~ (Some "Created", com) ∈ Pandas.index (repair_index raw) ->
  Pandas.iat (esums rep) i j = Some 0%float.
Proof.
  intros Hrun Hin Hnd Hi Hwb Hss Hj Hnot.
  rewrite (run_energy_cell _ _ _ _ _ _ _ _ _ _ Hrun Hin Hnd Hi Hwb Hss Hj).
  unfold created_sum, created_sum_at.
  rewrite (map_ext _ (fun _ => Pandas.nan)).
  - now rewrite nansum_blanks.
  - intros cv. now rewrite (at_label_absent _ _ _ Hnot).
Qed.

Lemma absent_commodity_is_zero_witness :
  Pandas.columns (esums Examples.report_gaps) !! 0 = Some (Some "Elec")
  /\ Pandas.iat (esums Examples.report_gaps) 1 0 = Some 0%float.
Proof.
  split; [reflexivity|].
  apply (absent_commodity_is_zero Examples.fs_gaps Examples.gap_files
           Examples.gap_files Examples.report_gaps 1 "scenario_sun.xlsx"
           (Examples.book Examples.costs_sun Examples.sums_sun)
           Examples.sums_sun 0 (Some "Elec")
           gaps_run gaps_contract gaps_names_nodup eq_refl eq_refl eq_refl eq_refl).
  intros H. apply elem_of_cons in H as [H|H]; [discriminate|inversion H].
Defined.

(** ** Plain scenario names *)

Lemma prefix_append (p s : string) : String.prefix p (p +:+ s) = true.
Proof.
  induction p as [|c p IH]; [now destruct s|].
  change (String.prefix (String c p) (String c (p +:+ s)) = true).
  cbn [String.prefix]. destruct (ascii_dec c c); [exact IH|contradiction].
Qed.

Lemma prefix_occurs (p s : string) c :
  String.prefix p s = true -> occurs c p -> occurs c s.
Proof.
  revert s. induction p as [|a p IH]; intros s Hp Hc; [destruct Hc|].
  destruct s as [|b s]; [discriminate|].
  cbn [String.prefix] in Hp. destruct (ascii_dec a b) as [<-|]; [|discriminate].
  apply occurs_cons in Hc as [Hc|Hc]; apply occurs_cons; [now left|right].
  now apply IH.
Qed.

(** Where a character of [old] does not occur, nothing is replaced. *)
Lemma replace_from_absent old new s c :
  occurs c old -> ~ occurs c s -> Py.replace_from 0 old new s = s.
Proof.
  intros Hold. induction s as [|a s IH]; intros Hs; [reflexivity|].
  cbn [Py.replace_from].
  destruct (String.prefix old (String a s)) eqn:E.
  - exfalso. apply Hs. eapply prefix_occurs; eassumption.
  - f_equal. apply IH. intros H. apply Hs. apply occurs_cons. now right.
Qed.

(** The characters of an occurrence just replaced are passed over. *)
Lemma replace_from_skip old new (s1 s2 : string) :
  Py.replace_from (String.length s1) old new (s1 +:+ s2)
  = Py.replace_from 0 old new s2.
Proof.
  induction s1 as [|a s1 IH]; [reflexivity|].
  change (Py.replace_from (S (String.length s1)) old new (String a (s1 +:+ s2))
          = Py.replace_from 0 old new s2).
  cbn [Py.replace_from]. exact IH.
Qed.

(** An occurrence at the front is replaced and the scan goes on behind
    it. *)
Lemma replace_from_front a old new s :
  Py.replace_from 0 (String a old) new (String a old +:+ s)
  = new +:+ Py.replace_from 0 (String a old) new s.
Proof.
  change (String a old +:+ s) with (String a (old +:+ s)).
  cbn [Py.replace_from].
  change (String a (old +:+ s)) with (String a old +:+ s).
  rewrite prefix_append. f_equal.
  replace (String.length (String a old) - 1) with (String.length old)
    by (cbn [String.length]; lia).
  apply replace_from_skip.
Qed.

Lemma replace_from_before old new s t c :
  occurs c old -> ~ occurs c s ->
  (forall a r, old = String a r -> ~ occurs a s) ->
  Py.replace_from 0 old new (s +:+ t) = s +:+ Py.replace_from 0 old new t.
Proof.
  intros Hc Hs Hfirst. induction s as [|a s IH]; [reflexivity|].
  change (String a s +:+ t) with (String a (s +:+ t)).
  cbn [Py.replace_from].
  destruct (String.prefix old (String a (s +:+ t))) eqn:E.
  - exfalso. destruct old as [|b r]; [destruct Hc|].
    cbn [String.prefix] in E. destruct (ascii_dec b a) as [->|]; [|discriminate].
    apply (Hfirst a r eq_refl). apply occurs_cons. now left.
  - change (String a s +:+ Py.replace_from 0 old new t)
      with (String a (s +:+ Py.replace_from 0 old new t)).
    f_equal. apply IH.
    + intros H. apply Hs. apply occurs_cons. now right.
    + intros b r Hb H. apply (Hfirst b r Hb). apply occurs_cons. now right.
Qed.

Lemma has_sep_not_occurs s : ~ occurs "/" s -> OsPath.has_sep s = false.
Proof.
  induction s as [|c s IH]; [reflexivity|].
  intros H. cbn [OsPath.has_sep].
  rewrite IH by (intros Hs; apply H, occurs_cons; now right).
  destruct (Ascii.eqb c OsPath.sep) eqn:E; [|reflexivity].
  apply Ascii.eqb_eq in E. exfalso. apply H, occurs_cons. now left.
Qed.

Ltac absurd_occurrence H :=
  repeat (destruct H as [H|H]; [discriminate H|]); destruct H.

(** X21. For a file [scenario_<body>.xlsx] in any folder, with a body that
    has no underscore, dot, space or separator, the scenario name is the
    body: on such names the script does drop the prefix and the extension
    and nothing else. *)
Theorem scenario_name_plain (d body : string) :
  ~ occurs "_" body -> ~ occurs "." body -> ~ occurs " " body ->
  ~ occurs "/" body ->
  scenario_name (OsPath.join d ("scenario_" +:+ body +:+ ".xlsx")) = body.
Proof.
  intros Hu Hd Hs Hsep.
  assert (Hn : OsPath.has_sep ("scenario_" +:+ body +:+ ".xlsx") = false).
  { rewrite !has_sep_app, (has_sep_not_occurs body Hsep). reflexivity. }
  rewrite (scenario_name_ignores_folder d _ Hn). unfold scenario_name.
  rewrite (basename_no_sep _ Hn).
  assert (H1 : Py.replace "_" " " ("scenario_" +:+ body +:+ ".xlsx")
               = "scenario " +:+ body +:+ ".xlsx").
  { change (Py.replace "_" " " ("scenario_" +:+ body +:+ ".xlsx"))
      with (Py.replace_from 0 "_" " " ("scenario" +:+ "_" +:+ body +:+ ".xlsx")).
    rewrite (replace_from_before "_" " " "scenario" _ "_");
      [|now left|intros H; absurd_occurrence H
       |intros a r [= <- <-] H; absurd_occurrence H].
    rewrite (replace_from_front "_" "" " " (body +:+ ".xlsx")).
    rewrite (replace_from_absent "_" " " (body +:+ ".xlsx") "_"); [reflexivity|now left|].
    rewrite occurs_append. intros [H|H]; [now apply Hu|].
    absurd_occurrence H. }
  rewrite H1.
  assert (H2 : Py.replace ".xlsx" "" ("scenario " +:+ body +:+ ".xlsx")
               = "scenario " +:+ body).
  { change (Py.replace ".xlsx" "" ("scenario " +:+ body +:+ ".xlsx"))
      with (Py.replace_from 0 ".xlsx" "" ("scenario " +:+ body +:+ ".xlsx")).
    rewrite <- (str_append_assoc "scenario " body ".xlsx").
    rewrite (replace_from_before ".xlsx" "" ("scenario " +:+ body) _ ".").
    - change (Py.replace_from 0 ".xlsx" "" ".xlsx") with "".
      clear. induction ("scenario " +:+ body) as [|a s IH]; [reflexivity|].
      change (String a s +:+ "") with (String a (s +:+ "")). now rewrite IH.
    - now left.
    - rewrite occurs_append. intros [H|H]; [|now apply Hd].
      absurd_occurrence H.
    - intros a r [= <- <-]. rewrite occurs_append. intros [H|H]; [|now apply Hd].
      absurd_occurrence H. }
  rewrite H2.
  change (Py.replace "scenario " "" ("scenario " +:+ body))
    with (Py.replace_from 0 "scenario " "" ("scenario " +:+ body)).
  rewrite (replace_from_front "s" "cenario " "" body).
  change ("" +:+ ?x) with x.
  apply (replace_from_absent "scenario " "" body " "); [|exact Hs].
  do 8 right. now left.
Qed.

Lemma scenario_name_plain_witness :
  scenario_name (OsPath.join "result/run" ("scenario_" +:+ "base" +:+ ".xlsx"))
  = "base".
Proof.
  apply scenario_name_plain; intros H; absurd_occurrence H.
Defined.
